(** * Inventory optimization engine of Flipkart Minutes: a shallow embedding

    This development embeds [src/analysis/inventory_optimization.py]
    (class [InventoryOptimizer]) and proves properties of its feature
    builder, forecaster, stock-level planner, restock scheduler and cost
    estimator.

    Modelling conventions.
    - A Python/NumPy float is an exact rational ([Q]); a missing value
      ([NaN] in a pandas column) is [None] in an [option Q] column.  The
      one place where the code can produce an infinity (the MAPE metric)
      uses the extended numbers [xfloat].  The machine rounds every
      operation, so a comparison of a computed difference with a threshold
      can fall on the other side than the exact one; the statements on the
      scheduler are therefore in terms of the projection that the loop
      computes, whatever its value, and of the recorded columns.
    - A pandas [Timestamp] is the number of seconds since the epoch ([Z]).
    - A data frame is the list of its rows, in row order; the default
      [RangeIndex] is the position in the list.  Sorting is a stable sort;
      pandas sorts the two keys of the schedule with a stable sort, and the
      single key [timestamp] with quicksort, which leaves the order of rows
      with equal timestamps undetermined: there the model agrees with the
      code when the timestamps of a category are distinct, and the
      statements that depend on the order within a category assume it.
    - A Python exception is the [Raise] case of [result]; a method that
      returns [None] returns [None] of an [option].
    - NumPy's [pi], [sin], [cos], [sqrt] and scikit-learn's scaler and
      linear regression are external: they are the variables of
      [Section Optimizer]. *)

From Stdlib Require Import QArith ZArith List String Lia Lqa Bool.
From Stdlib Require Import Sorting.Sorted Sorting.Permutation.
From Stdlib Require Import Qround Qabs.
From stdpp Require Import gmap strings.
Import ListNotations.
Open Scope Q_scope.

(** ** Python, NumPy and pandas primitives *)

Module Py.

Inductive exn : Type :=
| IndexError      (* [.iloc[0]] on an empty selection *)
| KeyError        (* a column that the frame does not have *)
| ValueError      (* scikit-learn: an array with 0 samples, or NaN input *)
| TypeError       (* subscripting [None] *)
| AttributeError. (* a method of [None] *)

Inductive result (A : Type) : Type :=
| Ok (a : A)
| Raise (e : exn).
Arguments Ok {A} a.
Arguments Raise {A} e.

Definition bind {A B : Type} (r : result A) (k : A -> result B) : result B :=
  match r with
  | Ok a => k a
  | Raise e => Raise e
  end.

Definition Qlt_bool (a b : Q) : bool := negb (Qle_bool b a).

(** [max(a, b)] of Python: the second argument only when strictly larger. *)
Definition max (a b : Q) : Q := if Qlt_bool a b then b else a.

(** Rounding to the nearest integer, ties to even. *)
Definition round_half_even (x : Q) : Z :=
  let f := Qfloor x in
  match Qcompare (x - inject_Z f) (1 # 2) with
  | Lt => f
  | Gt => (f + 1)%Z
  | Eq => if Z.even f then f else (f + 1)%Z
  end.

Definition pow10 (ndigits : nat) : Q := inject_Z (10 ^ Z.of_nat ndigits).

(** [round(x, ndigits)]. *)
Definition round (x : Q) (ndigits : nat) : Q :=
  inject_Z (round_half_even (x * pow10 ndigits)) / pow10 ndigits.

Definition sum (l : list Q) : Q := fold_right Qplus 0 l.

Definition mean (l : list Q) : Q := sum l / inject_Z (Z.of_nat (length l)).

(** [Series.unique()]: the distinct values in order of first appearance. *)
Fixpoint unique (l : list string) : list string :=
  match l with
  | [] => []
  | x :: t => x :: List.filter (fun y => negb (String.eqb x y)) (unique t)
  end.

(** [sort_values]: a stable sort, written as an insertion sort.  pandas
    sorts a single key with quicksort, which is not stable: for rows with
    equal keys the result of the code is one of the sorted arrangements, not
    necessarily this one. *)
Fixpoint insert_sorted {A : Type} (leb : A -> A -> bool) (x : A) (l : list A) : list A :=
  match l with
  | [] => [x]
  | y :: t => if leb x y then x :: l else y :: insert_sorted leb x t
  end.

Definition sort_values {A : Type} (leb : A -> A -> bool) (l : list A) : list A :=
  fold_right (insert_sorted leb) [] l.

(** [Series.shift(n)] on the values of a series. *)
Definition shift (n : nat) (l : list Q) : list (option Q) :=
  firstn (length l) (repeat None n ++ map Some l).

(** [Series.rolling(window=3).mean()]: missing until three values are seen. *)
Fixpoint rolling_mean_3 (prev2 prev1 : option Q) (l : list Q) : list (option Q) :=
  match l with
  | [] => []
  | x :: t =>
      match prev2, prev1 with
      | Some a, Some b => Some ((a + b + x) / 3)
      | _, _ => None
      end :: rolling_mean_3 prev1 (Some x) t
  end.

(** [fillna(method='bfill')] on one column: a missing entry takes the next
    entry below it that is present. *)
Fixpoint bfill (col : list (option Q)) : list (option Q) :=
  match col with
  | [] => []
  | x :: t =>
      let t' := bfill t in
      match x with
      | Some _ => x :: t'
      | None => hd None t' :: t'
      end
  end.

(** [fillna(method='ffill')] on one column: a missing entry takes the last
    entry above it that is present. *)
Fixpoint ffill_from (last : option Q) (col : list (option Q)) : list (option Q) :=
  match col with
  | [] => []
  | Some v :: t => Some v :: ffill_from (Some v) t
  | None :: t => last :: ffill_from last t
  end.

Definition ffill (col : list (option Q)) : list (option Q) := ffill_from None col.

(** Extended numbers, for the one expression of the module that divides by
    data: [0/0] is [NaN], [x/0] is an infinity. *)
Inductive xfloat : Type :=
| Fin (q : Q)
| PInf
| NInf
| NaN.

Definition xdiv (a b : Q) : xfloat :=
  if Qeq_bool b 0 then
    match Qcompare a 0 with
    | Eq => NaN
    | Gt => PInf
    | Lt => NInf
    end
  else Fin (a / b).

Definition xabs (x : xfloat) : xfloat :=
  match x with
  | Fin q => Fin (Qabs q)
  | PInf | NInf => PInf
  | NaN => NaN
  end.

Definition xadd (x y : xfloat) : xfloat :=
  match x, y with
  | NaN, _ | _, NaN => NaN
  | PInf, NInf | NInf, PInf => NaN
  | PInf, _ | _, PInf => PInf
  | NInf, _ | _, NInf => NInf
  | Fin a, Fin b => Fin (a + b)
  end.

(** Multiplication or division by a positive finite constant. *)
Definition xscale (f : Q -> Q) (x : xfloat) : xfloat :=
  match x with
  | Fin q => Fin (f q)
  | other => other
  end.

Definition xsum (l : list xfloat) : xfloat := fold_right xadd (Fin 0) l.

(** [np.mean] of a non-empty array. *)
Definition xmean (l : list xfloat) : xfloat :=
  xscale (fun s => s / inject_Z (Z.of_nat (length l))) (xsum l).

Definition xround (x : xfloat) (ndigits : nat) : xfloat :=
  xscale (fun q => round q ndigits) x.

Definition is_finite (x : xfloat) : bool :=
  match x with
  | Fin _ => true
  | _ => false
  end.

End Py.

Import Py.

#[global] Instance result_ret : MRet result := fun A a => Ok a.
#[global] Instance result_bind : MBind result := fun A B k r => Py.bind r k.

(** ** Data model *)

(** A row of [sample_data]. *)
Record DemandRecord : Type := {
  timestamp : Z;
  dr_category : string;
  demand_quantity : Q
}.

(** [timestamp.dt.hour] and [timestamp.dt.dayofweek] (Monday is 0; the epoch
    was a Thursday). *)
Definition dt_hour (t : Z) : Z := ((t / 3600) mod 24)%Z.
Definition dt_dayofweek (t : Z) : Z := ((t / 86400 + 3) mod 7)%Z.

(** A row of [inventory_data]. *)
Record InventoryItem : Type := {
  dark_store_id : string;
  product_name : string;
  inv_category : string;
  current_stock : Q;
  lead_time_hours : Q;
  storage_cost_per_unit : Q;
  supplier_reliability : Q
}.

(** A row of the frame that [create_demand_features] returns. *)
Record FeatureRow : Type := {
  fr_record : DemandRecord;
  hour_sin : Q;
  hour_cos : Q;
  day_sin : Q;
  day_cos : Q;
  demand_lag_1 : option Q;
  demand_lag_2 : option Q;
  demand_ma_3 : option Q
}.

(** The value stored under a category in [forecast_models].  The fitted
    scaler and regression are determined by the training split, which is
    what [model] records; [features] is the constant list of the seven
    feature columns. *)
Record Performance : Type := {
  MAE : Q;
  RMSE : Q;
  MAPE : xfloat
}.

Record ModelInfo : Type := {
  model : list (list Q * Q);
  performance : Performance
}.

(** A row of the frame that [forecast_demand] returns. *)
Record ForecastPoint : Type := {
  fp_timestamp : Z;
  fp_hour : Z;
  fp_category : string;
  predicted_demand : Q
}.

(** A row of the frame that [calculate_optimal_stock_levels] returns. *)
Record StockLevelPlan : Type := {
  sl_dark_store_id : string;
  sl_product_name : string;
  sl_category : string;
  sl_current_stock : Q;
  avg_daily_demand : Q;
  safety_stock : Q;
  reorder_point : Q;
  optimal_max_stock : Q;
  eoq : Q;
  sl_lead_time_hours : Q;
  service_level : Q
}.

Inductive Urgency : Type := Critical | High | Medium | Low.

(** A row of the frame that [generate_restocking_schedule] returns. *)
Record RestockAction : Type := {
  ra_dark_store_id : string;
  ra_product_name : string;
  ra_category : string;
  ra_current_stock : Q;
  predicted_demand_24h : Q;
  projected_stock_24h : Q;
  ra_reorder_point : Q;
  needs_restock : bool;
  urgency : Urgency;
  suggested_order_qty : Q;
  ra_lead_time_hours : Q;
  ra_supplier_reliability : Q
}.

Record CostAnalysis : Type := {
  total_holding_cost_daily : Q;
  total_stockout_cost_daily : Q;
  total_inventory_cost_daily : Q;
  cost_by_category : gmap string Q;
  cost_by_store : gmap string Q
}.

(** A row of the frame [demand_stats] of the planner. [ds_std] is missing
    for a category with a single record. *)
Record DemandStats : Type := {
  ds_category : string;
  ds_mean : Q;
  ds_std : option Q;
  ds_max : Q
}.

(** The attributes of an [InventoryOptimizer] object ([demand_patterns] is
    loaded and never read). [forecast_models] is a [dict] whose iteration
    order is used, hence an association list in insertion order.  The three
    cost columns are the columns that [calculate_inventory_costs] adds to
    [inventory_data]; a column that was never assigned is [None]. *)
Record InventoryOptimizer : Type := {
  sample_data : option (list DemandRecord);
  inventory_data : option (list InventoryItem);
  holding_cost : option (list Q);
  stockout_cost : option (list Q);
  total_cost : option (list Q);
  forecast_models : list (string * ModelInfo)
}.

(** [d[k] = v] on an insertion-ordered [dict]. *)
Fixpoint dict_set {V : Type} (k : string) (v : V) (d : list (string * V)) : list (string * V) :=
  match d with
  | [] => [(k, v)]
  | (k', v') :: t => if String.eqb k' k then (k, v) :: t else (k', v') :: dict_set k v t
  end.

Definition dict_get {V : Type} (k : string) (d : list (string * V)) : option V :=
  option_map snd (find (fun kv => String.eqb (fst kv) k) d).

Definition indexed {A : Type} (l : list A) : list (nat * A) :=
  combine (seq 0 (length l)) l.

(** A series: values labelled by the index of the row they belong to. *)
Definition series_at (s : list (nat * option Q)) (i : nat) : option Q :=
  match find (fun p => Nat.eqb (fst p) i) s with
  | Some p => snd p
  | None => None
  end.

Definition fr_category (r : FeatureRow) : string := dr_category (fr_record r).

Definition set_lags (r : FeatureRow) (l1 l2 m3 : option Q) : FeatureRow :=
  {| fr_record := fr_record r;
     hour_sin := hour_sin r; hour_cos := hour_cos r;
     day_sin := day_sin r; day_cos := day_cos r;
     demand_lag_1 := l1; demand_lag_2 := l2; demand_ma_3 := m3 |}.

(** [data[data['category'] == category].sort_values('timestamp')], with the
    index label of every row.  It is the order of the code when the
    timestamps of the category are distinct. *)
Definition category_frame (c : string) (data : list FeatureRow) : list (nat * FeatureRow) :=
  sort_values
    (fun a b => (timestamp (fr_record (snd a)) <=? timestamp (fr_record (snd b)))%Z)
    (List.filter (fun ir => String.eqb (fr_category (snd ir)) c) (indexed data)).

(** One iteration of the loop "Lag features": the three series are computed
    on the category's rows in time order and written back to the rows of the
    category by index label. *)
Definition lag_features_for (data : list FeatureRow) (c : string) : list FeatureRow :=
  let category_data := category_frame c data in
  let idx := map fst category_data in
  let demand := map (fun ir => demand_quantity (fr_record (snd ir))) category_data in
  let lag_1 := combine idx (shift 1 demand) in
  let lag_2 := combine idx (shift 2 demand) in
  let ma_3 := combine idx (rolling_mean_3 None None demand) in
  map (fun ir =>
         if String.eqb (fr_category (snd ir)) c
         then set_lags (snd ir) (series_at lag_1 (fst ir)) (series_at lag_2 (fst ir))
                       (series_at ma_3 (fst ir))
         else snd ir)
      (indexed data).

Fixpoint set_lag_columns (data : list FeatureRow) (c1 c2 c3 : list (option Q)) : list FeatureRow :=
  match data, c1, c2, c3 with
  | r :: data', a :: c1', b :: c2', c :: c3' =>
      set_lags r a b c :: set_lag_columns data' c1' c2' c3'
  | _, _, _, _ => []
  end.

(** [data.fillna(method='bfill').fillna(method='ffill')]: every column of the
    whole frame, in row order.  Only the lag columns can hold missing values. *)
Definition fillna_bfill_ffill (data : list FeatureRow) : list FeatureRow :=
  set_lag_columns data
    (ffill (bfill (map demand_lag_1 data)))
    (ffill (bfill (map demand_lag_2 data)))
    (ffill (bfill (map demand_ma_3 data))).

(** [X = category_data[feature_columns].dropna()] keeps the rows whose seven
    features are all present. *)
Definition feature_vector (r : FeatureRow) : option (list Q) :=
  match demand_lag_1 r, demand_lag_2 r, demand_ma_3 r with
  | Some l1, Some l2, Some m3 =>
      Some [hour_sin r; hour_cos r; day_sin r; day_cos r; l1; l2; m3]
  | _, _, _ => None
  end.

Definition dropna (rows : list FeatureRow) : list (list Q * Q) :=
  omap (fun r => option_map (fun x => (x, demand_quantity (fr_record r))) (feature_vector r)) rows.

(** [int(len(X) * 0.8)]. *)
Definition split_idx (n : nat) : nat := (4 * n / 5)%nat.

(** [np.mean(np.abs((y_test - y_pred) / y_test)) * 100] *)
Definition mape_of (y_test y_pred : list Q) : xfloat :=
  xscale (fun m => m * 100)
    (xmean (map (fun yp => xabs (xdiv (fst yp - snd yp) (fst yp))) (combine y_test y_pred))).

Definition mean_absolute_error (y_test y_pred : list Q) : Q :=
  mean (map (fun yp => Qabs (fst yp - snd yp)) (combine y_test y_pred)).

Definition mean_squared_error (y_test y_pred : list Q) : Q :=
  mean (map (fun yp => (fst yp - snd yp) * (fst yp - snd yp)) (combine y_test y_pred)).

(** [{0.90: 1.28, 0.95: 1.65, 0.99: 2.33}.get(service_level, 1.65)] *)
Definition z_score (service_level : Q) : Q :=
  if Qeq_bool service_level (90 # 100) then 128 # 100
  else if Qeq_bool service_level (95 # 100) then 165 # 100
  else if Qeq_bool service_level (99 # 100) then 233 # 100
  else 165 # 100.

(** [urgency_order] *)
Definition urgency_order (u : Urgency) : Z :=
  match u with
  | Critical => 4
  | High => 3
  | Medium => 2
  | Low => 1
  end.

(** The [if]/[elif] chain of the scheduler. *)
Definition classify_urgency (projected_stock_24h reorder_point : Q) : Urgency :=
  if Qle_bool projected_stock_24h 0 then Critical
  else if Qle_bool projected_stock_24h (reorder_point * (1 # 2)) then High
  else if Qle_bool projected_stock_24h reorder_point then Medium
  else Low.

(** The order of
    [sort_values(['urgency_score', 'projected_stock_24h'], ascending=[False, True])]. *)
Definition schedule_leb (a b : RestockAction) : bool :=
  let sa := urgency_order (urgency a) in
  let sb := urgency_order (urgency b) in
  (sb <? sa)%Z || ((sa =? sb)%Z && Qle_bool (projected_stock_24h a) (projected_stock_24h b)).

(** [df.tail(n)] *)
Definition tail {A : Type} (n : nat) (l : list A) : list A := skipn (length l - n) l.

(** [Series.iloc[-k]] for [k >= 1] *)
Definition iloc_neg {A : Type} (k : nat) (l : list A) : option A := nth_error (rev l) (k - 1).

Definition list_max_Z (l : list Z) : option Z :=
  match l with
  | [] => None
  | x :: t => Some (fold_left Z.max t x)
  end.

Definition list_min_Z (l : list Z) : option Z :=
  match l with
  | [] => None
  | x :: t => Some (fold_left Z.min t x)
  end.

Definition list_max_Q (l : list Q) : Q :=
  match l with
  | [] => 0
  | x :: t => fold_left Py.max t x
  end.

(** [groupby('category')[column].sum()] as an insertion-ordered table. *)
Definition groupby_sum (rows : list (string * Q)) : list (string * Q) :=
  map (fun c => (c, sum (map snd (List.filter (fun r => String.eqb (fst r) c) rows))))
      (unique (map fst rows)).

(** [df.groupby(key)[column].sum().round(2).to_dict()] *)
Definition groupby_sum_dict (rows : list (string * Q)) : gmap string Q :=
  (fun v => round v 2) <$>
    fold_left (fun (m : gmap string Q) kv => <[fst kv := default 0 (m !! fst kv) + snd kv]> m) rows ∅.

(** [dict(zip(keys, values))] *)
Definition dict_zip (kvs : list (string * Q)) : gmap string Q :=
  fold_left (fun (m : gmap string Q) kv => <[fst kv := snd kv]> m) kvs ∅.

Definition demands_of (c : string) (data : list DemandRecord) : list Q :=
  map demand_quantity (List.filter (fun r => String.eqb (dr_category r) c) data).

(** [sample_data.groupby('category')['demand_quantity'].mean().reset_index()] *)
Definition groupby_mean (data : list DemandRecord) : list (string * Q) :=
  map (fun c => (c, mean (demands_of c data))) (unique (map dr_category data)).

(** One iteration of the loop of [calculate_inventory_costs]. *)
Definition stockout_cost_of (demand_dict : gmap string Q) (row : InventoryItem) : Q :=
  let avg_demand := default 10 (demand_dict !! inv_category row) in
  let stockout_probability :=
    if Qlt_bool 0 avg_demand
    then Py.max 0 ((avg_demand - current_stock row) / avg_demand)
    else 0 in
  stockout_probability * avg_demand * 5.

(** [calculate_inventory_costs] *)
Definition calculate_inventory_costs (self : InventoryOptimizer)
  : InventoryOptimizer * result (option CostAnalysis) :=
  match inventory_data self with
  | None => (self, Ok None)
  | Some inventory =>
      let holding :=
        map (fun r => current_stock r * storage_cost_per_unit r * (2 # 10) / 365) inventory in
      match sample_data self with
      | None =>
          ({| sample_data := None; inventory_data := inventory_data self;
              holding_cost := Some holding; stockout_cost := stockout_cost self;
              total_cost := total_cost self; forecast_models := forecast_models self |},
           Raise AttributeError)
      | Some data =>
          let demand_dict := dict_zip (groupby_mean data) in
          let stockout_costs := map (stockout_cost_of demand_dict) inventory in
          let totals := map (fun hs => fst hs + snd hs) (combine holding stockout_costs) in
          ({| sample_data := sample_data self; inventory_data := inventory_data self;
              holding_cost := Some holding; stockout_cost := Some stockout_costs;
              total_cost := Some totals; forecast_models := forecast_models self |},
           Ok (Some
             {| total_holding_cost_daily := round (sum holding) 2;
                total_stockout_cost_daily := round (sum stockout_costs) 2;
                total_inventory_cost_daily := round (sum totals) 2;
                cost_by_category :=
                  groupby_sum_dict (combine (map inv_category inventory) totals);
                cost_by_store :=
                  groupby_sum_dict (combine (map dark_store_id inventory) totals) |}))
      end
  end.

(** ** The methods that call NumPy and scikit-learn *)

Section Optimizer.

(** [np.pi], [np.sin], [np.cos], [np.sqrt]. *)
Variable np_pi : Q.
Variables np_sin np_cos np_sqrt : Q -> Q.

(** [fit_predict train x]: the prediction at the feature vector [x] of the
    pipeline [StandardScaler] + [LinearRegression] fitted on [train]. *)
Variable fit_predict : list (list Q * Q) -> list Q -> Q.

(** "Time-based features" of [create_demand_features]; the lag columns do
    not exist yet. *)
Definition time_features (r : DemandRecord) : FeatureRow :=
  let hour := inject_Z (dt_hour (timestamp r)) in
  let day_of_week := inject_Z (dt_dayofweek (timestamp r)) in
  {| fr_record := r;
     hour_sin := np_sin (2 * np_pi * hour / 24);
     hour_cos := np_cos (2 * np_pi * hour / 24);
     day_sin := np_sin (2 * np_pi * day_of_week / 7);
     day_cos := np_cos (2 * np_pi * day_of_week / 7);
     demand_lag_1 := None; demand_lag_2 := None; demand_ma_3 := None |}.

(** [create_demand_features] up to the comment "Fill missing values": the
    time features, then the loop over [data['category'].unique()]. *)
Definition lag_frame (data : list DemandRecord) : list FeatureRow :=
  let data := map time_features data in
  fold_left lag_features_for (unique (map fr_category data)) data.

(** [create_demand_features] *)
Definition create_demand_features (data : list DemandRecord) : list FeatureRow :=
  fillna_bfill_ffill (lag_frame data).

(** The body of the loop of [train_demand_forecasting_models].  Fitting the
    scaler on a training split with no row raises [ValueError]. *)
Definition train_category (data_with_features : list FeatureRow) (category : string)
  : result ModelInfo :=
  let category_data := map snd (category_frame category data_with_features) in
  let Xy := dropna category_data in
  let split := split_idx (length Xy) in
  let train := firstn split Xy in
  let test := skipn split Xy in
  match train with
  | [] => Raise ValueError
  | _ :: _ =>
      let y_test := map snd test in
      let y_pred := map (fun xy => fit_predict train (fst xy)) test in
      let mae := mean_absolute_error y_test y_pred in
      let mse := mean_squared_error y_test y_pred in
      let rmse := np_sqrt mse in
      let mape := mape_of y_test y_pred in
      Ok {| model := train;
            performance :=
              {| MAE := round mae 2; RMSE := round rmse 2; MAPE := xround mape 2 |} |}
  end.

Fixpoint train_loop (data_with_features : list FeatureRow) (categories : list string)
    (models : list (string * ModelInfo)) (models_performance : list (string * Performance))
  : list (string * ModelInfo) * result (list (string * Performance)) :=
  match categories with
  | [] => (models, Ok models_performance)
  | category :: rest =>
      match train_category data_with_features category with
      | Raise e => (models, Raise e)
      | Ok info =>
          train_loop data_with_features rest
            (dict_set category info models)
            (dict_set category (performance info) models_performance)
      end
  end.

Definition set_forecast_models (self : InventoryOptimizer)
    (models : list (string * ModelInfo)) : InventoryOptimizer :=
  {| sample_data := sample_data self; inventory_data := inventory_data self;
     holding_cost := holding_cost self; stockout_cost := stockout_cost self;
     total_cost := total_cost self; forecast_models := models |}.

(** [train_demand_forecasting_models] *)
Definition train_demand_forecasting_models (self : InventoryOptimizer)
  : InventoryOptimizer * result (option (list (string * Performance))) :=
  match sample_data self with
  | None => (self, Ok None)
  | Some data =>
      let data_with_features := create_demand_features data in
      let out := train_loop data_with_features
                   (unique (map fr_category data_with_features))
                   (forecast_models self) [] in
      (set_forecast_models self (fst out),
       match snd out with
       | Ok models_performance => Ok (Some models_performance)
       | Raise e => Raise e
       end)
  end.

(** The body of the inner loop of [forecast_demand]. *)
Definition forecast_point (info : ModelInfo) (category : string) (recent_data : list Q)
    (t : Z) : ForecastPoint :=
  let hour := dt_hour t in
  let day_of_week := dt_dayofweek t in
  let X_future :=
    [ np_sin (2 * np_pi * inject_Z hour / 24);
      np_cos (2 * np_pi * inject_Z hour / 24);
      np_sin (2 * np_pi * inject_Z day_of_week / 7);
      np_cos (2 * np_pi * inject_Z day_of_week / 7);
      default 10 (iloc_neg 1 recent_data);
      default 10 (iloc_neg 2 recent_data);
      if (3 <=? length recent_data)%nat then mean (tail 3 recent_data) else 10 ] in
  let predicted_demand := Py.max 0 (fit_predict (model info) X_future) in
  {| fp_timestamp := t; fp_hour := hour; fp_category := category;
     predicted_demand := round predicted_demand 1 |}.

(** [last_timestamp + timedelta(hours=i) for i in range(1, hours_ahead + 1)] *)
Definition future_timestamps (last_timestamp hours_ahead : Z) : list Z :=
  map (fun i => (last_timestamp + 3600 * Z.of_nat i)%Z) (seq 1 (Z.to_nat hours_ahead)).

(** [forecast_demand].  With no record in [sample_data] the last timestamp
    is not a time, and the first prediction raises [ValueError]. *)
Definition forecast_demand (self : InventoryOptimizer) (hours_ahead : Z)
  : result (option (list ForecastPoint)) :=
  match forecast_models self with
  | [] => Ok None
  | _ :: _ =>
      match sample_data self with
      | None => Raise TypeError
      | Some data =>
          match list_max_Z (map timestamp data) with
          | None => if (0 <? hours_ahead)%Z then Raise ValueError else Ok (Some [])
          | Some last_timestamp =>
              let future := future_timestamps last_timestamp hours_ahead in
              Ok (Some
                (flat_map
                   (fun km =>
                      let recent_data := tail 5 (demands_of (fst km) data) in
                      map (forecast_point (snd km) (fst km) recent_data) future)
                   (forecast_models self)))
          end
      end
  end.

(** [sample_data.groupby('category')['demand_quantity'].agg(['mean', 'std', 'max'])]
    ([std] is the sample standard deviation). *)
Definition groupby_agg (data : list DemandRecord) : list DemandStats :=
  map (fun c =>
         let d := demands_of c data in
         let m := mean d in
         {| ds_category := c;
            ds_mean := m;
            ds_std :=
              if (length d <=? 1)%nat then None
              else Some (np_sqrt (sum (map (fun x => (x - m) * (x - m)) d)
                                  / inject_Z (Z.of_nat (length d - 1))));
            ds_max := list_max_Q d |})
      (unique (map dr_category data)).

(** The body of the loop of [calculate_optimal_stock_levels];
    [.iloc[0]] raises [IndexError] when no row of [demand_stats] has the
    category. *)
Definition plan_row (demand_stats : list DemandStats) (service_level : Q)
    (row : InventoryItem) : result StockLevelPlan :=
  let category := inv_category row in
  let dark_store := dark_store_id row in
  match find (fun s => String.eqb (ds_category s) category) demand_stats with
  | None => Raise IndexError
  | Some cat_stats =>
      let avg_demand := ds_mean cat_stats in
      let demand_std :=
        match ds_std cat_stats with
        | Some s => if Qlt_bool 0 s then s else avg_demand * (2 # 10)
        | None => avg_demand * (2 # 10)
        end in
      let lead_time := lead_time_hours row in
      let avg_demand_during_lead_time := avg_demand * (lead_time / 24) in
      let safety_stock := z_score service_level * demand_std * np_sqrt (lead_time / 24) in
      let holding_cost := storage_cost_per_unit row * (2 # 10) in
      let order_cost := 50 in
      let annual_demand := avg_demand * 365 in
      let eoq :=
        if Qlt_bool 0 holding_cost
        then np_sqrt ((2 * annual_demand * order_cost) / holding_cost)
        else avg_demand * 7 in
      let reorder_point := avg_demand_during_lead_time + safety_stock in
      let max_stock := reorder_point + eoq in
      Ok {| sl_dark_store_id := dark_store;
            sl_product_name := product_name row;
            sl_category := category;
            sl_current_stock := current_stock row;
            avg_daily_demand := round avg_demand 1;
            safety_stock := round safety_stock 1;
            reorder_point := round reorder_point 1;
            optimal_max_stock := round max_stock 1;
            eoq := round eoq 1;
            sl_lead_time_hours := lead_time;
            service_level := service_level |}
  end.

Fixpoint plan_rows (demand_stats : list DemandStats) (service_level : Q)
    (inventory : list InventoryItem) : result (list StockLevelPlan) :=
  match inventory with
  | [] => Ok []
  | row :: rest =>
      p ← plan_row demand_stats service_level row;
      ps ← plan_rows demand_stats service_level rest;
      mret (p :: ps)
  end.

(** [calculate_optimal_stock_levels] *)
Definition calculate_optimal_stock_levels (self : InventoryOptimizer) (service_level : Q)
  : result (option (list StockLevelPlan)) :=
  match inventory_data self with
  | None => Ok None
  | Some inventory =>
      match sample_data self with
      | None => Raise AttributeError
      | Some data =>
          optimal_levels ← plan_rows (groupby_agg data) service_level inventory;
          mret (Some optimal_levels)
      end
  end.

(** The body of the loop of [generate_restocking_schedule]; [None] is the
    [continue] of an item without a plan.  The urgency and [needs_restock]
    are decided on the projection before it is rounded for the row. *)
Definition restock_row (demand_summary : list (string * Q))
    (optimal_levels : list StockLevelPlan) (inventory_row : InventoryItem)
  : option RestockAction :=
  let category := inv_category inventory_row in
  let dark_store := dark_store_id inventory_row in
  let current_stock := current_stock inventory_row in
  match find (fun p => String.eqb (sl_category p) category
                       && String.eqb (sl_dark_store_id p) dark_store)
             optimal_levels with
  | None => None
  | Some optimal_data =>
      let reorder_point := reorder_point optimal_data in
      let max_stock := optimal_max_stock optimal_data in
      let predicted_demand_24h := default 0 (dict_get category demand_summary) in
      let projected_stock_24h := current_stock - predicted_demand_24h in
      let needs_restock := Qle_bool projected_stock_24h reorder_point in
      let urgency := classify_urgency projected_stock_24h reorder_point in
      let suggested_order := if needs_restock then max_stock - current_stock else 0 in
      Some {| ra_dark_store_id := dark_store;
              ra_product_name := product_name inventory_row;
              ra_category := category;
              ra_current_stock := current_stock;
              predicted_demand_24h := round predicted_demand_24h 1;
              projected_stock_24h := round projected_stock_24h 1;
              ra_reorder_point := round reorder_point 1;
              needs_restock := needs_restock;
              urgency := urgency;
              suggested_order_qty := round suggested_order 1;
              ra_lead_time_hours := lead_time_hours inventory_row;
              ra_supplier_reliability := supplier_reliability inventory_row |}
  end.

(** "Aggregate forecast by category for next 24 hours" *)
Definition next_24h_demand (forecasts : list ForecastPoint) (first_timestamp : Z)
  : list ForecastPoint :=
  List.filter (fun f => (fp_timestamp f <=? first_timestamp + 24 * 3600)%Z) forecasts.

Definition demand_summary_of (forecasts : list ForecastPoint) (first_timestamp : Z)
  : list (string * Q) :=
  groupby_sum (map (fun f => (fp_category f, predicted_demand f))
                   (next_24h_demand forecasts first_timestamp)).

(** [generate_restocking_schedule].  A frame built from an empty list has no
    column: selecting ['timestamp'] or ['urgency'] from it raises
    [KeyError]. *)
Definition generate_restocking_schedule (self : InventoryOptimizer) (forecast_horizon : Z)
  : result (option (list RestockAction)) :=
  forecasts ← forecast_demand self forecast_horizon;
  match forecasts with
  | None => Ok None
  | Some forecasts =>
      optimal_levels ← calculate_optimal_stock_levels self (95 # 100);
      match optimal_levels, inventory_data self with
      | Some optimal_levels, Some inventory =>
          match list_min_Z (map fp_timestamp forecasts) with
          | None => Raise KeyError
          | Some first_timestamp =>
              let demand_summary := demand_summary_of forecasts first_timestamp in
              let restocking_schedule :=
                omap (restock_row demand_summary optimal_levels) inventory in
              match restocking_schedule with
              | [] => Raise KeyError
              | _ :: _ => Ok (Some (sort_values schedule_leb restocking_schedule))
              end
          end
      | _, _ => Ok None
      end
  end.

End Optimizer.

(** ** The report

    [load_data] reads the three files and [datetime.now()] reads the clock:
    both are external. *)

Record OptimizationReport : Type := {
  analysis_timestamp : string;
  model_performance : option (list (string * Performance));
  demand_forecasts : option (list ForecastPoint);
  optimal_stock_levels : option (list StockLevelPlan);
  restocking_schedule : option (list RestockAction);
  cost_analysis : option CostAnalysis
}.

Section Report.

Variable np_pi : Q.
Variables np_sin np_cos np_sqrt : Q -> Q.
Variable fit_predict : list (list Q * Q) -> list Q -> Q.

(** [load_data]: the optimizer with the attributes it could set, and whether
    all the files were read. *)
Variable load_data : InventoryOptimizer -> InventoryOptimizer * bool.

(** [datetime.now().strftime('%Y-%m-%d %H:%M:%S')] *)
Variable now : string.

(** [create_optimization_report] *)
Definition create_optimization_report (self : InventoryOptimizer)
  : InventoryOptimizer * result (option OptimizationReport) :=
  let loaded := load_data self in
  if negb (snd loaded) then (fst loaded, Ok None)
  else
    let trained :=
      train_demand_forecasting_models np_pi np_sin np_cos np_sqrt fit_predict (fst loaded) in
    let self := fst trained in
    match snd trained with
    | Raise e => (self, Raise e)
    | Ok model_performance =>
        match forecast_demand np_pi np_sin np_cos fit_predict self 24 with
        | Raise e => (self, Raise e)
        | Ok forecasts =>
            match calculate_optimal_stock_levels np_sqrt self (95 # 100) with
            | Raise e => (self, Raise e)
            | Ok optimal_levels =>
                match generate_restocking_schedule np_pi np_sin np_cos np_sqrt fit_predict
                        self 72 with
                | Raise e => (self, Raise e)
                | Ok restocking_schedule =>
                    let costed := calculate_inventory_costs self in
                    match snd costed with
                    | Raise e => (fst costed, Raise e)
                    | Ok cost_analysis =>
                        (fst costed,
                         Ok (Some {| analysis_timestamp := now;
                                     model_performance := model_performance;
                                     demand_forecasts := forecasts;
                                     optimal_stock_levels := optimal_levels;
                                     restocking_schedule := restocking_schedule;
                                     cost_analysis := cost_analysis |}))
                    end
                end
            end
        end
    end.

End Report.

(** ** A concrete environment

    Rational stand-ins for the external functions, used to run the model on
    examples.  The general theorems below quantify over the external
    functions and do not depend on these. *)

Module Demo.

Definition pi : Q := 355 # 113.

(** Truncated series. *)
Definition sin (x : Q) : Q := x - x * x * x / 6.
Definition cos (x : Q) : Q := 1 - x * x / 2.

(** Square root truncated to nine decimals; exact on the squares of
    numbers with at most nine decimals. *)
Definition sqrt (x : Q) : Q :=
  inject_Z (Z.sqrt (Qfloor (x * inject_Z (10 ^ 18)))) / inject_Z (10 ^ 9).

(** A regression that predicts the mean of the training targets. *)
Definition fit_predict (train : list (list Q * Q)) (x : list Q) : Q :=
  mean (map snd train).

Definition record (t : Z) (c : string) (d : Q) : DemandRecord :=
  {| timestamp := t; dr_category := c; demand_quantity := d |}.

Definition item (store product c : string) (stock lead cost : Q) : InventoryItem :=
  {| dark_store_id := store; product_name := product; inv_category := c;
     current_stock := stock; lead_time_hours := lead;
     storage_cost_per_unit := cost; supplier_reliability := 95 # 100 |}.

Definition optimizer (data : list DemandRecord) (inventory : list InventoryItem)
  : InventoryOptimizer :=
  {| sample_data := Some data; inventory_data := Some inventory;
     holding_cost := None; stockout_cost := None; total_cost := None;
     forecast_models := [] |}.

Definition hourly (c : string) (demands : list Q) : list DemandRecord :=
  map (fun id => record (3600 * Z.of_nat (fst id)) c (snd id)) (indexed demands).

(** Five hourly records of one category with a constant demand of 2. *)
Definition dairy : list DemandRecord := hourly "Dairy" [2; 2; 2; 2; 2].

Definition shelf : list InventoryItem :=
  [ item "DS1" "Milk" "Dairy" 100 6 6;
    item "DS1" "Curd" "Dairy" 10 6 6;
    item "DS2" "Curd" "Dairy" 70 6 6;
    item "DS3" "Paneer" "Dairy" 40 6 1000 ].

Abbreviation train := (train_demand_forecasting_models pi sin cos sqrt fit_predict).
Abbreviation forecast := (forecast_demand pi sin cos fit_predict).
Abbreviation plan := (calculate_optimal_stock_levels sqrt).
Abbreviation schedule := (generate_restocking_schedule pi sin cos sqrt fit_predict).

(** The optimizer after [load_data] and [train_demand_forecasting_models]. *)
Definition trained (data : list DemandRecord) (inventory : list InventoryItem)
  : InventoryOptimizer :=
  fst (train (optimizer data inventory)).


(** An inventory whose second row has a category without any record. *)
Definition mixed_shelf : list InventoryItem :=
  [ item "DS1" "Milk" "Dairy" 100 6 6;
    item "DS1" "Soap" "Household" 4 12 3;
    item "DS2" "Curd" "Dairy" 70 6 6 ].

(** Two categories observed at the same two hours, rows in time order. *)
Definition two_categories : list DemandRecord :=
  [ record 0 "A" 5; record 0 "B" 7; record 3600 "A" 6; record 3600 "B" 9 ].

(** The records of [dairy] followed by three hourly records of a second
    category. *)
Definition with_bakery : list DemandRecord := dairy ++ hourly "Bakery" [3; 4; 5].

(** Five hourly records of one category; nothing was sold in the last hour. *)
Definition quiet_hour : list DemandRecord := hourly "Dairy" [2; 2; 2; 2; 0].

(** The schedule of the trained optimizer of [dairy] and [shelf], and its
    second row. *)
Definition shelf_schedule : list RestockAction :=
  Eval vm_compute in
    match schedule (trained dairy shelf) 72 with
    | Ok (Some rows) => rows
    | _ => []
    end.

Definition paneer_action : option RestockAction :=
  Eval vm_compute in nth_error shelf_schedule 1.

(** The plans of [dairy] and [shelf] at the default service level, and the
    first of them. *)
Definition shelf_plans : list StockLevelPlan :=
  Eval vm_compute in
    match plan (optimizer dairy shelf) (95 # 100) with
    | Ok (Some plans) => plans
    | _ => []
    end.

Definition milk_plan : option StockLevelPlan :=
  Eval vm_compute in hd_error shelf_plans.

(** A [load_data] that reads the given records and inventory. *)
Definition load (data : list DemandRecord) (inventory : list InventoryItem)
    (self : InventoryOptimizer) : InventoryOptimizer * bool :=
  ({| sample_data := Some data; inventory_data := Some inventory;
      holding_cost := None; stockout_cost := None; total_cost := None;
      forecast_models := forecast_models self |}, true).

Abbreviation report data inventory :=
  (create_optimization_report pi sin cos sqrt fit_predict (load data inventory)
     "2024-01-01 00:00:00").

(** The plans of [dairy] and [shelf] at the service level 0.90. *)
Definition shelf_plans_90 : list StockLevelPlan :=
  Eval vm_compute in
    match plan (optimizer dairy shelf) (90 # 100) with
    | Ok (Some plans) => plans
    | _ => []
    end.

(** The forecast of the trained optimizer of [dairy] for 170 hours, its first
    point and the point 168 hours later. *)
Definition dairy_forecast : list ForecastPoint :=
  Eval vm_compute in
    match forecast (trained dairy shelf) 170 with
    | Ok (Some points) => points
    | _ => []
    end.

Definition first_hour : option ForecastPoint :=
  Eval vm_compute in nth_error dairy_forecast 0.

Definition first_hour_next_week : option ForecastPoint :=
  Eval vm_compute in nth_error dairy_forecast 168.

End Demo.

(** ** The callers of the schedule *)

(** [schedule[schedule['urgency'].isin(['Critical', 'High'])]], the rows that
    [main] and the dashboard page report as urgent. *)
Definition urgent_items (restocking_schedule : list RestockAction) : list RestockAction :=
  List.filter (fun a => match urgency a with
                        | Critical | High => true
                        | Medium | Low => false
                        end)
              restocking_schedule.

(** The columns that a row of the schedule copies from its inventory row. *)
Definition action_item (a : RestockAction) : string * string * string * Q * Q * Q :=
  (ra_dark_store_id a, ra_product_name a, ra_category a, ra_current_stock a,
   ra_lead_time_hours a, ra_supplier_reliability a).

Definition inventory_item (r : InventoryItem) : string * string * string * Q * Q * Q :=
  (dark_store_id r, product_name r, inv_category r, current_stock r,
   lead_time_hours r, supplier_reliability r).

(** A plan row with another value in its column [service_level]. *)
Definition with_service_level (service_level : Q) (p : StockLevelPlan) : StockLevelPlan :=
  {| sl_dark_store_id := sl_dark_store_id p;
     sl_product_name := sl_product_name p;
     sl_category := sl_category p;
     sl_current_stock := sl_current_stock p;
     avg_daily_demand := avg_daily_demand p;
     safety_stock := safety_stock p;
     reorder_point := reorder_point p;
     optimal_max_stock := optimal_max_stock p;
     eoq := eoq p;
     sl_lead_time_hours := sl_lead_time_hours p;
     service_level := service_level |}.

(** The rows of a category in the order of [sort_values('timestamp')], each
    with its position in the frame. *)
Definition category_order (c : string) (records : list DemandRecord)
  : list (nat * DemandRecord) :=
  sort_values
    (fun a b => (timestamp (snd a) <=? timestamp (snd b))%Z)
    (List.filter (fun ir => String.eqb (dr_category (snd ir)) c) (indexed records)).

(** The demands of a category in that order. *)
Definition category_demands (c : string) (records : list DemandRecord) : list Q :=
  map (fun ir => demand_quantity (snd ir)) (category_order c records).

(** ** Predicates used in the statements *)

(** The order that the schedule promises between an earlier row [a] and a
    later row [b]. *)
Definition schedule_ordered (a b : RestockAction) : Prop :=
  (urgency_order (urgency b) <= urgency_order (urgency a))%Z /\
  (urgency_order (urgency a) = urgency_order (urgency b) ->
   projected_stock_24h a <= projected_stock_24h b).

(** A number with at most one decimal. *)
Definition is_tenth (x : Q) : Prop := exists k : Z, x == inject_Z k / pow10 1.

(** The first present value of a column, from the top. *)
Fixpoint first_valid (col : list (option Q)) : option Q :=
  match col with
  | [] => None
  | Some v :: _ => Some v
  | None :: t => first_valid t
  end.

(** ** Facts about the primitives *)

Lemma Qlt_bool_iff (a b : Q) : Qlt_bool a b = true <-> a < b.
Proof.
  unfold Qlt_bool. rewrite negb_true_iff. split.
  - intros H. apply Qnot_le_lt. intros Hle. apply Qle_bool_iff in Hle. congruence.
  - intros H. destruct (Qle_bool b a) eqn:E; [|reflexivity].
    apply Qle_bool_iff in E. lra.
Qed.

Lemma Qlt_bool_false (a b : Q) : Qlt_bool a b = false <-> b <= a.
Proof.
  unfold Qlt_bool. rewrite negb_false_iff. apply Qle_bool_iff.
Qed.

Lemma Qle_bool_false (a b : Q) : Qle_bool a b = false <-> b < a.
Proof.
  split.
  - intros H. apply Qnot_le_lt. intros Hle. apply Qle_bool_iff in Hle. congruence.
  - intros H. destruct (Qle_bool a b) eqn:E; [|reflexivity].
    apply Qle_bool_iff in E. lra.
Qed.

Lemma max_0_nonneg (x : Q) : 0 <= Py.max 0 x.
Proof.
  unfold Py.max. destruct (Qlt_bool 0 x) eqn:E.
  - apply Qlt_bool_iff in E. lra.
  - lra.
Qed.

Lemma max_0_spec (x : Q) : (0 < x -> Py.max 0 x = x) /\ (x <= 0 -> Py.max 0 x = 0).
Proof.
  unfold Py.max. split; intros H.
  - apply Qlt_bool_iff in H. now rewrite H.
  - apply Qlt_bool_false in H. now rewrite H.
Qed.

#[global] Instance round_half_even_proper : Proper (Qeq ==> eq) round_half_even.
Proof.
  intros x y E. unfold round_half_even.
  rewrite (Qfloor_comp _ _ E).
  assert (Hc : (x - inject_Z (Qfloor y) ?= 1 # 2) = (y - inject_Z (Qfloor y) ?= 1 # 2))
    by (now rewrite E).
  now rewrite Hc.
Qed.

Lemma round_half_even_bounds (x : Q) :
  inject_Z (round_half_even x) - (1 # 2) <= x <= inject_Z (round_half_even x) + (1 # 2).
Proof.
  unfold round_half_even.
  pose proof (Qfloor_le x) as Hlo. pose proof (Qlt_floor x) as Hhi.
  rewrite inject_Z_plus in Hhi. change (inject_Z 1) with 1 in Hhi.
  destruct (Qcompare_spec (x - inject_Z (Qfloor x)) (1 # 2)) as [E|E|E].
  - destruct (Z.even (Qfloor x)).
    + lra.
    + rewrite inject_Z_plus. change (inject_Z 1) with 1. lra.
  - lra.
  - rewrite inject_Z_plus. change (inject_Z 1) with 1. lra.
Qed.

Lemma round_half_even_inject_Z (k : Z) : round_half_even (inject_Z k) = k.
Proof.
  unfold round_half_even. rewrite Qfloor_Z.
  destruct (Qcompare_spec (inject_Z k - inject_Z k) (1 # 2)) as [E|E|E]; try reflexivity; lra.
Qed.

Lemma round_half_even_mono (x y : Q) :
  x <= y -> (round_half_even x <= round_half_even y)%Z.
Proof.
  intros Hxy.
  destruct (Z_le_gt_dec (round_half_even x) (round_half_even y)) as [H|H]; [exact H|].
  exfalso.
  assert (Hz : (round_half_even y + 1 <= round_half_even x)%Z) by lia.
  rewrite Zle_Qle in Hz. rewrite inject_Z_plus in Hz. change (inject_Z 1) with 1 in Hz.
  pose proof (round_half_even_bounds x) as Bx.
  pose proof (round_half_even_bounds y) as By.
  assert (E : x == y) by lra.
  rewrite E in H. lia.
Qed.

Lemma pow10_pos (n : nat) : 0 < pow10 n.
Proof.
  unfold pow10. change 0 with (inject_Z 0). rewrite <- Zlt_Qlt.
  apply Z.pow_pos_nonneg; lia.
Qed.

#[global] Instance round_proper : Proper (Qeq ==> eq ==> Qeq) round.
Proof.
  intros x y E n m <-. unfold round. now rewrite E.
Qed.

Lemma round_mono (n : nat) (x y : Q) : x <= y -> round x n <= round y n.
Proof.
  intros H. unfold round. pose proof (pow10_pos n) as Hp.
  apply Qmult_le_compat_r.
  - rewrite <- Zle_Qle. apply round_half_even_mono.
    apply Qmult_le_compat_r; lra.
  - apply Qlt_le_weak, Qinv_lt_0_compat, Hp.
Qed.

Lemma round_inject_Z_div (n : nat) (k : Z) :
  round (inject_Z k / pow10 n) n == inject_Z k / pow10 n.
Proof.
  unfold round. pose proof (pow10_pos n) as Hp.
  assert (E : inject_Z k / pow10 n * pow10 n == inject_Z k) by (field; lra).
  now rewrite E, round_half_even_inject_Z.
Qed.

Lemma round_0 (n : nat) : round 0 n == 0.
Proof.
  pose proof (round_inject_Z_div n 0) as H. pose proof (pow10_pos n) as Hp.
  assert (E : inject_Z 0 / pow10 n == 0) by (change (inject_Z 0) with 0; field; lra).
  now rewrite E in H.
Qed.

Lemma round_nonneg (n : nat) (x : Q) : 0 <= x -> 0 <= round x n.
Proof.
  intros H. rewrite <- (round_0 n). now apply round_mono.
Qed.

Lemma round_idempotent (n : nat) (x : Q) : round (round x n) n == round x n.
Proof.
  unfold round at 2 3. apply round_inject_Z_div.
Qed.

(** The three rounded values of [a], [b] and [a + b] differ by at most one
    unit of the last digit. *)
Lemma round_plus_error (n : nat) (a b : Q) :
  Qabs (round (a + b) n - (round a n + round b n)) <= 1 / pow10 n.
Proof.
  pose proof (pow10_pos n) as Hp. unfold round.
  set (p := pow10 n) in *.
  assert (E : (a + b) * p == a * p + b * p) by ring.
  rewrite E.
  pose proof (round_half_even_bounds (a * p)) as Ba.
  pose proof (round_half_even_bounds (b * p)) as Bb.
  pose proof (round_half_even_bounds (a * p + b * p)) as Bc.
  set (A := round_half_even (a * p)) in *.
  set (B := round_half_even (b * p)) in *.
  set (C := round_half_even (a * p + b * p)) in *.
  assert (Hz : (-1 <= C - (A + B) <= 1)%Z).
  { split.
    - destruct (Z_le_gt_dec (-1) (C - (A + B))) as [H|H]; [exact H|exfalso].
      assert (H' : (C + 2 <= A + B)%Z) by lia.
      rewrite Zle_Qle in H'. rewrite !inject_Z_plus in H'.
      change (inject_Z 2) with 2 in H'. lra.
    - destruct (Z_le_gt_dec (C - (A + B)) 1) as [H|H]; [exact H|exfalso].
      assert (H' : (A + B + 2 <= C)%Z) by lia.
      rewrite Zle_Qle in H'. rewrite !inject_Z_plus in H'.
      change (inject_Z 2) with 2 in H'. lra. }
  assert (Eq : inject_Z C / p - (inject_Z A / p + inject_Z B / p)
               == inject_Z (C - (A + B)) / p).
  { unfold Zminus. rewrite !inject_Z_plus, inject_Z_opp, inject_Z_plus. field. lra. }
  rewrite Eq. destruct Hz as [Hlo Hhi].
  rewrite Zle_Qle in Hlo, Hhi. change (inject_Z (-1)) with (-(1)) in Hlo.
  change (inject_Z 1) with 1 in Hhi.
  set (d := inject_Z (C - (A + B))) in *.
  apply Qabs_Qle_condition. split.
  - assert (E1 : - (1 / p) == (-(1)) / p) by (field; lra). rewrite E1.
    apply Qmult_le_compat_r; [lra|]. apply Qlt_le_weak, Qinv_lt_0_compat, Hp.
  - apply Qmult_le_compat_r; [lra|]. apply Qlt_le_weak, Qinv_lt_0_compat, Hp.
Qed.

Lemma round_is_tenth (x : Q) : is_tenth (round x 1).
Proof.
  exists (round_half_even (x * pow10 1)). reflexivity.
Qed.

Lemma is_tenth_round (x : Q) : is_tenth x -> round x 1 == x.
Proof.
  intros [k Hk]. rewrite Hk. apply round_inject_Z_div.
Qed.

Lemma is_tenth_0 : is_tenth 0.
Proof.
  exists 0%Z. reflexivity.
Qed.

Lemma is_tenth_plus (x y : Q) : is_tenth x -> is_tenth y -> is_tenth (x + y).
Proof.
  intros [a Ha] [b Hb]. exists (a + b)%Z. rewrite Ha, Hb, inject_Z_plus.
  pose proof (pow10_pos 1). field. lra.
Qed.

Lemma is_tenth_minus (x y : Q) : is_tenth x -> is_tenth y -> is_tenth (x - y).
Proof.
  intros [a Ha] [b Hb]. exists (a - b)%Z. rewrite Ha, Hb.
  unfold Zminus. rewrite inject_Z_plus, inject_Z_opp.
  pose proof (pow10_pos 1). field. lra.
Qed.

Lemma is_tenth_sum (l : list Q) : List.Forall is_tenth l -> is_tenth (sum l).
Proof.
  induction 1 as [|x l Hx Hl IH]; unfold sum in *; cbn [fold_right].
  - apply is_tenth_0.
  - now apply is_tenth_plus.
Qed.

(** ** Sorting *)

Section Sorting.

Context {A : Type} (leb : A -> A -> bool).

Lemma insert_sorted_In (x y : A) (l : list A) :
  In y (insert_sorted leb x l) <-> y = x \/ In y l.
Proof.
  induction l as [|z l IH]; simpl.
  - intuition.
  - destruct (leb x z); simpl; [intuition|]. rewrite IH. intuition.
Qed.

Lemma sort_values_In (y : A) (l : list A) : In y (sort_values leb l) <-> In y l.
Proof.
  induction l as [|x l IH]; simpl; [reflexivity|].
  rewrite insert_sorted_In, IH. intuition.
Qed.

Lemma insert_sorted_Permutation (x : A) (l : list A) :
  Permutation (x :: l) (insert_sorted leb x l).
Proof.
  induction l as [|z l IH]; simpl; [reflexivity|].
  destruct (leb x z); [reflexivity|].
  rewrite perm_swap. now apply perm_skip.
Qed.

Lemma sort_values_Permutation (l : list A) : Permutation l (sort_values leb l).
Proof.
  induction l as [|x l IH]; simpl; [reflexivity|].
  rewrite <- insert_sorted_Permutation. now apply perm_skip.
Qed.

Hypothesis leb_total : forall a b, leb a b = true \/ leb b a = true.
Hypothesis leb_trans : forall a b c, leb a b = true -> leb b c = true -> leb a c = true.

Lemma insert_sorted_StronglySorted (x : A) (l : list A) :
  StronglySorted (fun a b => leb a b = true) l ->
  StronglySorted (fun a b => leb a b = true) (insert_sorted leb x l).
Proof.
  induction 1 as [|z l Hs IH Hz]; simpl.
  - repeat constructor.
  - destruct (leb x z) eqn:E.
    + constructor; [now constructor|].
      constructor; [exact E|].
      rewrite List.Forall_forall in *. intros y Hy. eapply leb_trans; eauto.
    + constructor; [exact IH|].
      rewrite List.Forall_forall in *. intros y Hy.
      apply insert_sorted_In in Hy. destruct Hy as [->|Hy]; [|auto].
      destruct (leb_total x z) as [H|H]; congruence.
Qed.

Lemma sort_values_StronglySorted (l : list A) :
  StronglySorted (fun a b => leb a b = true) (sort_values leb l).
Proof.
  induction l as [|x l IH]; simpl; [constructor|].
  now apply insert_sorted_StronglySorted.
Qed.

End Sorting.

Lemma schedule_leb_ordered (a b : RestockAction) :
  schedule_leb a b = true <-> schedule_ordered a b.
Proof.
  unfold schedule_leb, schedule_ordered.
  rewrite orb_true_iff, andb_true_iff, Z.ltb_lt, Z.eqb_eq, Qle_bool_iff.
  split.
  - intros [H|[H1 H2]]; split; try lia; auto.
  - intros [H1 H2].
    destruct (Z.eq_dec (urgency_order (urgency a)) (urgency_order (urgency b))) as [E|E].
    + right. auto.
    + left. lia.
Qed.

Lemma schedule_leb_total (a b : RestockAction) :
  schedule_leb a b = true \/ schedule_leb b a = true.
Proof.
  rewrite !schedule_leb_ordered. unfold schedule_ordered.
  destruct (Z.lt_trichotomy (urgency_order (urgency a)) (urgency_order (urgency b)))
    as [H|[H|H]].
  - right. split; [lia|]. intros E. lia.
  - destruct (Qlt_le_dec (projected_stock_24h b) (projected_stock_24h a)) as [Hq|Hq].
    + right. split; [lia|]. intros _. lra.
    + left. split; [lia|]. intros _. exact Hq.
  - left. split; [lia|]. intros E. lia.
Qed.

Lemma schedule_leb_trans (a b c : RestockAction) :
  schedule_leb a b = true -> schedule_leb b c = true -> schedule_leb a c = true.
Proof.
  rewrite !schedule_leb_ordered. unfold schedule_ordered.
  intros [H1 H2] [H3 H4]. split; [lia|].
  intros E.
  assert (E1 : urgency_order (urgency a) = urgency_order (urgency b)) by lia.
  assert (E2 : urgency_order (urgency b) = urgency_order (urgency c)) by lia.
  specialize (H2 E1). specialize (H4 E2). lra.
Qed.

Lemma sort_schedule_sorted (rows : list RestockAction) :
  StronglySorted schedule_ordered (sort_values schedule_leb rows).
Proof.
  pose proof (sort_values_StronglySorted schedule_leb schedule_leb_total
                schedule_leb_trans rows) as H.
  induction H as [|a l Hs IH Ha]; constructor; [exact IH|].
  rewrite List.Forall_forall in *. intros b Hb. apply schedule_leb_ordered. auto.
Qed.

(** ** The scheduler *)

Section Scheduler.

Variable np_pi : Q.
Variables np_sin np_cos np_sqrt : Q -> Q.
Variable fit_predict : list (list Q * Q) -> list Q -> Q.

Local Abbreviation schedule_of :=
  (generate_restocking_schedule np_pi np_sin np_cos np_sqrt fit_predict).

(** What a returned schedule is made of. *)
Lemma generate_restocking_schedule_inv (self : InventoryOptimizer) (horizon : Z)
    (schedule : list RestockAction) :
  schedule_of self horizon = Ok (Some schedule) ->
  exists forecasts optimal_levels inventory first_timestamp,
    forecast_demand np_pi np_sin np_cos fit_predict self horizon = Ok (Some forecasts) /\
    calculate_optimal_stock_levels np_sqrt self (95 # 100) = Ok (Some optimal_levels) /\
    inventory_data self = Some inventory /\
    list_min_Z (map fp_timestamp forecasts) = Some first_timestamp /\
    schedule =
      sort_values schedule_leb
        (omap (restock_row (demand_summary_of forecasts first_timestamp) optimal_levels)
              inventory).
Proof.
  unfold generate_restocking_schedule, mbind, result_bind, Py.bind.
  destruct (forecast_demand _ _ _ _ _ _) as [[forecasts|]|]; try discriminate.
  destruct (calculate_optimal_stock_levels _ _ _) as [[optimal_levels|]|]; try discriminate.
  destruct (inventory_data self) as [inventory|]; try discriminate.
  destruct (list_min_Z _) as [first_timestamp|] eqn:Emin; try discriminate.
  destruct (omap _ inventory) as [|a rows] eqn:Erows; try discriminate.
  intros [= <-].
  exists forecasts, optimal_levels, inventory, first_timestamp.
  rewrite Erows. auto.
Qed.

(** The row that the loop body builds for an item, in terms of the plan it
    found and of the local variables of the loop. *)
Lemma restock_row_inv (demand_summary : list (string * Q))
    (optimal_levels : list StockLevelPlan) (item : InventoryItem) (a : RestockAction) :
  restock_row demand_summary optimal_levels item = Some a ->
  exists plan,
    In plan optimal_levels /\
    sl_category plan = inv_category item /\
    sl_dark_store_id plan = dark_store_id item /\
    let predicted := default 0 (dict_get (inv_category item) demand_summary) in
    let projected := current_stock item - predicted in
    a = {| ra_dark_store_id := dark_store_id item;
           ra_product_name := product_name item;
           ra_category := inv_category item;
           ra_current_stock := current_stock item;
           predicted_demand_24h := round predicted 1;
           projected_stock_24h := round projected 1;
           ra_reorder_point := round (reorder_point plan) 1;
           needs_restock := Qle_bool projected (reorder_point plan);
           urgency := classify_urgency projected (reorder_point plan);
           suggested_order_qty :=
             round (if Qle_bool projected (reorder_point plan)
                    then optimal_max_stock plan - current_stock item else 0) 1;
           ra_lead_time_hours := lead_time_hours item;
           ra_supplier_reliability := supplier_reliability item |}.
Proof.
  unfold restock_row.
  destruct (find _ optimal_levels) as [plan|] eqn:Efind; [|discriminate].
  intros [= <-]. exists plan.
  apply find_some in Efind. destruct Efind as [Hin Hkey].
  apply andb_true_iff in Hkey. destruct Hkey as [Hc Hs].
  apply String.eqb_eq in Hc, Hs. auto.
Qed.

(** Every row of a returned schedule was built by the loop body from an
    item of the inventory. *)
Lemma schedule_rows (self : InventoryOptimizer) (horizon : Z)
    (schedule : list RestockAction) (a : RestockAction) :
  schedule_of self horizon = Ok (Some schedule) ->
  In a schedule ->
  exists forecasts optimal_levels inventory first_timestamp item,
    forecast_demand np_pi np_sin np_cos fit_predict self horizon = Ok (Some forecasts) /\
    calculate_optimal_stock_levels np_sqrt self (95 # 100) = Ok (Some optimal_levels) /\
    inventory_data self = Some inventory /\
    list_min_Z (map fp_timestamp forecasts) = Some first_timestamp /\
    In item inventory /\
    restock_row (demand_summary_of forecasts first_timestamp) optimal_levels item = Some a.
Proof.
  intros H Ha. apply generate_restocking_schedule_inv in H.
  destruct H as (forecasts & optimal_levels & inventory & t0 & Hf & Ho & Hi & Ht & ->).
  apply sort_values_In in Ha. apply list_elem_of_In in Ha.
  apply list_elem_of_omap in Ha. destruct Ha as (item & Hitem & Hrow).
  apply list_elem_of_In in Hitem.
  exists forecasts, optimal_levels, inventory, t0, item. repeat split; assumption.
Qed.

(** A returned plan is the result of the loop body on each item, in order. *)
Lemma plan_rows_In (demand_stats : list DemandStats) (service_level : Q)
    (inventory : list InventoryItem) (plans : list StockLevelPlan) (p : StockLevelPlan) :
  plan_rows np_sqrt demand_stats service_level inventory = Ok plans ->
  In p plans ->
  exists row, In row inventory /\ plan_row np_sqrt demand_stats service_level row = Ok p.
Proof.
  revert plans. induction inventory as [|row rest IH]; simpl; intros plans.
  - intros [= <-] [].
  - unfold mbind, result_bind, Py.bind, mret, result_ret.
    destruct (plan_row _ _ _ row) as [q|] eqn:Eq; [|discriminate].
    destruct (plan_rows _ _ _ rest) as [qs|] eqn:Eqs; [|discriminate].
    intros [= <-] [<-|Hin].
    + exists row. auto.
    + destruct (IH qs eq_refl Hin) as (r & Hr & Hp). exists r. auto.
Qed.

Lemma calculate_optimal_stock_levels_In (self : InventoryOptimizer) (service_level : Q)
    (plans : list StockLevelPlan) (p : StockLevelPlan) :
  calculate_optimal_stock_levels np_sqrt self service_level = Ok (Some plans) ->
  In p plans ->
  exists data inventory row,
    sample_data self = Some data /\ inventory_data self = Some inventory /\
    In row inventory /\
    plan_row np_sqrt (groupby_agg np_sqrt data) service_level row = Ok p.
Proof.
  unfold calculate_optimal_stock_levels, mbind, result_bind, Py.bind, mret, result_ret.
  destruct (inventory_data self) as [inventory|]; [|discriminate].
  destruct (sample_data self) as [data|]; [|discriminate].
  destruct (plan_rows _ _ _ inventory) as [ps|] eqn:E; [|discriminate].
  intros [= <-] Hin.
  destruct (plan_rows_In _ _ _ _ _ E Hin) as (row & Hrow & Hp).
  exists data, inventory, row. auto.
Qed.

Lemma plan_row_rounded (demand_stats : list DemandStats) (service_level : Q)
    (row : InventoryItem) (p : StockLevelPlan) :
  plan_row np_sqrt demand_stats service_level row = Ok p ->
  round (reorder_point p) 1 == reorder_point p /\
  round (optimal_max_stock p) 1 == optimal_max_stock p.
Proof.
  unfold plan_row. destruct (find _ demand_stats); [|discriminate].
  intros [= <-]. simpl. split; apply round_idempotent.
Qed.

(** Every forecast point holds a demand rounded to one decimal. *)
Lemma forecast_demand_tenths (self : InventoryOptimizer) (horizon : Z)
    (forecasts : list ForecastPoint) :
  forecast_demand np_pi np_sin np_cos fit_predict self horizon = Ok (Some forecasts) ->
  List.Forall (fun f => is_tenth (predicted_demand f)) forecasts.
Proof.
  unfold forecast_demand.
  destruct (forecast_models self) as [|km models]; [discriminate|].
  cbv beta iota. generalize (km :: models). intros ms.
  destruct (sample_data self) as [data|]; [|discriminate].
  destruct (list_max_Z _) as [last|].
  - intros [= <-]. apply List.Forall_forall. intros f Hf.
    apply in_flat_map in Hf. destruct Hf as (km' & _ & Hf).
    apply in_map_iff in Hf. destruct Hf as (t & <- & _).
    cbn [predicted_demand forecast_point]. apply round_is_tenth.
  - destruct (0 <? horizon)%Z; [discriminate|]. intros [= <-]. constructor.
Qed.

Lemma demand_summary_tenths (forecasts : list ForecastPoint) (first_timestamp : Z)
    (c : string) :
  List.Forall (fun f => is_tenth (predicted_demand f)) forecasts ->
  is_tenth (default 0 (dict_get c (demand_summary_of forecasts first_timestamp))).
Proof.
  intros Hf. unfold demand_summary_of, groupby_sum, dict_get.
  destruct (find _ _) as [[k w]|] eqn:E; cbn [option_map default from_option id snd];
    [|apply is_tenth_0].
  apply find_some in E. destruct E as [Hin _].
  apply in_map_iff in Hin. destruct Hin as (c' & Heq & _). injection Heq as _ <-.
  apply is_tenth_sum. apply List.Forall_forall. intros x Hx.
  apply in_map_iff in Hx. destruct Hx as ([k' y] & <- & Hy).
  apply List.filter_In in Hy. destruct Hy as [Hy _].
  apply in_map_iff in Hy. destruct Hy as (f & Heq & Hfin). injection Heq as _ <-.
  apply List.filter_In in Hfin. destruct Hfin as [Hfin _].
  rewrite List.Forall_forall in Hf. cbn [snd]. now apply Hf.
Qed.

End Scheduler.


(** C1. Every schedule returned by [generate_restocking_schedule] is sorted:
    for any two rows, the earlier one has an urgency rank (Critical 4, High 3,
    Medium 2, Low 1) at least that of the later one, and when the ranks are
    equal its [projected_stock_24h] is at most that of the later one.  This
    holds for every state of the optimizer, hence for every order of the
    inventory rows. *)
Theorem restocking_schedule_sorted
    (np_pi : Q) (np_sin np_cos np_sqrt : Q -> Q)
    (fit_predict : list (list Q * Q) -> list Q -> Q)
    (self : InventoryOptimizer) (horizon : Z) (schedule : list RestockAction) :
  generate_restocking_schedule np_pi np_sin np_cos np_sqrt fit_predict self horizon
    = Ok (Some schedule) ->
  StronglySorted schedule_ordered schedule.
Proof.
  intros H. apply generate_restocking_schedule_inv in H.
  destruct H as (forecasts & optimal_levels & inventory & t0 & _ & _ & _ & _ & ->).
  apply sort_schedule_sorted.
Qed.

(** The schedule of the demonstration store is returned and is sorted. *)
Lemma restocking_schedule_sorted_witness :
  Demo.schedule (Demo.trained Demo.dairy Demo.shelf) 72 = Ok (Some Demo.shelf_schedule) /\
  StronglySorted schedule_ordered Demo.shelf_schedule.
Proof.
  assert (H : Demo.schedule (Demo.trained Demo.dairy Demo.shelf) 72
              = Ok (Some Demo.shelf_schedule)) by (vm_compute; reflexivity).
  split; [exact H|].
  exact (restocking_schedule_sorted Demo.pi Demo.sin Demo.cos Demo.sqrt Demo.fit_predict
           (Demo.trained Demo.dairy Demo.shelf) 72 Demo.shelf_schedule H).
Defined.

(** What the scheduler computes as the order quantity of a row: the
    difference [optimal_max_stock - current_stock], rounded to one decimal,
    when the item needs restocking, and 0 otherwise.  The difference is not
    clamped. *)
Lemma suggested_order_qty_spec (demand_summary : list (string * Q))
    (optimal_levels : list StockLevelPlan) (item : InventoryItem) (a : RestockAction) :
  restock_row demand_summary optimal_levels item = Some a ->
  exists plan,
    In plan optimal_levels /\
    (needs_restock a = true ->
     suggested_order_qty a = round (optimal_max_stock plan - current_stock item) 1) /\
    (needs_restock a = false -> suggested_order_qty a == 0).
Proof.
  intros H. apply restock_row_inv in H. destruct H as (plan & Hin & _ & _ & ->).
  exists plan. split; [exact Hin|]. simpl.
  split; intros E; rewrite E; [reflexivity | apply round_0].
Qed.

(** C2. On the trained optimizer of [Demo.dairy] and [Demo.shelf], the item
    Paneer has 40 units in stock, a plan with [optimal_max_stock] 19.9 and a
    predicted demand that exhausts the stock: the row needs restocking and its
    [suggested_order_qty] is -20.1, a negative quantity, where
    [max(0, optimal_max_stock - current_stock)] is 0. *)
Theorem suggested_order_qty_negative :
  match Demo.plan (Demo.trained Demo.dairy Demo.shelf) (95 # 100),
        Demo.schedule (Demo.trained Demo.dairy Demo.shelf) 72 with
  | Ok (Some [_; _; _; plan]), Ok (Some [_; a; _; _]) =>
      ra_product_name a = "Paneer"%string /\
      sl_product_name plan = "Paneer"%string /\
      ra_current_stock a == 40 /\
      optimal_max_stock plan == 199 # 10 /\
      needs_restock a = true /\
      suggested_order_qty a == - (201 # 10) /\
      suggested_order_qty a < 0 /\
      Py.max 0 (optimal_max_stock plan - ra_current_stock a) == 0
  | _, _ => False
  end.
Proof.
  vm_compute. repeat split.
Qed.

(** The window "next 24 hours" of the scheduler, on the timestamps that
    [forecast_demand] generates: the first timestamp is one hour after the
    last record, and the bound [first + 24h] is included, so the window holds
    the first 25 hourly points of the horizon (all of them when the horizon
    is shorter). *)
Lemma next_24h_window (last_timestamp hours_ahead : Z) :
  List.filter (fun t => (t <=? (last_timestamp + 3600 * 1) + 24 * 3600)%Z)
              (future_timestamps last_timestamp hours_ahead)
  = future_timestamps last_timestamp (Z.min hours_ahead 25).
Proof.
  unfold future_timestamps.
  assert (E : Z.to_nat (Z.min hours_ahead 25) = Nat.min (Z.to_nat hours_ahead) 25) by lia.
  rewrite E. clear E.
  induction (Z.to_nat hours_ahead) as [|n IH]; [reflexivity|].
  rewrite seq_S, List.map_app, List.filter_app, IH.
  cbn [map List.filter].
  destruct (Z.leb_spec (last_timestamp + 3600 * Z.of_nat (1 + n))
                       (last_timestamp + 3600 * 1 + 24 * 3600)) as [H|H].
  - rewrite (Nat.min_l (S n) 25), (Nat.min_l n 25) by lia.
    now rewrite seq_S, List.map_app.
  - rewrite (Nat.min_r (S n) 25), (Nat.min_r n 25) by lia.
    now rewrite app_nil_r.
Qed.

(** C3. On the trained optimizer of [Demo.dairy] and [Demo.shelf] with the
    default horizon of 72 hours, every hourly forecast of the category is 2:
    the first 24 points sum to 48, but the schedule reports a
    [predicted_demand_24h] of 50, the sum of the first 25 points. *)
Theorem predicted_demand_24h_sums_25_points :
  match Demo.forecast (Demo.trained Demo.dairy Demo.shelf) 72,
        Demo.schedule (Demo.trained Demo.dairy Demo.shelf) 72 with
  | Ok (Some forecasts), Ok (Some (a :: _)) =>
      let own :=
        List.filter (fun f => String.eqb (fp_category f) (ra_category a)) forecasts in
      length own = 72%nat /\
      map fp_timestamp (firstn 2 own) = [18000; 21600]%Z /\
      sum (map predicted_demand (firstn 24 own)) == 48 /\
      sum (map predicted_demand (firstn 25 own)) == 50 /\
      predicted_demand_24h a == 50
  | _, _ => False
  end.
Proof.
  vm_compute. repeat split.
Qed.

(** ** The stock-level planner *)

Lemma unique_In (x : string) (l : list string) : In x (unique l) <-> In x l.
Proof.
  induction l as [|y l IH]; simpl; [reflexivity|].
  rewrite List.filter_In, IH, negb_true_iff.
  destruct (String.eqb_spec y x) as [->|Hne]; [intuition|].
  split; [intuition|]. intros [H|H]; [contradiction|]. auto.
Qed.

Lemma unique_NoDup (l : list string) : List.NoDup (unique l).
Proof.
  induction l as [|y l IH]; simpl; constructor.
  - rewrite List.filter_In, negb_true_iff, String.eqb_refl. intros [_ H]. discriminate.
  - now apply List.NoDup_filter.
Qed.

Lemma sum_nonneg (l : list Q) : List.Forall (fun x => 0 <= x) l -> 0 <= sum l.
Proof.
  induction 1 as [|x l Hx Hl IH]; unfold sum in *; cbn [fold_right]; lra.
Qed.

Lemma Qdiv_nonneg (a b : Q) : 0 <= a -> 0 <= b -> 0 <= a / b.
Proof.
  intros Ha Hb. unfold Qdiv. apply Qmult_le_0_compat; [exact Ha|].
  now apply Qinv_le_0_compat.
Qed.

Lemma mean_nonneg (l : list Q) : List.Forall (fun x => 0 <= x) l -> 0 <= mean l.
Proof.
  intros H. unfold mean. apply Qdiv_nonneg; [now apply sum_nonneg|].
  change 0 with (inject_Z 0). rewrite <- Zle_Qle. lia.
Qed.

Lemma demands_of_nonneg (c : string) (data : list DemandRecord) :
  List.Forall (fun r => 0 <= demand_quantity r) data ->
  List.Forall (fun x => 0 <= x) (demands_of c data).
Proof.
  intros H. unfold demands_of. rewrite List.Forall_forall in *.
  intros x Hx. apply in_map_iff in Hx. destruct Hx as (r & <- & Hr).
  apply List.filter_In in Hr. apply H, Hr.
Qed.

Lemma z_score_nonneg (service_level : Q) : 0 <= z_score service_level.
Proof.
  unfold z_score.
  repeat match goal with |- context [if ?b then _ else _] => destruct b end;
    discriminate.
Qed.

Section Planner.

Variable np_sqrt : Q -> Q.

(** The row of [demand_stats] that the planner finds for a category. *)
Lemma find_groupby_agg (c : string) (data : list DemandRecord) :
  (In c (map dr_category data) ->
   exists s, find (fun s => String.eqb (ds_category s) c) (groupby_agg np_sqrt data) = Some s /\
             ds_category s = c /\
             ds_mean s = mean (demands_of c data)) /\
  (~ In c (map dr_category data) ->
   find (fun s => String.eqb (ds_category s) c) (groupby_agg np_sqrt data) = None).
Proof.
  unfold groupby_agg. rewrite <- (unique_In c).
  induction (unique (map dr_category data)) as [|k ks IH]; simpl.
  - split; [intros []|reflexivity].
  - destruct (String.eqb_spec k c) as [->|Hne].
    + split; [|intros H; exfalso; auto].
      intros _. eexists. split; [reflexivity|]. simpl. auto.
    + destruct IH as [IH1 IH2]. split.
      * intros [H|H]; [contradiction|]. auto.
      * intros H. apply IH2. auto.
Qed.

Lemma plan_row_error (demand_stats : list DemandStats) (service_level : Q)
    (row : InventoryItem) (e : exn) :
  plan_row np_sqrt demand_stats service_level row = Raise e -> e = IndexError.
Proof.
  unfold plan_row. destruct (find _ demand_stats); [discriminate|].
  now intros [= <-].
Qed.

Lemma plan_row_category (demand_stats : list DemandStats) (service_level : Q)
    (row : InventoryItem) (p : StockLevelPlan) :
  plan_row np_sqrt demand_stats service_level row = Ok p ->
  sl_category p = inv_category row /\
  sl_dark_store_id p = dark_store_id row /\
  sl_product_name p = product_name row /\
  exists s, In s demand_stats /\ ds_category s = inv_category row.
Proof.
  unfold plan_row. destruct (find _ demand_stats) as [s|] eqn:E; [|discriminate].
  intros [= <-]. simpl. repeat split.
  apply find_some in E. destruct E as [Hin Hc]. apply String.eqb_eq in Hc.
  exists s. auto.
Qed.

(** The loop raises at the first row whose category has no statistics, and
    otherwise returns one plan per row, in order. *)
Lemma plan_rows_result (demand_stats : list DemandStats) (service_level : Q)
    (inventory : list InventoryItem) :
  (List.Exists
     (fun row => find (fun s => String.eqb (ds_category s) (inv_category row))
                      demand_stats = None) inventory /\
   plan_rows np_sqrt demand_stats service_level inventory = Raise IndexError) \/
  (List.Forall
     (fun row => find (fun s => String.eqb (ds_category s) (inv_category row))
                      demand_stats <> None) inventory /\
   exists plans,
     plan_rows np_sqrt demand_stats service_level inventory = Ok plans /\
     List.Forall2 (fun row p => plan_row np_sqrt demand_stats service_level row = Ok p)
                  inventory plans).
Proof.
  induction inventory as [|row rest IH]; simpl.
  - right. split; [constructor|]. exists []. split; [reflexivity|constructor].
  - unfold mbind, result_bind, Py.bind, mret, result_ret.
    destruct (plan_row np_sqrt demand_stats service_level row) as [p|e] eqn:Ep.
    + assert (Hfound : find (fun s => String.eqb (ds_category s) (inv_category row))
                            demand_stats <> None).
      { unfold plan_row in Ep. destruct (find _ demand_stats); [discriminate|discriminate]. }
      destruct IH as [[Hex Hraise]|[Hall (plans & Hok & Hrows)]].
      * left. split; [now apply List.Exists_cons_tl|]. now rewrite Hraise.
      * right. split; [now constructor|]. exists (p :: plans).
        rewrite Hok. split; [reflexivity|]. now constructor.
    + left. rewrite (plan_row_error _ _ _ _ Ep). split; [|reflexivity].
      apply List.Exists_cons_hd. unfold plan_row in Ep.
      destruct (find _ demand_stats); [discriminate|reflexivity].
Qed.

End Planner.

(** C4 (as amended). When an inventory row has a category without any demand
    record, [calculate_optimal_stock_levels] does not default the statistics:
    the lookup raises [IndexError], and it does so for the whole call, which
    returns no plan for any row.  When the category of every row has records,
    the call returns one plan per inventory row, in order, each for a
    category that has records. *)
Theorem unknown_category_aborts_planner
    (np_sqrt : Q -> Q) (self : InventoryOptimizer) (service_level : Q)
    (data : list DemandRecord) (inventory : list InventoryItem) :
  sample_data self = Some data ->
  inventory_data self = Some inventory ->
  ((exists row, In row inventory /\ ~ In (inv_category row) (map dr_category data)) ->
   calculate_optimal_stock_levels np_sqrt self service_level = Raise IndexError) /\
  ((forall row, In row inventory -> In (inv_category row) (map dr_category data)) ->
   exists plans,
     calculate_optimal_stock_levels np_sqrt self service_level = Ok (Some plans) /\
     map sl_category plans = map inv_category inventory /\
     map sl_product_name plans = map product_name inventory /\
     forall p, In p plans -> In (sl_category p) (map dr_category data)).
Proof.
  intros Hdata Hinv.
  unfold calculate_optimal_stock_levels, mbind, result_bind, Py.bind, mret, result_ret.
  rewrite Hdata, Hinv.
  destruct (plan_rows_result np_sqrt (groupby_agg np_sqrt data) service_level inventory)
    as [[Hex Hraise]|[Hall (plans & Hok & Hrows)]].
  - split.
    + intros _. now rewrite Hraise.
    + intros Hpresent. exfalso.
      apply List.Exists_exists in Hex. destruct Hex as (row & Hrow & Hnone).
      destruct (proj1 (find_groupby_agg np_sqrt (inv_category row) data)
                  (Hpresent row Hrow)) as (s & Hs & _).
      congruence.
  - split.
    + intros (row & Hrow & Habsent). exfalso.
      rewrite List.Forall_forall in Hall. apply (Hall row Hrow).
      now apply find_groupby_agg.
    + intros Hpresent. exists plans. rewrite Hok. split; [reflexivity|].
      assert (Hcat : forall row p,
                 plan_row np_sqrt (groupby_agg np_sqrt data) service_level row = Ok p ->
                 sl_category p = inv_category row /\ sl_product_name p = product_name row).
      { intros row p Hp. apply plan_row_category in Hp. tauto. }
      repeat split.
      * clear Hok Hall Hpresent Hinv. induction Hrows as [|row p rows ps Hp _ IH]; [reflexivity|].
        cbn [map]. now rewrite IH, (proj1 (Hcat _ _ Hp)).
      * clear Hok Hall Hpresent Hinv. induction Hrows as [|row p rows ps Hp _ IH]; [reflexivity|].
        cbn [map]. now rewrite IH, (proj2 (Hcat _ _ Hp)).
      * intros p Hp.
        destruct (plan_rows_In _ _ _ _ _ _ Hok Hp) as (row & Hrow & Hplan).
        rewrite (proj1 (Hcat _ _ Hplan)). auto.
Qed.

(** The inventory [Demo.mixed_shelf] has a row of the category Household,
    which has no record in [Demo.dairy]. *)
Lemma unknown_category_aborts_planner_witness :
  calculate_optimal_stock_levels Demo.sqrt (Demo.optimizer Demo.dairy Demo.mixed_shelf)
    (95 # 100) = Raise IndexError.
Proof.
  apply (proj1 (unknown_category_aborts_planner Demo.sqrt
                  (Demo.optimizer Demo.dairy Demo.mixed_shelf) (95 # 100)
                  Demo.dairy Demo.mixed_shelf eq_refl eq_refl)).
  exists (Demo.item "DS1" "Soap" "Household" 4 12 3). split.
  - right. left. reflexivity.
  - cbn. intros H. repeat (destruct H as [H|H]; [discriminate H|]). exact H.
Defined.

(** The claim C4 as stated fails: with one row of an unknown category between
    two rows of a known one, the planner returns no plan at all, rather than
    the plans of the two other rows. *)
Lemma unknown_category_no_plan_for_other_rows :
  In "Dairy"%string (map dr_category Demo.dairy) /\
  ~ In "Household"%string (map dr_category Demo.dairy) /\
  map inv_category Demo.mixed_shelf = ["Dairy"; "Household"; "Dairy"]%string /\
  Demo.plan (Demo.optimizer Demo.dairy Demo.mixed_shelf) (95 # 100) = Raise IndexError /\
  ~ exists plans,
      Demo.plan (Demo.optimizer Demo.dairy Demo.mixed_shelf) (95 # 100) = Ok (Some plans).
Proof.
  assert (E : Demo.plan (Demo.optimizer Demo.dairy Demo.mixed_shelf) (95 # 100)
              = Raise IndexError) by (vm_compute; reflexivity).
  split; [left; reflexivity|]. split.
  - cbn. intros H. repeat (destruct H as [H|H]; [discriminate H|]). exact H.
  - split; [reflexivity|]. split; [exact E|].
    intros (plans & H). rewrite E in H. discriminate H.
Qed.

Section PlannerBounds.

Variable np_sqrt : Q -> Q.
Hypothesis np_sqrt_nonneg : forall x, 0 <= x -> 0 <= np_sqrt x.

(** The unrounded reorder point and order quantity of the loop body are
    not negative when the mean demand and the lead time are not. *)
Lemma plan_row_unrounded (demand_stats : list DemandStats) (service_level : Q)
    (row : InventoryItem) (p : StockLevelPlan) :
  plan_row np_sqrt demand_stats service_level row = Ok p ->
  (forall s, In s demand_stats -> 0 <= ds_mean s) ->
  0 <= lead_time_hours row ->
  exists rp e : Q,
    0 <= rp /\ 0 <= e /\
    reorder_point p = round rp 1 /\
    eoq p = round e 1 /\
    optimal_max_stock p = round (rp + e) 1.
Proof.
  unfold plan_row.
  destruct (find _ demand_stats) as [s|] eqn:Ef; [|discriminate].
  intros [= <-] Hmean Hlead. cbn [reorder_point eoq optimal_max_stock].
  apply find_some in Ef. destruct Ef as [Hs _]. specialize (Hmean s Hs).
  do 2 eexists. split; [|split; [|repeat split]].
  - assert (H24 : 0 <= lead_time_hours row / 24) by (apply Qdiv_nonneg; lra).
    assert (Hstd : 0 <=
              match ds_std s with
              | Some s0 => if Qlt_bool 0 s0 then s0 else ds_mean s * (2 # 10)
              | None => ds_mean s * (2 # 10)
              end).
    { destruct (ds_std s) as [s0|]; [|lra].
      destruct (Qlt_bool 0 s0) eqn:E; [apply Qlt_bool_iff in E|]; lra. }
    pose proof (z_score_nonneg service_level) as Hz.
    pose proof (np_sqrt_nonneg _ H24) as Hq.
    pose proof (Qmult_le_0_compat _ _ Hmean H24) as H1.
    pose proof (Qmult_le_0_compat _ _ (Qmult_le_0_compat _ _ Hz Hstd) Hq) as H2.
    lra.
  - destruct (Qlt_bool 0 (storage_cost_per_unit row * (2 # 10))) eqn:E; [|lra].
    apply Qlt_bool_iff in E. apply np_sqrt_nonneg, Qdiv_nonneg; lra.
Qed.

End PlannerBounds.

Lemma groupby_agg_mean_nonneg (np_sqrt : Q -> Q) (data : list DemandRecord)
    (s : DemandStats) :
  List.Forall (fun r => 0 <= demand_quantity r) data ->
  In s (groupby_agg np_sqrt data) ->
  0 <= ds_mean s.
Proof.
  intros Hdata Hs. unfold groupby_agg in Hs. apply in_map_iff in Hs.
  destruct Hs as (c & <- & _). cbn [ds_mean].
  now apply mean_nonneg, demands_of_nonneg.
Qed.

(** C9 (as amended). For data without negative demand and an inventory
    without negative lead time, every plan row has
    [0 <= reorder_point <= optimal_max_stock] and [0 <= eoq], for every
    service level.  The three recorded values are the roundings to one
    decimal of [rp], [e] and [rp + e] for the unrounded reorder point [rp]
    and order quantity [e]: the recorded [optimal_max_stock] is within 0.1 of
    the recorded [reorder_point + eoq]. *)
Theorem stock_level_plan_invariant
    (np_sqrt : Q -> Q) (self : InventoryOptimizer) (service_level : Q)
    (plans : list StockLevelPlan) (p : StockLevelPlan) :
  (forall x, 0 <= x -> 0 <= np_sqrt x) ->
  (forall data, sample_data self = Some data ->
                List.Forall (fun r => 0 <= demand_quantity r) data) ->
  (forall inventory, inventory_data self = Some inventory ->
                     List.Forall (fun r => 0 <= lead_time_hours r) inventory) ->
  calculate_optimal_stock_levels np_sqrt self service_level = Ok (Some plans) ->
  In p plans ->
  0 <= reorder_point p /\
  reorder_point p <= optimal_max_stock p /\
  0 <= eoq p /\
  (exists rp e : Q,
     reorder_point p = round rp 1 /\ eoq p = round e 1 /\
     optimal_max_stock p = round (rp + e) 1) /\
  Qabs (optimal_max_stock p - (reorder_point p + eoq p)) <= 1 # 10.
Proof.
  intros Hsqrt Hdemand Hlead Hplans Hp.
  destruct (calculate_optimal_stock_levels_In _ _ _ _ _ Hplans Hp)
    as (data & inventory & row & Hd & Hi & Hrow & Hplan).
  specialize (Hdemand data Hd). specialize (Hlead inventory Hi).
  rewrite List.Forall_forall in Hlead.
  destruct (plan_row_unrounded np_sqrt Hsqrt _ _ _ _ Hplan) as (rp & e & Hrp & He & E1 & E2 & E3).
  - intros s Hs. now apply (groupby_agg_mean_nonneg np_sqrt data).
  - now apply Hlead.
  - rewrite E1, E2, E3. repeat split.
    + now apply round_nonneg.
    + apply round_mono. lra.
    + now apply round_nonneg.
    + exists rp, e. auto.
    + apply (round_plus_error 1 rp e).
Qed.

Lemma demo_sqrt_nonneg (x : Q) : 0 <= x -> 0 <= Demo.sqrt x.
Proof.
  intros _. unfold Demo.sqrt. apply Qdiv_nonneg.
  - change 0 with (inject_Z 0). rewrite <- Zle_Qle. apply Z.sqrt_nonneg.
  - discriminate.
Qed.

Lemma Forall_forallb {A : Type} (P : A -> Prop) (f : A -> bool) (l : list A) :
  (forall x, f x = true -> P x) -> forallb f l = true -> List.Forall P l.
Proof.
  intros Hf H. apply List.Forall_forall. intros x Hx.
  apply Hf. rewrite forallb_forall in H. now apply H.
Qed.

(** The first plan of the demonstration store satisfies the invariant. *)
Lemma stock_level_plan_invariant_witness :
  exists p : StockLevelPlan,
    Demo.milk_plan = Some p /\
    In p Demo.shelf_plans /\
    0 <= reorder_point p /\
    reorder_point p <= optimal_max_stock p /\
    0 <= eoq p /\
    Qabs (optimal_max_stock p - (reorder_point p + eoq p)) <= 1 # 10.
Proof.
  unfold Demo.milk_plan. eexists. split; [reflexivity|].
  match goal with |- In ?p _ /\ _ =>
    assert (Hin : In p Demo.shelf_plans) by (left; reflexivity)
  end.
  split; [exact Hin|].
  assert (Hplans : Demo.plan (Demo.optimizer Demo.dairy Demo.shelf) (95 # 100)
                   = Ok (Some Demo.shelf_plans)) by (vm_compute; reflexivity).
  assert (Hdemand : forall data, sample_data (Demo.optimizer Demo.dairy Demo.shelf) = Some data ->
                      List.Forall (fun r => 0 <= demand_quantity r) data).
  { intros data [= <-].
    apply (Forall_forallb _ (fun r => Qle_bool 0 (demand_quantity r))).
    - intros r. apply Qle_bool_iff.
    - vm_compute. reflexivity. }
  assert (Hlead : forall inventory,
             inventory_data (Demo.optimizer Demo.dairy Demo.shelf) = Some inventory ->
             List.Forall (fun r => 0 <= lead_time_hours r) inventory).
  { intros inventory [= <-].
    apply (Forall_forallb _ (fun r => Qle_bool 0 (lead_time_hours r))).
    - intros r. apply Qle_bool_iff.
    - vm_compute. reflexivity. }
  destruct (stock_level_plan_invariant Demo.sqrt (Demo.optimizer Demo.dairy Demo.shelf)
              (95 # 100) Demo.shelf_plans _ demo_sqrt_nonneg Hdemand Hlead Hplans Hin)
    as (H1 & H2 & H3 & _ & H4).
  repeat split; assumption.
Defined.

(** The claim C9 as stated fails: the first plan of [Demo.dairy] and
    [Demo.shelf] records a reorder point of 0.8 and an order quantity of
    246.6, which sum to 247.4, and an [optimal_max_stock] of 247.5. *)
Lemma optimal_max_stock_not_the_sum :
  match Demo.plan (Demo.optimizer Demo.dairy Demo.shelf) (95 # 100) with
  | Ok (Some (p :: _)) =>
      reorder_point p == 8 # 10 /\
      eoq p == 2466 # 10 /\
      optimal_max_stock p == 2475 # 10 /\
      ~ optimal_max_stock p == reorder_point p + eoq p
  | _ => False
  end.
Proof.
  vm_compute. repeat split. discriminate.
Qed.

(** ** The cost estimator *)

Lemma dict_zip_lookup_None (kvs : list (string * Q)) (m : gmap string Q) (c : string) :
  fold_left (fun (m : gmap string Q) kv => <[fst kv := snd kv]> m) kvs m !! c = None <->
  m !! c = None /\ ~ In c (map fst kvs).
Proof.
  revert m. induction kvs as [|[k v] kvs IH]; intros m; cbn [fold_left map fst snd In].
  - tauto.
  - rewrite IH, lookup_insert_None. intuition.
Qed.

Lemma demand_dict_unknown (data : list DemandRecord) (c : string) :
  ~ In c (map dr_category data) ->
  dict_zip (groupby_mean data) !! c = None.
Proof.
  intros H. unfold dict_zip. apply dict_zip_lookup_None. split.
  - apply lookup_empty.
  - unfold groupby_mean. rewrite List.map_map. cbn [fst].
    rewrite List.map_id. now rewrite unique_In.
Qed.

Lemma stockout_cost_of_unknown (demand_dict : gmap string Q) (row : InventoryItem) :
  demand_dict !! inv_category row = None ->
  stockout_cost_of demand_dict row
  = Py.max 0 ((10 - current_stock row) / 10) * 10 * 5.
Proof.
  intros H. unfold stockout_cost_of. rewrite H. reflexivity.
Qed.

(** ** The feature builder *)

Lemma bfill_length (col : list (option Q)) : length (bfill col) = length col.
Proof.
  induction col as [|[v|] t IH]; cbn [bfill length]; congruence.
Qed.

Lemma ffill_from_length (last : option Q) (col : list (option Q)) :
  length (ffill_from last col) = length col.
Proof.
  revert last. induction col as [|[v|] t IH]; intros last; cbn [ffill_from length];
    [reflexivity| |]; now rewrite IH.
Qed.

Lemma hd_bfill (col : list (option Q)) : hd None (bfill col) = first_valid col.
Proof.
  induction col as [|[v|] t IH]; cbn [bfill first_valid hd]; auto.
Qed.

(** After the back-fill, every entry holds the first present value at or
    below it in the column. *)
Lemma bfill_nth (col : list (option Q)) (i : nat) :
  (i < length col)%nat ->
  nth_error (bfill col) i = Some (first_valid (skipn i col)).
Proof.
  revert i. induction col as [|x t IH]; intros i Hi; cbn [length] in Hi; [lia|].
  destruct i as [|i].
  - cbn [skipn nth_error]. destruct x as [v|]; cbn [bfill nth_error first_valid].
    + reflexivity.
    + now rewrite hd_bfill.
  - cbn [skipn]. destruct x as [v|]; cbn [bfill nth_error]; apply IH; lia.
Qed.

(** The forward fill keeps the entries that are present. *)
Lemma ffill_from_keeps (last : option Q) (col : list (option Q)) (i : nat) (v : Q) :
  nth_error col i = Some (Some v) ->
  nth_error (ffill_from last col) i = Some (Some v).
Proof.
  revert last i. induction col as [|x t IH]; intros last i H.
  - destruct i; discriminate H.
  - destruct i as [|i]; cbn [nth_error] in H.
    + injection H as ->. reflexivity.
    + destruct x as [w|]; cbn [ffill_from nth_error]; now apply IH.
Qed.

Lemma ffill_from_Some (v : Q) (col : list (option Q)) :
  List.Forall (fun x => x <> None) (ffill_from (Some v) col).
Proof.
  revert v. induction col as [|[w|] t IH]; intros v; cbn [ffill_from];
    constructor; auto; discriminate.
Qed.

Lemma first_valid_exists (col : list (option Q)) :
  (exists v, In (Some v) col) -> exists w, first_valid col = Some w.
Proof.
  induction col as [|[x|] t IH]; intros [v Hv]; cbn [first_valid].
  - destruct Hv.
  - eauto.
  - destruct Hv as [Hv|Hv]; [discriminate Hv|]. apply IH. eauto.
Qed.

(** Back-fill then forward-fill leaves no missing entry in a column that has
    at least one present entry. *)
Lemma bfill_ffill_complete (col : list (option Q)) :
  (exists v, In (Some v) col) ->
  List.Forall (fun x => x <> None) (ffill (bfill col)).
Proof.
  intros H. apply first_valid_exists in H. destruct H as [w Hw].
  rewrite <- hd_bfill in Hw. unfold ffill.
  destruct (bfill col) as [|x t]; [constructor|].
  cbn [hd] in Hw. subst x. cbn [ffill_from].
  constructor; [discriminate|apply ffill_from_Some].
Qed.

Lemma bfill_ffill_nth (col : list (option Q)) (i : nat) (v : Q) :
  first_valid (skipn i col) = Some v ->
  nth_error (ffill (bfill col)) i = Some (Some v).
Proof.
  intros H. apply ffill_from_keeps.
  assert (Hi : (i < length col)%nat).
  { destruct (Nat.lt_ge_cases i (length col)) as [Hlt|Hge]; [exact Hlt|].
    rewrite skipn_all2 in H by exact Hge. discriminate H. }
  now rewrite bfill_nth, H.
Qed.

Lemma set_lag_columns_spec (data : list FeatureRow) (c1 c2 c3 : list (option Q)) :
  length c1 = length data -> length c2 = length data -> length c3 = length data ->
  length (set_lag_columns data c1 c2 c3) = length data /\
  map fr_category (set_lag_columns data c1 c2 c3) = map fr_category data /\
  map demand_lag_1 (set_lag_columns data c1 c2 c3) = c1 /\
  map demand_lag_2 (set_lag_columns data c1 c2 c3) = c2 /\
  map demand_ma_3 (set_lag_columns data c1 c2 c3) = c3.
Proof.
  revert c1 c2 c3. induction data as [|r data IH]; intros [|a c1] [|b c2] [|c c3] H1 H2 H3;
    try discriminate; cbn [set_lag_columns map length]; [repeat split|].
  injection H1 as H1. injection H2 as H2. injection H3 as H3.
  destruct (IH c1 c2 c3 H1 H2 H3) as (E0 & Ec & E1 & E2 & E3).
  rewrite E0, Ec, E1, E2, E3. repeat split.
Qed.

Lemma fillna_bfill_ffill_spec (data : list FeatureRow) :
  length (fillna_bfill_ffill data) = length data /\
  map fr_category (fillna_bfill_ffill data) = map fr_category data /\
  map demand_lag_1 (fillna_bfill_ffill data) = ffill (bfill (map demand_lag_1 data)) /\
  map demand_lag_2 (fillna_bfill_ffill data) = ffill (bfill (map demand_lag_2 data)) /\
  map demand_ma_3 (fillna_bfill_ffill data) = ffill (bfill (map demand_ma_3 data)).
Proof.
  unfold fillna_bfill_ffill. apply set_lag_columns_spec;
    unfold ffill; now rewrite ffill_from_length, bfill_length, length_map.
Qed.

Lemma indexed_length {A : Type} (l : list A) : length (indexed l) = length l.
Proof.
  unfold indexed. rewrite length_combine, length_seq. apply Nat.min_id.
Qed.

Lemma lag_features_for_length (data : list FeatureRow) (c : string) :
  length (lag_features_for data c) = length data.
Proof.
  unfold lag_features_for. now rewrite length_map, indexed_length.
Qed.

Lemma lag_frame_length (np_pi : Q) (np_sin np_cos : Q -> Q) (data : list DemandRecord) :
  length (lag_frame np_pi np_sin np_cos data) = length data.
Proof.
  unfold lag_frame.
  generalize (unique (map fr_category (map (time_features np_pi np_sin np_cos) data))).
  intros cats.
  rewrite <- (length_map (time_features np_pi np_sin np_cos) data).
  generalize (map (time_features np_pi np_sin np_cos) data). intros frame.
  revert frame. induction cats as [|c cats IH]; intros frame; cbn [fold_left]; [reflexivity|].
  now rewrite IH, lag_features_for_length.
Qed.

(** C7 (as amended). The missing lag values are filled over the whole frame
    in row order, all categories together.  For each of the three lag
    columns: a row whose entry is missing takes the first value present at or
    below it in the frame, whatever the category of the row that holds it;
    and when the column holds at least one value in any row of the frame, no
    row of the result has a missing entry.  The fill changes neither the
    number of rows nor their categories. *)
Theorem lag_fill_is_frame_wide
    (np_pi : Q) (np_sin np_cos : Q -> Q) (data : list DemandRecord)
    (col : FeatureRow -> option Q) :
  col = demand_lag_1 \/ col = demand_lag_2 \/ col = demand_ma_3 ->
  let before := lag_frame np_pi np_sin np_cos data in
  let after := create_demand_features np_pi np_sin np_cos data in
  length after = length data /\
  map fr_category after = map fr_category before /\
  (forall (i : nat) (v : Q),
     first_valid (skipn i (map col before)) = Some v ->
     nth_error (map col after) i = Some (Some v)) /\
  ((exists v, In (Some v) (map col before)) ->
   forall r, In r after -> col r <> None).
Proof.
  intros Hcol before after. subst before after. unfold create_demand_features.
  destruct (fillna_bfill_ffill_spec (lag_frame np_pi np_sin np_cos data))
    as (Hlen & Hcat & E1 & E2 & E3).
  assert (E : map col (fillna_bfill_ffill (lag_frame np_pi np_sin np_cos data))
              = ffill (bfill (map col (lag_frame np_pi np_sin np_cos data))))
    by (destruct Hcol as [->|[->| ->]]; assumption).
  split; [now rewrite Hlen, lag_frame_length|].
  split; [exact Hcat|]. split.
  - intros i v Hv. rewrite E. now apply bfill_ffill_nth.
  - intros Hex r Hr. apply bfill_ffill_complete in Hex. rewrite <- E in Hex.
    rewrite List.Forall_forall in Hex. apply Hex. now apply in_map.
Qed.

(** In [Demo.two_categories] the first value of [demand_lag_1] at or below
    row 1 is 5, and the fill puts it in row 1. *)
Lemma lag_fill_is_frame_wide_witness :
  first_valid (skipn 1 (map demand_lag_1
                          (lag_frame Demo.pi Demo.sin Demo.cos Demo.two_categories)))
    = Some 5 /\
  nth_error (map demand_lag_1
               (create_demand_features Demo.pi Demo.sin Demo.cos Demo.two_categories)) 1
    = Some (Some 5) /\
  forall r, In r (create_demand_features Demo.pi Demo.sin Demo.cos Demo.two_categories) ->
            demand_lag_1 r <> None.
Proof.
  assert (Hv : first_valid (skipn 1 (map demand_lag_1
                 (lag_frame Demo.pi Demo.sin Demo.cos Demo.two_categories))) = Some 5)
    by (vm_compute; reflexivity).
  destruct (lag_fill_is_frame_wide Demo.pi Demo.sin Demo.cos Demo.two_categories
              demand_lag_1 (or_introl eq_refl)) as (_ & _ & Hfill & Hall).
  split; [exact Hv|]. split; [exact (Hfill 1%nat 5 Hv)|].
  apply Hall. exists 5. vm_compute. right. right. left. reflexivity.
Defined.

(** The claim C7 as stated fails.  In a frame with the categories A and B
    interleaved, the first lag of B computed from B's own series is 7 (row
    3), but the leading gap of B (row 1) is filled with 5, the value computed
    for the row of A below it. *)
Lemma lag_fill_crosses_categories :
  map (fun r => (fr_category r, demand_lag_1 r))
      (lag_frame Demo.pi Demo.sin Demo.cos Demo.two_categories)
    = [("A", None); ("B", None); ("A", Some 5); ("B", Some 7)]%string /\
  map (fun r => (fr_category r, demand_lag_1 r))
      (create_demand_features Demo.pi Demo.sin Demo.cos Demo.two_categories)
    = [("A", Some 5); ("B", Some 5); ("A", Some 5); ("B", Some 7)]%string /\
  ~ 5 == 7.
Proof.
  split; [vm_compute; reflexivity|]. split; [vm_compute; reflexivity|]. discriminate.
Qed.

(** ** Training *)

Lemma dict_get_set_eq {V : Type} (k : string) (v : V) (d : list (string * V)) :
  dict_get k (dict_set k v d) = Some v.
Proof.
  unfold dict_get. induction d as [|[k' v'] d IH]; cbn [dict_set find fst].
  - now rewrite String.eqb_refl.
  - destruct (String.eqb_spec k' k) as [->|Hne]; cbn [find fst].
    + now rewrite String.eqb_refl.
    + destruct (String.eqb_spec k' k) as [E|_]; [contradiction|exact IH].
Qed.

Lemma dict_get_set_ne {V : Type} (k k' : string) (v : V) (d : list (string * V)) :
  k <> k' -> dict_get k' (dict_set k v d) = dict_get k' d.
Proof.
  intros Hne. unfold dict_get. induction d as [|[k0 v0] d IH]; cbn [dict_set find fst].
  - destruct (String.eqb_spec k k') as [E|_]; [contradiction|reflexivity].
  - destruct (String.eqb_spec k0 k) as [->|Hne0]; cbn [find fst].
    + destruct (String.eqb_spec k k') as [E|_]; [contradiction|reflexivity].
    + destruct (String.eqb_spec k0 k'); [reflexivity|exact IH].
Qed.

Lemma dict_set_new_key {V : Type} (k : string) (v : V) (d : list (string * V)) :
  ~ In k (map fst d) -> map fst (dict_set k v d) = map fst d ++ [k].
Proof.
  induction d as [|[k' v'] d IH]; cbn [dict_set map fst In app]; intros H; [reflexivity|].
  destruct (String.eqb_spec k' k) as [->|Hne]; [exfalso; auto|].
  cbn [map fst]. rewrite IH by auto. reflexivity.
Qed.

Lemma split_idx_pos (n : nat) : (2 <= n)%nat -> (1 <= split_idx n)%nat.
Proof.
  intros H. unfold split_idx. apply Nat.div_le_lower_bound; lia.
Qed.


Lemma is_finite_xadd (x y : xfloat) :
  is_finite (xadd x y) = is_finite x && is_finite y.
Proof.
  destruct x, y; reflexivity.
Qed.

Lemma is_finite_xsum (l : list xfloat) : is_finite (xsum l) = forallb is_finite l.
Proof.
  induction l as [|x l IH]; [reflexivity|].
  unfold xsum in *. cbn [fold_right forallb]. now rewrite is_finite_xadd, IH.
Qed.

Lemma is_finite_xscale (f : Q -> Q) (x : xfloat) : is_finite (xscale f x) = is_finite x.
Proof.
  destruct x; reflexivity.
Qed.

Lemma is_finite_xabs_xdiv (a b : Q) : is_finite (xabs (xdiv a b)) = negb (Qeq_bool b 0).
Proof.
  unfold xdiv. destruct (Qeq_bool b 0); [|reflexivity].
  destruct (a ?= 0); reflexivity.
Qed.

(** The MAPE of the held-out split is finite exactly when no held-out actual
    demand is zero. *)
Lemma mape_of_finite (y_test y_pred : list Q) :
  is_finite (mape_of y_test y_pred)
  = forallb (fun yp => negb (Qeq_bool (fst yp) 0)) (combine y_test y_pred).
Proof.
  unfold mape_of, xmean. rewrite !is_finite_xscale, is_finite_xsum.
  induction (combine y_test y_pred) as [|[y p] l IH]; [reflexivity|].
  cbn [map forallb fst snd]. now rewrite is_finite_xabs_xdiv, IH.
Qed.

Lemma Fin_inj (a b : Q) : Fin a = Fin b -> a = b.
Proof.
  intros H. now injection H.
Qed.

Lemma xsum_abs_nonneg (l : list (Q * Q)) (q : Q) :
  xsum (map (fun yp => xabs (xdiv (fst yp - snd yp) (fst yp))) l) = Fin q -> 0 <= q.
Proof.
  revert q. induction l as [|[y p] l IH]; intros q; unfold xsum in *; cbn [map fold_right].
  - intros [= <-]. lra.
  - cbn [fst snd]. unfold xdiv. destruct (Qeq_bool y 0).
    + destruct (y - p ?= 0); destruct (fold_right xadd (Fin 0) _); discriminate.
    + destruct (fold_right xadd (Fin 0) _) as [s| | |]; try discriminate.
      unfold xabs, xadd. cbv beta iota. intros Hq. apply Fin_inj in Hq. subst q.
      specialize (IH s eq_refl). pose proof (Qabs_nonneg ((y - p) / y)). lra.
Qed.

(** When it is finite, the MAPE is not negative. *)
Lemma mape_of_nonneg (y_test y_pred : list Q) (q : Q) :
  mape_of y_test y_pred = Fin q -> 0 <= q.
Proof.
  unfold mape_of, xmean.
  destruct (xsum _) as [s| | |] eqn:E; try discriminate.
  unfold xscale. intros Hq. apply Fin_inj in Hq. subst q. apply xsum_abs_nonneg in E.
  assert (H : 0 <= s / inject_Z (Z.of_nat (length
                (map (fun yp => xabs (xdiv (fst yp - snd yp) (fst yp)))
                     (combine y_test y_pred))))).
  { apply Qdiv_nonneg; [exact E|]. change 0 with (inject_Z 0). rewrite <- Zle_Qle. lia. }
  lra.
Qed.

Section Training.

Variable np_sqrt : Q -> Q.
Variable fit_predict : list (list Q * Q) -> list Q -> Q.

(** The rows of a category that survive [dropna], in time order. *)
Local Abbreviation usable_rows data_with_features category :=
  (dropna (map snd (category_frame category data_with_features))).

(** A category with at least two usable rows is trained on its first
    [int(0.8 n)] rows and measured on the others. *)
Lemma train_category_ok (data_with_features : list FeatureRow) (category : string) :
  (2 <= length (usable_rows data_with_features category))%nat ->
  exists info,
    train_category np_sqrt fit_predict data_with_features category = Ok info /\
    let Xy := usable_rows data_with_features category in
    let train := firstn (split_idx (length Xy)) Xy in
    let test := skipn (split_idx (length Xy)) Xy in
    model info = train /\
    MAPE (performance info)
    = xround (mape_of (map snd test) (map (fun xy => fit_predict train (fst xy)) test)) 2.
Proof.
  intros Hn. unfold train_category.
  set (Xy := usable_rows data_with_features category) in *.
  destruct (firstn (split_idx (length Xy)) Xy) as [|xy train] eqn:E.
  - exfalso. apply (f_equal (@length _)) in E. rewrite length_firstn in E.
    pose proof (split_idx_pos _ Hn). cbn [length] in E. lia.
  - eexists. split; [reflexivity|]. cbn [model performance MAPE]. split; reflexivity.
Qed.

(** A category with at most one usable row makes the training raise. *)
Lemma train_category_raises (data_with_features : list FeatureRow) (category : string) :
  (length (usable_rows data_with_features category) <= 1)%nat ->
  train_category np_sqrt fit_predict data_with_features category = Raise ValueError.
Proof.
  intros Hn. unfold train_category.
  set (Xy := usable_rows data_with_features category) in *.
  assert (E : split_idx (length Xy) = 0%nat).
  { unfold split_idx. apply Nat.div_small. lia. }
  rewrite E. reflexivity.
Qed.

(** When every category can be trained, the loop trains them all, in order:
    none is left out of [forecast_models] or of the returned performance. *)
Lemma train_loop_all (data_with_features : list FeatureRow) (categories : list string) :
  forall (models : list (string * ModelInfo)) (perf : list (string * Performance)),
  List.NoDup categories ->
  (forall c, In c categories -> ~ In c (map fst perf)) ->
  (forall c, In c categories ->
             exists info, train_category np_sqrt fit_predict data_with_features c = Ok info) ->
  exists models' perf',
    train_loop np_sqrt fit_predict data_with_features categories models perf
      = (models', Ok perf') /\
    map fst perf' = map fst perf ++ categories /\
    (forall c, In c categories ->
       exists info,
         train_category np_sqrt fit_predict data_with_features c = Ok info /\
         dict_get c models' = Some info /\
         dict_get c perf' = Some (performance info)) /\
    (forall c, ~ In c categories ->
       dict_get c models' = dict_get c models /\ dict_get c perf' = dict_get c perf).
Proof.
  induction categories as [|c cats IH]; intros models perf Hnd Hfresh Hok.
  - exists models, perf. cbn [train_loop]. rewrite app_nil_r.
    repeat split; auto. intros c [].
  - cbn [train_loop].
    destruct (Hok c (or_introl eq_refl)) as [info Hinfo]. rewrite Hinfo.
    apply List.NoDup_cons_iff in Hnd. destruct Hnd as [Hc Hnd].
    assert (Hkeys : map fst (dict_set c (performance info) perf) = map fst perf ++ [c]).
    { apply dict_set_new_key. apply Hfresh. now left. }
    destruct (IH (dict_set c info models) (dict_set c (performance info) perf) Hnd)
      as (models' & perf' & Hrun & Hk & Hin & Hout).
    + intros c' Hc'. rewrite Hkeys, in_app_iff. intros [H|[H|[]]].
      * apply (Hfresh c'); [now right|exact H].
      * subst c'. contradiction.
    + intros c' Hc'. apply Hok. now right.
    + exists models', perf'. split; [exact Hrun|]. split.
      * rewrite Hk, Hkeys, <- app_assoc. reflexivity.
      * split.
        -- intros c' [<-|Hc'].
           ++ exists info. destruct (Hout c Hc) as [E1 E2].
              rewrite E1, E2, !dict_get_set_eq. auto.
           ++ apply Hin, Hc'.
        -- intros c' Hc'. destruct (Hout c') as [E1 E2]; [intros H; apply Hc'; now right|].
           assert (Hne : c <> c') by (intros ->; apply Hc'; now left).
           rewrite E1, E2, !dict_get_set_ne by exact Hne. auto.
Qed.

End Training.

Lemma lag_features_for_category (data : list FeatureRow) (c : string) :
  map fr_category (lag_features_for data c) = map fr_category data.
Proof.
  unfold lag_features_for. rewrite List.map_map.
  transitivity (map (fun ir : nat * FeatureRow => fr_category (snd ir)) (indexed data)).
  - apply map_ext. intros [i r]. cbn [fst snd].
    destruct (String.eqb (fr_category r) c); reflexivity.
  - unfold indexed. rewrite <- (List.map_map snd fr_category).
    f_equal. clear c. generalize 0%nat.
    induction data as [|r data IH]; intros n; [reflexivity|].
    cbn [length seq combine map snd]. now rewrite IH.
Qed.

Lemma create_demand_features_category (np_pi : Q) (np_sin np_cos : Q -> Q)
    (data : list DemandRecord) :
  map fr_category (create_demand_features np_pi np_sin np_cos data) = map dr_category data.
Proof.
  unfold create_demand_features.
  destruct (fillna_bfill_ffill_spec (lag_frame np_pi np_sin np_cos data)) as (_ & -> & _).
  unfold lag_frame.
  generalize (unique (map fr_category (map (time_features np_pi np_sin np_cos) data))).
  intros cats.
  transitivity (map fr_category (map (time_features np_pi np_sin np_cos) data)).
  - generalize (map (time_features np_pi np_sin np_cos) data). intros frame. revert frame.
    induction cats as [|c cats IH]; intros frame; cbn [fold_left]; [reflexivity|].
    now rewrite IH, lag_features_for_category.
  - rewrite List.map_map. reflexivity.
Qed.


Lemma combine_map_same {A B C : Type} (g : A -> B) (h : A -> C) (l : list A) :
  combine (map g l) (map h l) = map (fun x => (g x, h x)) l.
Proof.
  induction l as [|x l IH]; [reflexivity|]. cbn [map combine]. now rewrite IH.
Qed.

Lemma forallb_map_comp {A B : Type} (p : B -> bool) (f : A -> B) (l : list A) :
  forallb p (map f l) = forallb (fun x => p (f x)) l.
Proof.
  induction l as [|x l IH]; [reflexivity|]. cbn [map forallb]. now rewrite IH.
Qed.

(** The MAPE that the training reports for a category is finite exactly when
    no held-out row has an actual demand of zero, and is then not negative. *)
Lemma train_category_mape (np_sqrt : Q -> Q)
    (fit_predict : list (list Q * Q) -> list Q -> Q)
    (data_with_features : list FeatureRow) (category : string) (info : ModelInfo) :
  train_category np_sqrt fit_predict data_with_features category = Ok info ->
  let Xy := dropna (map snd (category_frame category data_with_features)) in
  let test := skipn (split_idx (length Xy)) Xy in
  is_finite (MAPE (performance info))
    = forallb (fun xy => negb (Qeq_bool (snd xy) 0)) test /\
  forall q, MAPE (performance info) = Fin q -> 0 <= q.
Proof.
  unfold train_category.
  set (Xy := dropna (map snd (category_frame category data_with_features))).
  destruct (firstn (split_idx (length Xy)) Xy) as [|xy train] eqn:E; [discriminate|].
  intros H. injection H as <-. cbn [performance MAPE]. cbv zeta. split.
  - unfold xround. rewrite is_finite_xscale, mape_of_finite, combine_map_same.
    now rewrite forallb_map_comp.
  - intros q. unfold xround.
    destruct (mape_of _ _) as [m| | |] eqn:Em; try discriminate.
    unfold xscale. intros Hq. apply Fin_inj in Hq. subst q.
    apply round_nonneg. exact (mape_of_nonneg _ _ _ Em).
Qed.

(** C8. On five hourly records of one category whose last demand is 0, the
    category has five usable feature rows, at least four; the held-out split
    is the last row, and the MAPE divides by its demand.  Whatever the
    regression predicts, the training returns a performance entry whose MAPE
    is not finite. *)
Theorem zero_demand_mape_not_finite
    (np_pi : Q) (np_sin np_cos np_sqrt : Q -> Q)
    (fit_predict : list (list Q * Q) -> list Q -> Q) :
  length (dropna (map snd (category_frame "Dairy"
            (create_demand_features np_pi np_sin np_cos Demo.quiet_hour)))) = 5%nat /\
  match snd (train_demand_forecasting_models np_pi np_sin np_cos np_sqrt fit_predict
               (Demo.optimizer Demo.quiet_hour Demo.shelf)) with
  | Ok (Some [(c, perf)]) => c = "Dairy"%string /\ is_finite (MAPE perf) = false
  | _ => False
  end.
Proof.
  split; [vm_compute; reflexivity|].
  vm_compute.
  match goal with
  | |- context [match ?x with Eq => _ | Lt => _ | Gt => _ end] => destruct x
  end; split; reflexivity.
Qed.

(** ** Further properties of the scheduler *)

Lemma plan_rows_Forall2 (np_sqrt : Q -> Q) (demand_stats : list DemandStats)
    (service_level : Q) (inventory : list InventoryItem) (plans : list StockLevelPlan) :
  plan_rows np_sqrt demand_stats service_level inventory = Ok plans ->
  List.Forall2 (fun row p => plan_row np_sqrt demand_stats service_level row = Ok p)
               inventory plans.
Proof.
  revert plans. induction inventory as [|row rest IH]; intros plans; cbn [plan_rows].
  - intros [= <-]. constructor.
  - unfold mbind, result_bind, Py.bind, mret, result_ret.
    destruct (plan_row _ _ _ row) as [p|] eqn:Ep; [|discriminate].
    destruct (plan_rows _ _ _ rest) as [ps|] eqn:Eps; [|discriminate].
    intros [= <-]. constructor; auto.
Qed.

Lemma calculate_optimal_stock_levels_Forall2 (np_sqrt : Q -> Q) (self : InventoryOptimizer)
    (service_level : Q) (plans : list StockLevelPlan) :
  calculate_optimal_stock_levels np_sqrt self service_level = Ok (Some plans) ->
  exists data inventory,
    sample_data self = Some data /\ inventory_data self = Some inventory /\
    List.Forall2
      (fun row p => plan_row np_sqrt (groupby_agg np_sqrt data) service_level row = Ok p)
      inventory plans.
Proof.
  unfold calculate_optimal_stock_levels, mbind, result_bind, Py.bind, mret, result_ret.
  destruct (inventory_data self) as [inventory|]; [|discriminate].
  destruct (sample_data self) as [data|]; [|discriminate].
  destruct (plan_rows _ _ _ inventory) as [ps|] eqn:E; [|discriminate].
  intros [= <-]. exists data, inventory. repeat split.
  now apply plan_rows_Forall2.
Qed.

(** The join of the scheduler, on plans built from the same inventory: the
    plan found for a category and a store is the plan of the first inventory
    row with that category and that store. *)
Lemma find_plan_of_first_row (np_sqrt : Q -> Q) (demand_stats : list DemandStats)
    (service_level : Q) (inventory : list InventoryItem) (plans : list StockLevelPlan)
    (category store : string) :
  List.Forall2 (fun row p => plan_row np_sqrt demand_stats service_level row = Ok p)
               inventory plans ->
  match find (fun r => String.eqb (inv_category r) category
                       && String.eqb (dark_store_id r) store) inventory with
  | Some first_row =>
      exists plan,
        find (fun p => String.eqb (sl_category p) category
                       && String.eqb (sl_dark_store_id p) store) plans = Some plan /\
        plan_row np_sqrt demand_stats service_level first_row = Ok plan
  | None =>
      find (fun p => String.eqb (sl_category p) category
                     && String.eqb (sl_dark_store_id p) store) plans = None
  end.
Proof.
  induction 1 as [|row p rows ps Hp _ IH]; cbn [find]; [reflexivity|].
  destruct (plan_row_category _ _ _ _ _ Hp) as (Hc & Hs & _).
  rewrite Hc, Hs.
  destruct (String.eqb (inv_category row) category && String.eqb (dark_store_id row) store).
  - exists p. auto.
  - exact IH.
Qed.

Section SchedulerProperties.

Variable np_pi : Q.
Variables np_sin np_cos np_sqrt : Q -> Q.
Variable fit_predict : list (list Q * Q) -> list Q -> Q.

Local Abbreviation schedule_of :=
  (generate_restocking_schedule np_pi np_sin np_cos np_sqrt fit_predict).

Lemma schedule_not_empty (self : InventoryOptimizer) (horizon : Z)
    (schedule : list RestockAction) :
  schedule_of self horizon = Ok (Some schedule) -> schedule <> [].
Proof.
  unfold generate_restocking_schedule, mbind, result_bind, Py.bind.
  destruct (forecast_demand _ _ _ _ _ _) as [[forecasts|]|]; try discriminate.
  destruct (calculate_optimal_stock_levels _ _ _) as [[optimal_levels|]|]; try discriminate.
  destruct (inventory_data self) as [inventory|]; try discriminate.
  destruct (list_min_Z _) as [first_timestamp|]; try discriminate.
  destruct (omap _ inventory) as [|a rows]; try discriminate.
  pose proof (sort_values_Permutation schedule_leb (a :: rows)) as HP.
  remember (sort_values schedule_leb (a :: rows)) as sorted eqn:Es.
  intros H E. injection H as H. rewrite H, E in HP.
  apply Permutation_sym, Permutation_nil in HP. discriminate HP.
Qed.

(** With plans built from the inventory, the loop body finds a plan for every
    item: the [continue] is never taken. *)
Lemma restock_row_total (demand_stats : list DemandStats) (service_level : Q)
    (demand_summary : list (string * Q)) (inventory : list InventoryItem)
    (plans : list StockLevelPlan) (item : InventoryItem) :
  List.Forall2 (fun row p => plan_row np_sqrt demand_stats service_level row = Ok p)
               inventory plans ->
  In item inventory ->
  exists a first_row plan,
    restock_row demand_summary plans item = Some a /\
    action_item a = inventory_item item /\
    find (fun r => String.eqb (inv_category r) (inv_category item)
                   && String.eqb (dark_store_id r) (dark_store_id item)) inventory
      = Some first_row /\
    plan_row np_sqrt demand_stats service_level first_row = Ok plan /\
    find (fun p => String.eqb (sl_category p) (inv_category item)
                   && String.eqb (sl_dark_store_id p) (dark_store_id item)) plans
      = Some plan.
Proof.
  intros Hplans Hitem.
  pose proof (find_plan_of_first_row np_sqrt demand_stats service_level inventory plans
                (inv_category item) (dark_store_id item) Hplans) as Hfind.
  destruct (find _ inventory) as [first_row|] eqn:Efirst.
  - destruct Hfind as (plan & Hplan & Hrow).
    unfold restock_row. rewrite Hplan.
    eexists. exists first_row, plan. split; [reflexivity|]. repeat split; assumption.
  - exfalso. apply (find_none _ _ Efirst) in Hitem.
    rewrite !String.eqb_refl in Hitem. discriminate Hitem.
Qed.

(** X1. A returned schedule has exactly one row per inventory row: the rows of
    the schedule, reduced to the columns copied from the inventory (store,
    product, category, stock, lead time, supplier reliability), are a
    permutation of the inventory rows, and the schedule is not empty. *)
Theorem schedule_covers_inventory (self : InventoryOptimizer) (horizon : Z)
    (schedule : list RestockAction) :
  schedule_of self horizon = Ok (Some schedule) ->
  exists inventory : list InventoryItem,
    inventory_data self = Some inventory /\
    schedule <> [] /\
    length schedule = length inventory /\
    Permutation (map action_item schedule) (map inventory_item inventory).
Proof.
  intros H. pose proof (schedule_not_empty _ _ _ H) as Hne.
  apply generate_restocking_schedule_inv in H.
  destruct H as (forecasts & optimal_levels & inventory & t0 & Hf & Ho & Hi & Ht & ->).
  apply calculate_optimal_stock_levels_Forall2 in Ho.
  destruct Ho as (data & inventory' & Hd & Hi' & Hplans).
  rewrite Hi in Hi'. injection Hi' as <-.
  assert (Hmap : map action_item
                   (omap (restock_row (demand_summary_of forecasts t0) optimal_levels)
                         inventory)
                 = map inventory_item inventory).
  { assert (Hall : forall item, In item inventory ->
               exists a, restock_row (demand_summary_of forecasts t0) optimal_levels item
                         = Some a /\ action_item a = inventory_item item).
    { intros item Hitem.
      destruct (restock_row_total _ _ (demand_summary_of forecasts t0) _ _ _ Hplans Hitem)
        as (a & _ & _ & Ha & Hk & _). eauto. }
    clear Hplans Hi Hne. induction inventory as [|item rest IH]; [reflexivity|].
    destruct (Hall item (or_introl eq_refl)) as (a & Ha & Hk).
    cbn [omap list_omap]. rewrite Ha. cbn [map]. rewrite Hk. f_equal.
    apply IH. intros i Hin. apply Hall. now right. }
  exists inventory. split; [exact Hi|]. split; [exact Hne|].
  assert (Hperm : Permutation (map action_item
                    (sort_values schedule_leb
                       (omap (restock_row (demand_summary_of forecasts t0) optimal_levels)
                             inventory)))
                    (map inventory_item inventory)).
  { rewrite <- Hmap. apply Permutation_map, Permutation_sym, sort_values_Permutation. }
  split; [|exact Hperm].
  apply Permutation_length in Hperm. now rewrite !length_map in Hperm.
Qed.

(** X2. The reorder point and the order quantity of a row of the schedule come
    from the plan of the first inventory row that has the category and the
    store of the row, which need not be the row of the product itself: the
    recorded reorder point is that plan's, and an order, when one is needed,
    fills up to that plan's [optimal_max_stock]. *)
Theorem schedule_joins_first_plan_of_store_and_category (self : InventoryOptimizer)
    (horizon : Z) (schedule : list RestockAction) (a : RestockAction) :
  schedule_of self horizon = Ok (Some schedule) ->
  In a schedule ->
  exists (data : list DemandRecord) (inventory : list InventoryItem)
         (first_row : InventoryItem) (plan : StockLevelPlan),
    sample_data self = Some data /\
    inventory_data self = Some inventory /\
    find (fun r => String.eqb (inv_category r) (ra_category a)
                   && String.eqb (dark_store_id r) (ra_dark_store_id a)) inventory
      = Some first_row /\
    plan_row np_sqrt (groupby_agg np_sqrt data) (95 # 100) first_row = Ok plan /\
    ra_reorder_point a == reorder_point plan /\
    (needs_restock a = true ->
     suggested_order_qty a = round (optimal_max_stock plan - ra_current_stock a) 1).
Proof.
  intros H Ha.
  destruct (schedule_rows _ _ _ _ _ _ _ _ _ H Ha)
    as (forecasts & ol & inventory & t0 & item & Hf & Ho & Hi & Ht & Hitem & Hrow).
  apply calculate_optimal_stock_levels_Forall2 in Ho.
  destruct Ho as (data & inventory' & Hd & Hi' & Hplans).
  rewrite Hi in Hi'. injection Hi' as <-.
  destruct (restock_row_total _ _ (demand_summary_of forecasts t0) _ _ _ Hplans Hitem)
    as (a' & first_row & plan & Ha' & _ & Hfirst & Hplan & Hfind).
  rewrite Hrow in Ha'. injection Ha' as <-.
  unfold restock_row in Hrow. rewrite Hfind in Hrow. injection Hrow as <-.
  cbn [ra_category ra_dark_store_id ra_reorder_point needs_restock suggested_order_qty
       ra_current_stock].
  exists data, inventory, first_row, plan.
  repeat split; try assumption.
  - apply (plan_row_rounded np_sqrt _ _ _ _ Hplan).
  - intros E. now rewrite E.
Qed.

End SchedulerProperties.

Lemma classify_urgency_low (projected rp : Q) :
  classify_urgency projected rp = Low <->
  0 < projected /\ rp * (1 # 2) < projected /\ rp < projected.
Proof.
  unfold classify_urgency.
  destruct (Qle_bool projected 0) eqn:E0;
    [apply Qle_bool_iff in E0 | apply Qle_bool_false in E0].
  { split; [discriminate|]. intros (H & _). lra. }
  destruct (Qle_bool projected (rp * (1 # 2))) eqn:E1;
    [apply Qle_bool_iff in E1 | apply Qle_bool_false in E1].
  { split; [discriminate|]. intros (_ & H & _). lra. }
  destruct (Qle_bool projected rp) eqn:E2;
    [apply Qle_bool_iff in E2 | apply Qle_bool_false in E2].
  { split; [discriminate|]. intros (_ & _ & H). lra. }
  split; auto.
Qed.

Section UrgencyProperties.

Variable np_pi : Q.
Variables np_sin np_cos np_sqrt : Q -> Q.
Variable fit_predict : list (list Q * Q) -> list Q -> Q.

Local Abbreviation schedule_of :=
  (generate_restocking_schedule np_pi np_sin np_cos np_sqrt fit_predict).

(** A row of a returned schedule in terms of the projected stock of the loop
    and of the reorder point of the plan, with the recorded values that agree
    with them. *)
Lemma schedule_row_quantities (self : InventoryOptimizer) (horizon : Z)
    (schedule : list RestockAction) (a : RestockAction) :
  schedule_of self horizon = Ok (Some schedule) ->
  In a schedule ->
  exists projected rp max_stock : Q,
    needs_restock a = Qle_bool projected rp /\
    urgency a = classify_urgency projected rp /\
    suggested_order_qty a
      = round (if Qle_bool projected rp then max_stock - ra_current_stock a else 0) 1 /\
    ra_reorder_point a == rp /\
    projected_stock_24h a = round projected 1 /\
    (is_tenth (ra_current_stock a) -> projected_stock_24h a == projected).
Proof.
  intros H Ha.
  destruct (schedule_rows _ _ _ _ _ _ _ _ _ H Ha)
    as (forecasts & ol & inventory & t0 & item & Hf & Ho & Hi & Ht & Hitem & Hrow).
  apply restock_row_inv in Hrow. destruct Hrow as (plan & Hplan & _ & _ & Hrow).
  cbv zeta in Hrow.
  destruct (calculate_optimal_stock_levels_In _ _ _ _ _ Ho Hplan)
    as (data & inv' & row & _ & _ & _ & Hp).
  apply plan_row_rounded in Hp. destruct Hp as [Hrp _].
  pose proof (demand_summary_tenths forecasts t0 (inv_category item)
                (forecast_demand_tenths _ _ _ _ _ _ _ Hf)) as Hpred.
  exists (current_stock item
          - default 0 (dict_get (inv_category item) (demand_summary_of forecasts t0))),
         (reorder_point plan), (optimal_max_stock plan).
  subst a. cbn [needs_restock urgency suggested_order_qty ra_reorder_point
                projected_stock_24h ra_current_stock].
  repeat split; try reflexivity; try exact Hrp.
  intros Hstock. apply is_tenth_round. now apply is_tenth_minus.
Qed.


(** Rounding to one decimal keeps the side of a bound that has itself at most
    one decimal. *)
Lemma round_lt_inv (x y : Q) : round x 1 < round y 1 -> x < y.
Proof.
  intros H. apply Qnot_le_lt. intros Hle.
  pose proof (round_mono 1 y x Hle). lra.
Qed.

(** The same row with its recorded reorder point as the code writes it,
    [round(reorder_point, 1)]. *)
Lemma schedule_row_projection (self : InventoryOptimizer) (horizon : Z)
    (schedule : list RestockAction) (a : RestockAction) :
  schedule_of self horizon = Ok (Some schedule) ->
  In a schedule ->
  exists predicted projected rp : Q,
    projected = ra_current_stock a - predicted /\
    predicted_demand_24h a = round predicted 1 /\
    needs_restock a = Qle_bool projected rp /\
    urgency a = classify_urgency projected rp /\
    (needs_restock a = false -> suggested_order_qty a == 0) /\
    ra_reorder_point a = round rp 1 /\
    ra_reorder_point a == rp /\
    projected_stock_24h a = round projected 1.
Proof.
  intros H Ha.
  destruct (schedule_rows _ _ _ _ _ _ _ _ _ H Ha)
    as (forecasts & ol & inventory & t0 & item & Hf & Ho & Hi & Ht & Hitem & Hrow).
  apply restock_row_inv in Hrow. destruct Hrow as (plan & Hplan & _ & _ & Hrow).
  cbv zeta in Hrow.
  destruct (calculate_optimal_stock_levels_In _ _ _ _ _ Ho Hplan)
    as (data & inv' & row & _ & _ & _ & Hp).
  apply plan_row_rounded in Hp. destruct Hp as [Hrp _].
  exists (default 0 (dict_get (inv_category item) (demand_summary_of forecasts t0))),
         (current_stock item
          - default 0 (dict_get (inv_category item) (demand_summary_of forecasts t0))),
         (reorder_point plan).
  subst a. cbn [needs_restock urgency suggested_order_qty ra_reorder_point
                projected_stock_24h predicted_demand_24h ra_current_stock].
  repeat split; try reflexivity; try exact Hrp.
  intros E. rewrite E. apply round_0.
Qed.


(** X3. In a returned schedule, the recorded columns decide [needs_restock]
    off the reorder point: a row whose recorded [projected_stock_24h] is below
    its recorded [reorder_point] needs restocking, and a row whose recorded
    projection is above it does not, and suggests an order of 0.  (The flag
    is decided on the projection before it is rounded; a row that records a
    projection equal to its reorder point may or may not need restocking.) *)
Theorem needs_restock_from_recorded (self : InventoryOptimizer) (horizon : Z)
    (schedule : list RestockAction) (a : RestockAction) :
  schedule_of self horizon = Ok (Some schedule) ->
  In a schedule ->
  (exists projected : Q,
     projected_stock_24h a = round projected 1 /\
     (needs_restock a = true <-> projected <= ra_reorder_point a)) /\
  (projected_stock_24h a < ra_reorder_point a -> needs_restock a = true) /\
  (ra_reorder_point a < projected_stock_24h a ->
   needs_restock a = false /\ suggested_order_qty a == 0).
Proof.
  intros H Ha.
  destruct (schedule_row_projection _ _ _ _ H Ha)
    as (_ & projected & rp & _ & _ & Hn & _ & Hq & Hrecorded & Hrp & Hproj).
  split; [|split].
  - exists projected. split; [exact Hproj|]. rewrite Hn, Qle_bool_iff, Hrp. reflexivity.
  - intros Hbelow. rewrite Hn. apply Qle_bool_iff, Qlt_le_weak, round_lt_inv.
    rewrite <- Hproj, <- Hrecorded. exact Hbelow.
  - intros Habove.
    assert (E : needs_restock a = false).
    { rewrite Hn. apply Qle_bool_false, round_lt_inv.
      rewrite <- Hproj, <- Hrecorded. exact Habove. }
    split; [exact E|exact (Hq E)].
Qed.

(** X4. In a returned schedule a row of urgency Low never needs restocking and
    suggests an order of 0; a row that needs restocking is never Low; and when
    the reorder point is not negative, a row that does not need restocking is
    Low. *)
Theorem low_urgency_means_no_order (self : InventoryOptimizer) (horizon : Z)
    (schedule : list RestockAction) (a : RestockAction) :
  schedule_of self horizon = Ok (Some schedule) ->
  In a schedule ->
  (urgency a = Low -> needs_restock a = false /\ suggested_order_qty a == 0) /\
  (needs_restock a = true -> urgency a <> Low) /\
  (needs_restock a = false -> 0 <= ra_reorder_point a -> urgency a = Low).
Proof.
  intros H Ha.
  destruct (schedule_row_quantities _ _ _ _ H Ha)
    as (projected & rp & max_stock & Hn & Hu & Hq & Hrp & _ & _).
  rewrite Hn, Hu, Hq, Hrp. clear Hn Hu Hq Hrp.
  split; [|split].
  - intros Hlow. apply classify_urgency_low in Hlow. destruct Hlow as (_ & _ & Hlt).
    apply Qle_bool_false in Hlt. rewrite Hlt. split; [reflexivity|apply round_0].
  - intros Hneed Hlow. apply classify_urgency_low in Hlow. destruct Hlow as (_ & _ & Hlt).
    apply Qle_bool_iff in Hneed. lra.
  - intros Hneed Hpos. apply Qle_bool_false in Hneed.
    apply classify_urgency_low. repeat split; lra.
Qed.

(** X6. The rows of urgency Critical or High, which [main] and the dashboard
    select from a returned schedule, are the first rows of the schedule, in
    the order of the schedule. *)
Theorem urgent_items_is_prefix (self : InventoryOptimizer) (horizon : Z)
    (schedule : list RestockAction) :
  schedule_of self horizon = Ok (Some schedule) ->
  urgent_items schedule = firstn (length (urgent_items schedule)) schedule.
Proof.
  intros H. apply generate_restocking_schedule_inv in H.
  destruct H as (forecasts & optimal_levels & inventory & t0 & _ & _ & _ & _ & ->).
  pose proof (sort_schedule_sorted
                (omap (restock_row (demand_summary_of forecasts t0) optimal_levels)
                      inventory)) as Hsorted.
  induction Hsorted as [|a l Hs IH Ha]; [reflexivity|].
  unfold urgent_items in *. cbn [List.filter].
  destruct (urgency a) eqn:Eu; cbn [length firstn]; try (f_equal; exact IH).
  - assert (E : List.filter (fun a0 => match urgency a0 with
                                       | Critical | High => true
                                       | Medium | Low => false
                                       end) l = []).
    { clear IH Hs. induction Ha as [|b l Hb _ IHl]; [reflexivity|].
      cbn [List.filter]. destruct Hb as [Hb _]. rewrite Eu in Hb.
      destruct (urgency b); cbn in Hb; try lia; exact IHl. }
    rewrite E. reflexivity.
  - assert (E : List.filter (fun a0 => match urgency a0 with
                                       | Critical | High => true
                                       | Medium | Low => false
                                       end) l = []).
    { clear IH Hs. induction Ha as [|b l Hb _ IHl]; [reflexivity|].
      cbn [List.filter]. destruct Hb as [Hb _]. rewrite Eu in Hb.
      destruct (urgency b); cbn in Hb; try lia; exact IHl. }
    rewrite E. reflexivity.
Qed.

End UrgencyProperties.

(** ** The forecaster *)

Lemma fold_left_max_spec (t : list Z) (x : Z) :
  (fold_left Z.max t x = x \/ In (fold_left Z.max t x) t) /\
  (x <= fold_left Z.max t x)%Z /\
  (forall y, In y t -> (y <= fold_left Z.max t x)%Z).
Proof.
  revert x. induction t as [|z t IH]; intros x; cbn [fold_left].
  - split; [now left|]. split; [lia|]. intros y [].
  - destruct (IH (Z.max x z)) as (Hin & Hle & Hall). split; [|split].
    + destruct Hin as [E|Hin]; [|right; now right].
      rewrite E. destruct (Z.max_spec x z) as [[_ ->]|[_ ->]]; [right; now left|now left].
    + lia.
    + intros y [<-|Hy]; [lia|auto].
Qed.

Lemma list_max_Z_spec (l : list Z) (m : Z) :
  list_max_Z l = Some m -> In m l /\ forall y, In y l -> (y <= m)%Z.
Proof.
  destruct l as [|x t]; [discriminate|]. cbn [list_max_Z]. intros [= <-].
  destruct (fold_left_max_spec t x) as (Hin & Hle & Hall). split.
  - destruct Hin as [->|Hin]; [now left|now right].
  - intros y [<-|Hy]; auto.
Qed.

Lemma dt_hour_next_week (t : Z) : dt_hour (t + 604800) = dt_hour t.
Proof.
  unfold dt_hour. replace (t + 604800)%Z with (t + 168 * 3600)%Z by lia.
  rewrite Z.div_add by lia.
  replace (t / 3600 + 168)%Z with (t / 3600 + 7 * 24)%Z by lia.
  apply Z.mod_add. lia.
Qed.

Lemma dt_dayofweek_next_week (t : Z) : dt_dayofweek (t + 604800) = dt_dayofweek t.
Proof.
  unfold dt_dayofweek. replace (t + 604800)%Z with (t + 7 * 86400)%Z by lia.
  rewrite Z.div_add by lia.
  replace (t / 86400 + 7 + 3)%Z with (t / 86400 + 3 + 1 * 7)%Z by lia.
  apply Z.mod_add. lia.
Qed.

Lemma NoDup_keys_inj {V : Type} (d : list (string * V)) (km km' : string * V) :
  List.NoDup (map fst d) -> In km d -> In km' d -> fst km = fst km' -> km = km'.
Proof.
  induction d as [|[k v] d IH]; intros Hnd H1 H2 E; [destruct H1|].
  cbn [map fst] in Hnd. apply List.NoDup_cons_iff in Hnd. destruct Hnd as [Hk Hnd].
  destruct H1 as [<-|H1], H2 as [<-|H2].
  - reflexivity.
  - exfalso. apply Hk. cbn [fst] in E. rewrite E. now apply in_map.
  - exfalso. apply Hk. cbn [fst] in E. rewrite <- E. now apply in_map.
  - now apply IH.
Qed.

Section ForecastProperties.

Variable np_pi : Q.
Variables np_sin np_cos : Q -> Q.
Variable fit_predict : list (list Q * Q) -> list Q -> Q.

Local Abbreviation forecast_of := (forecast_demand np_pi np_sin np_cos fit_predict).
Local Abbreviation point_of := (forecast_point np_pi np_sin np_cos fit_predict).

(** With at least one model and one record, the forecast is returned: the
    points of each model in turn, for the hours after the latest record. *)
Lemma forecast_demand_ok (self : InventoryOptimizer) (horizon : Z)
    (data : list DemandRecord) :
  forecast_models self <> [] ->
  sample_data self = Some data ->
  data <> [] ->
  exists last_timestamp,
    list_max_Z (map timestamp data) = Some last_timestamp /\
    forecast_of self horizon
    = Ok (Some (flat_map
                  (fun km => map (point_of (snd km) (fst km)
                                           (tail 5 (demands_of (fst km) data)))
                                 (future_timestamps last_timestamp horizon))
                  (forecast_models self))).
Proof.
  intros Hm Hd Hne. unfold forecast_demand. rewrite Hd.
  destruct (forecast_models self) as [|km models]; [contradiction|].
  destruct data as [|r data]; [contradiction|].
  cbn [map list_max_Z]. eexists. split; reflexivity.
Qed.

Lemma forecast_demand_points (self : InventoryOptimizer) (horizon : Z)
    (forecasts : list ForecastPoint) (f : ForecastPoint) :
  forecast_of self horizon = Ok (Some forecasts) ->
  In f forecasts ->
  exists data km t,
    sample_data self = Some data /\
    In km (forecast_models self) /\
    f = point_of (snd km) (fst km) (tail 5 (demands_of (fst km) data)) t.
Proof.
  unfold forecast_demand.
  destruct (forecast_models self) as [|km0 models]; [discriminate|].
  cbv beta iota. generalize (km0 :: models). intros ms.
  destruct (sample_data self) as [data|]; [|discriminate].
  destruct (list_max_Z _) as [last|].
  - intros [= <-] Hf. apply in_flat_map in Hf. destruct Hf as (km & Hkm & Hf).
    apply in_map_iff in Hf. destruct Hf as (t & <- & _).
    exists data, km, t. auto.
  - destruct (0 <? horizon)%Z; [discriminate|]. intros [= <-] [].
Qed.

(** X7. Every point of a returned forecast has a predicted demand that is not
    negative, whatever the regression predicts, and an [hour] that is the
    hour of its timestamp. *)
Theorem forecast_demand_nonneg (self : InventoryOptimizer) (horizon : Z)
    (forecasts : list ForecastPoint) (f : ForecastPoint) :
  forecast_of self horizon = Ok (Some forecasts) ->
  In f forecasts ->
  0 <= predicted_demand f /\ fp_hour f = dt_hour (fp_timestamp f).
Proof.
  intros H Hf. destruct (forecast_demand_points _ _ _ _ H Hf) as (data & km & t & _ & _ & ->).
  cbn [forecast_point predicted_demand fp_hour fp_timestamp].
  split; [|reflexivity]. apply round_nonneg, max_0_nonneg.
Qed.

(** X8. With at least one model and one record, the forecast holds, for each
    model in the order of [forecast_models], one point per hour from 1 to
    [hours_ahead] after the latest timestamp of the data: as many points as
    models times hours (none for a horizon that is not positive). *)
Theorem forecast_demand_shape (self : InventoryOptimizer) (horizon : Z)
    (data : list DemandRecord) :
  forecast_models self <> [] ->
  sample_data self = Some data ->
  data <> [] ->
  exists (last_timestamp : Z) (forecasts : list ForecastPoint),
    forecast_of self horizon = Ok (Some forecasts) /\
    In last_timestamp (map timestamp data) /\
    (forall t, In t (map timestamp data) -> (t <= last_timestamp)%Z) /\
    map (fun f => (fp_category f, fp_timestamp f)) forecasts
    = flat_map (fun c => map (fun i => (c, (last_timestamp + 3600 * Z.of_nat i)%Z))
                             (seq 1 (Z.to_nat horizon)))
               (map fst (forecast_models self)) /\
    length forecasts = (length (forecast_models self) * Z.to_nat horizon)%nat.
Proof.
  intros Hm Hd Hne.
  destruct (forecast_demand_ok self horizon data Hm Hd Hne) as (last & Hlast & Hrun).
  apply list_max_Z_spec in Hlast. destruct Hlast as [Hin Hmax].
  eexists last, _. split; [exact Hrun|]. split; [exact Hin|]. split; [exact Hmax|].
  unfold future_timestamps. generalize (forecast_models self). intros ms. split.
  - induction ms as [|km ms IH]; [reflexivity|].
    cbn [flat_map map fst]. rewrite List.map_app, IH. f_equal.
    rewrite !List.map_map. reflexivity.
  - induction ms as [|km ms IH]; [reflexivity|].
    cbn [flat_map length]. rewrite length_app, IH, !length_map, length_seq. lia.
Qed.

(** X9. The forecast of a category depends on the hour only through the hour
    of the day and the day of the week: two points of a returned forecast for
    the same category with the same hour and weekday have the same predicted
    demand.  In particular the forecast repeats after 168 hours. *)
Theorem forecast_repeats_weekly (self : InventoryOptimizer) (horizon : Z)
    (forecasts : list ForecastPoint) (f g : ForecastPoint) :
  forecast_of self horizon = Ok (Some forecasts) ->
  List.NoDup (map fst (forecast_models self)) ->
  In f forecasts ->
  In g forecasts ->
  fp_category f = fp_category g ->
  (dt_hour (fp_timestamp f) = dt_hour (fp_timestamp g) ->
   dt_dayofweek (fp_timestamp f) = dt_dayofweek (fp_timestamp g) ->
   predicted_demand f = predicted_demand g) /\
  (fp_timestamp g = (fp_timestamp f + 604800)%Z ->
   predicted_demand f = predicted_demand g).
Proof.
  intros H Hnd Hf Hg Hc.
  destruct (forecast_demand_points _ _ _ _ H Hf) as (data & km & t & Hd & Hkm & ->).
  destruct (forecast_demand_points _ _ _ _ H Hg) as (data' & km' & t' & Hd' & Hkm' & ->).
  rewrite Hd in Hd'. injection Hd' as <-.
  cbn [forecast_point fp_category fp_timestamp predicted_demand] in *.
  assert (E : km = km') by (now apply (NoDup_keys_inj (forecast_models self))).
  subst km'.
  assert (Hsame : dt_hour t = dt_hour t' -> dt_dayofweek t = dt_dayofweek t' ->
                  round (Py.max 0 (fit_predict (model (snd km))
                    [np_sin (2 * np_pi * inject_Z (dt_hour t) / 24);
                     np_cos (2 * np_pi * inject_Z (dt_hour t) / 24);
                     np_sin (2 * np_pi * inject_Z (dt_dayofweek t) / 7);
                     np_cos (2 * np_pi * inject_Z (dt_dayofweek t) / 7);
                     default 10 (iloc_neg 1 (tail 5 (demands_of (fst km) data)));
                     default 10 (iloc_neg 2 (tail 5 (demands_of (fst km) data)));
                     if (3 <=? length (tail 5 (demands_of (fst km) data)))%nat
                     then mean (tail 3 (tail 5 (demands_of (fst km) data))) else 10])) 1
                  = round (Py.max 0 (fit_predict (model (snd km))
                    [np_sin (2 * np_pi * inject_Z (dt_hour t') / 24);
                     np_cos (2 * np_pi * inject_Z (dt_hour t') / 24);
                     np_sin (2 * np_pi * inject_Z (dt_dayofweek t') / 7);
                     np_cos (2 * np_pi * inject_Z (dt_dayofweek t') / 7);
                     default 10 (iloc_neg 1 (tail 5 (demands_of (fst km) data)));
                     default 10 (iloc_neg 2 (tail 5 (demands_of (fst km) data)));
                     if (3 <=? length (tail 5 (demands_of (fst km) data)))%nat
                     then mean (tail 3 (tail 5 (demands_of (fst km) data))) else 10])) 1).
  { intros -> ->. reflexivity. }
  split; [exact Hsame|].
  intros ->. apply Hsame.
  - symmetry. apply dt_hour_next_week.
  - symmetry. apply dt_dayofweek_next_week.
Qed.

End ForecastProperties.

Lemma flat_map_nil {A B : Type} (l : list A) : flat_map (fun _ : A => @nil B) l = [].
Proof.
  induction l as [|x l IH]; [reflexivity|]. exact IH.
Qed.

Section ScheduleEdges.

Variable np_pi : Q.
Variables np_sin np_cos np_sqrt : Q -> Q.
Variable fit_predict : list (list Q * Q) -> list Q -> Q.

Local Abbreviation schedule_of :=
  (generate_restocking_schedule np_pi np_sin np_cos np_sqrt fit_predict).

(** X5. [generate_restocking_schedule] never returns an empty schedule: a
    schedule that is returned has a row.  With models and records present, an
    inventory without rows makes it raise [KeyError] (the frame built from no
    row has no column [urgency]); so does a horizon that is not positive when
    the planner succeeds (the forecast frame has no column [timestamp]). *)
Theorem schedule_never_empty (self : InventoryOptimizer) (horizon : Z) :
  (forall schedule : list RestockAction,
     schedule_of self horizon = Ok (Some schedule) -> schedule <> []) /\
  (forall data : list DemandRecord,
     forecast_models self <> [] ->
     sample_data self = Some data ->
     data <> [] ->
     (inventory_data self = Some [] -> schedule_of self horizon = Raise KeyError) /\
     (forall inventory,
        (horizon <= 0)%Z ->
        inventory_data self = Some inventory ->
        (forall row, In row inventory -> In (inv_category row) (map dr_category data)) ->
        schedule_of self horizon = Raise KeyError)).
Proof.
  split; [exact (schedule_not_empty np_pi np_sin np_cos np_sqrt fit_predict self horizon)|].
  intros data Hm Hd Hne.
  destruct (forecast_demand_ok np_pi np_sin np_cos fit_predict self horizon data Hm Hd Hne)
    as (last & _ & Hrun).
  split.
  - intros Hi. unfold generate_restocking_schedule, mbind, result_bind, Py.bind.
    rewrite Hrun. unfold calculate_optimal_stock_levels, mbind, result_bind, Py.bind,
      mret, result_ret.
    rewrite Hi, Hd. cbn [plan_rows].
    destruct (list_min_Z _); reflexivity.
  - intros inventory Hh Hi Hknown.
    unfold generate_restocking_schedule, mbind, result_bind, Py.bind.
    rewrite Hrun. unfold calculate_optimal_stock_levels, mbind, result_bind, Py.bind,
      mret, result_ret.
    rewrite Hi, Hd.
    destruct (plan_rows_result np_sqrt (groupby_agg np_sqrt data) (95 # 100) inventory)
      as [[Hex _]|[_ (plans & -> & _)]].
    + exfalso. apply List.Exists_exists in Hex. destruct Hex as (row & Hrow & Hnone).
      destruct (proj1 (find_groupby_agg np_sqrt (inv_category row) data)
                  (Hknown row Hrow)) as (s & Hs & _).
      congruence.
    + unfold future_timestamps. replace (Z.to_nat horizon) with 0%nat by lia.
      cbn [seq map]. rewrite flat_map_nil. reflexivity.
Qed.

End ScheduleEdges.

(** ** The properties above on the demonstration store *)

Lemma demo_schedule_returned :
  Demo.schedule (Demo.trained Demo.dairy Demo.shelf) 72 = Ok (Some Demo.shelf_schedule).
Proof.
  vm_compute. reflexivity.
Defined.

Lemma demo_forecast_returned :
  Demo.forecast (Demo.trained Demo.dairy Demo.shelf) 170 = Ok (Some Demo.dairy_forecast).
Proof.
  vm_compute. reflexivity.
Defined.

(** The four rows of the schedule are the four rows of [Demo.shelf]. *)
Lemma schedule_covers_inventory_witness :
  length Demo.shelf_schedule = length Demo.shelf /\
  Permutation (map action_item Demo.shelf_schedule) (map inventory_item Demo.shelf).
Proof.
  destruct (schedule_covers_inventory Demo.pi Demo.sin Demo.cos Demo.sqrt Demo.fit_predict
              (Demo.trained Demo.dairy Demo.shelf) 72 Demo.shelf_schedule
              demo_schedule_returned) as (inventory & Hi & _ & Hlen & Hperm).
  assert (E : inventory_data (Demo.trained Demo.dairy Demo.shelf) = Some Demo.shelf)
    by reflexivity.
  rewrite E in Hi. injection Hi as <-. split; assumption.
Defined.

(** The row of Paneer uses the plan of the only row of its store and
    category, its own. *)
Lemma schedule_joins_first_plan_of_store_and_category_witness :
  exists a : RestockAction,
    Demo.paneer_action = Some a /\
    In a Demo.shelf_schedule /\
    exists (first_row : InventoryItem) (plan : StockLevelPlan),
      find (fun r => String.eqb (inv_category r) (ra_category a)
                     && String.eqb (dark_store_id r) (ra_dark_store_id a)) Demo.shelf
        = Some first_row /\
      ra_reorder_point a == reorder_point plan.
Proof.
  unfold Demo.paneer_action. eexists. split; [reflexivity|].
  match goal with |- In ?a _ /\ _ =>
    assert (Ha : In a Demo.shelf_schedule) by (right; left; reflexivity)
  end.
  split; [exact Ha|].
  destruct (schedule_joins_first_plan_of_store_and_category
              Demo.pi Demo.sin Demo.cos Demo.sqrt Demo.fit_predict
              (Demo.trained Demo.dairy Demo.shelf) 72 Demo.shelf_schedule _
              demo_schedule_returned Ha)
    as (data & inventory & first_row & plan & _ & Hi & Hfirst & _ & Hrp & _).
  assert (E : inventory_data (Demo.trained Demo.dairy Demo.shelf) = Some Demo.shelf)
    by reflexivity.
  rewrite E in Hi. injection Hi as <-.
  exists first_row, plan. split; assumption.
Defined.



(** The row of Paneer records a projection of -10, below its recorded reorder
    point, and needs restocking. *)
Lemma needs_restock_from_recorded_witness :
  exists a : RestockAction,
    Demo.paneer_action = Some a /\
    In a Demo.shelf_schedule /\
    projected_stock_24h a < ra_reorder_point a /\
    needs_restock a = true.
Proof.
  unfold Demo.paneer_action. eexists. split; [reflexivity|].
  match goal with |- In ?a _ /\ _ =>
    assert (Ha : In a Demo.shelf_schedule) by (right; left; reflexivity);
    assert (Hb : projected_stock_24h a < ra_reorder_point a) by (vm_compute; reflexivity)
  end.
  split; [exact Ha|]. split; [exact Hb|].
  destruct (needs_restock_from_recorded Demo.pi Demo.sin Demo.cos Demo.sqrt
              Demo.fit_predict (Demo.trained Demo.dairy Demo.shelf) 72
              Demo.shelf_schedule _ demo_schedule_returned Ha) as (_ & Hneed & _).
  exact (Hneed Hb).
Defined.

(** The row of Paneer needs restocking and is not Low. *)
Lemma low_urgency_means_no_order_witness :
  exists a : RestockAction,
    Demo.paneer_action = Some a /\
    In a Demo.shelf_schedule /\
    needs_restock a = true /\
    urgency a <> Low.
Proof.
  unfold Demo.paneer_action. eexists. split; [reflexivity|].
  match goal with |- In ?a _ /\ _ =>
    assert (Ha : In a Demo.shelf_schedule) by (right; left; reflexivity)
  end.
  split; [exact Ha|]. split; [reflexivity|].
  apply (low_urgency_means_no_order Demo.pi Demo.sin Demo.cos Demo.sqrt Demo.fit_predict
           (Demo.trained Demo.dairy Demo.shelf) 72 Demo.shelf_schedule _
           demo_schedule_returned Ha).
  reflexivity.
Defined.

(** A trained optimizer whose inventory has no row. *)
Lemma schedule_never_empty_witness :
  Demo.schedule (Demo.trained Demo.dairy []) 72 <> Ok (Some []) /\
  Demo.schedule (Demo.trained Demo.dairy []) 72 = Raise KeyError.
Proof.
  destruct (schedule_never_empty Demo.pi Demo.sin Demo.cos Demo.sqrt Demo.fit_predict
              (Demo.trained Demo.dairy []) 72) as (Hnot & Hraise).
  split.
  - intros E. now apply Hnot in E.
  - apply (proj1 (Hraise Demo.dairy ltac:(vm_compute; discriminate) eq_refl
                    ltac:(discriminate))).
    reflexivity.
Defined.

(** The two Critical rows of the demonstration schedule are its first two
    rows. *)
Lemma urgent_items_is_prefix_witness :
  urgent_items Demo.shelf_schedule = firstn 2 Demo.shelf_schedule.
Proof.
  rewrite (urgent_items_is_prefix Demo.pi Demo.sin Demo.cos Demo.sqrt Demo.fit_predict
             (Demo.trained Demo.dairy Demo.shelf) 72 Demo.shelf_schedule
             demo_schedule_returned).
  reflexivity.
Defined.

(** The first point of the demonstration forecast. *)
Lemma forecast_demand_nonneg_witness :
  exists f : ForecastPoint,
    Demo.first_hour = Some f /\ In f Demo.dairy_forecast /\ 0 <= predicted_demand f.
Proof.
  unfold Demo.first_hour. eexists. split; [reflexivity|].
  match goal with |- In ?f _ /\ _ =>
    assert (Hf : In f Demo.dairy_forecast) by (left; reflexivity)
  end.
  split; [exact Hf|].
  apply (forecast_demand_nonneg Demo.pi Demo.sin Demo.cos Demo.fit_predict
           (Demo.trained Demo.dairy Demo.shelf) 170 Demo.dairy_forecast _
           demo_forecast_returned Hf).
Defined.

(** One model and a horizon of 170 hours: 170 points. *)
Lemma forecast_demand_shape_witness :
  exists forecasts : list ForecastPoint,
    Demo.forecast (Demo.trained Demo.dairy Demo.shelf) 170 = Ok (Some forecasts) /\
    length forecasts = 170%nat.
Proof.
  destruct (forecast_demand_shape Demo.pi Demo.sin Demo.cos Demo.fit_predict
              (Demo.trained Demo.dairy Demo.shelf) 170 Demo.dairy
              ltac:(vm_compute; discriminate) eq_refl ltac:(discriminate))
    as (last & forecasts & Hrun & _ & _ & _ & Hlen).
  exists forecasts. split; [exact Hrun|]. rewrite Hlen. vm_compute. reflexivity.
Defined.

(** The first point of the demonstration forecast and the point 168 hours
    later. *)
Lemma forecast_repeats_weekly_witness :
  exists f g : ForecastPoint,
    Demo.first_hour = Some f /\ Demo.first_hour_next_week = Some g /\
    fp_timestamp g = (fp_timestamp f + 604800)%Z /\
    predicted_demand f = predicted_demand g.
Proof.
  unfold Demo.first_hour, Demo.first_hour_next_week. do 2 eexists.
  split; [reflexivity|]. split; [reflexivity|]. split; [reflexivity|].
  match goal with |- predicted_demand ?f = predicted_demand ?g =>
    refine (proj2 (forecast_repeats_weekly Demo.pi Demo.sin Demo.cos Demo.fit_predict
                     (Demo.trained Demo.dairy Demo.shelf) 170 Demo.dairy_forecast f g
                     demo_forecast_returned _ _ _ eq_refl) eq_refl)
  end.
  - vm_compute. repeat constructor. intros [].
  - left. reflexivity.
  - apply nth_error_In with (n := 168%nat). reflexivity.
Defined.

(** ** Further properties of the planner *)

Section PlannerProperties.

Variable np_sqrt : Q -> Q.

Lemma Forall2_plan_rows (demand_stats : list DemandStats) (service_level : Q)
    (inventory : list InventoryItem) (plans : list StockLevelPlan) :
  List.Forall2 (fun row p => plan_row np_sqrt demand_stats service_level row = Ok p)
               inventory plans ->
  plan_rows np_sqrt demand_stats service_level inventory = Ok plans.
Proof.
  induction 1 as [|row p rows ps Hp _ IH]; [reflexivity|].
  cbn [plan_rows]. unfold mbind, result_bind, Py.bind, mret, result_ret.
  now rewrite Hp, IH.
Qed.

Lemma z_score_unrecognized (service_level : Q) :
  ~ service_level == 90 # 100 -> ~ service_level == 95 # 100 ->
  ~ service_level == 99 # 100 ->
  z_score service_level = z_score (95 # 100).
Proof.
  intros H1 H2 H3. unfold z_score.
  destruct (Qeq_bool service_level (90 # 100)) eqn:E1;
    [apply Qeq_bool_eq in E1; contradiction|].
  destruct (Qeq_bool service_level (95 # 100)) eqn:E2;
    [apply Qeq_bool_eq in E2; contradiction|].
  destruct (Qeq_bool service_level (99 # 100)) eqn:E3;
    [apply Qeq_bool_eq in E3; contradiction|].
  reflexivity.
Qed.

Lemma plan_row_same_z (demand_stats : list DemandStats) (sl sl' : Q) (row : InventoryItem) :
  z_score sl = z_score sl' ->
  plan_row np_sqrt demand_stats sl row
  = match plan_row np_sqrt demand_stats sl' row with
    | Ok p => Ok (with_service_level sl p)
    | Raise e => Raise e
    end.
Proof.
  intros E. unfold plan_row. destruct (find _ demand_stats); [|reflexivity].
  rewrite E. reflexivity.
Qed.

(** X10. A service level other than 0.90, 0.95 and 0.99 is planned as 0.95:
    the call returns the plans of 0.95, with the given level in their column
    [service_level], and fails when the call for 0.95 fails. *)
Theorem unrecognized_service_level_plans_for_95 (self : InventoryOptimizer)
    (service_level : Q) :
  ~ service_level == 90 # 100 -> ~ service_level == 95 # 100 ->
  ~ service_level == 99 # 100 ->
  calculate_optimal_stock_levels np_sqrt self service_level
  = match calculate_optimal_stock_levels np_sqrt self (95 # 100) with
    | Ok (Some plans) => Ok (Some (map (with_service_level service_level) plans))
    | other => other
    end.
Proof.
  intros H1 H2 H3. pose proof (z_score_unrecognized _ H1 H2 H3) as Hz.
  unfold calculate_optimal_stock_levels, mbind, result_bind, Py.bind, mret, result_ret.
  destruct (inventory_data self) as [inventory|]; [|reflexivity].
  destruct (sample_data self) as [data|]; [|reflexivity].
  generalize (groupby_agg np_sqrt data). intros stats.
  assert (E : plan_rows np_sqrt stats service_level inventory
              = match plan_rows np_sqrt stats (95 # 100) inventory with
                | Ok plans => Ok (map (with_service_level service_level) plans)
                | Raise e => Raise e
                end).
  { induction inventory as [|row rest IH]; [reflexivity|].
    cbn [plan_rows]. unfold mbind, result_bind, Py.bind, mret, result_ret.
    rewrite (plan_row_same_z stats service_level (95 # 100) row Hz), IH.
    destruct (plan_row np_sqrt stats (95 # 100) row); [|reflexivity].
    destruct (plan_rows np_sqrt stats (95 # 100) rest); reflexivity. }
  rewrite E. destruct (plan_rows np_sqrt stats (95 # 100) inventory); reflexivity.
Qed.

(** The statistics that the planner uses for a row are those of the records
    of its category. *)
Lemma plan_row_mean (data : list DemandRecord) (service_level : Q) (row : InventoryItem)
    (p : StockLevelPlan) :
  plan_row np_sqrt (groupby_agg np_sqrt data) service_level row = Ok p ->
  exists s,
    find (fun s => String.eqb (ds_category s) (inv_category row)) (groupby_agg np_sqrt data)
      = Some s /\
    ds_mean s = mean (demands_of (inv_category row) data).
Proof.
  intros Hp.
  destruct (List.in_dec String.string_dec (inv_category row) (map dr_category data))
    as [Hin|Hout].
  - destruct (proj1 (find_groupby_agg np_sqrt _ data) Hin) as (s & Hs & _ & Hm). eauto.
  - apply (find_groupby_agg np_sqrt) in Hout. unfold plan_row in Hp.
    rewrite Hout in Hp. discriminate Hp.
Qed.

(** X11. The order quantity of a plan depends only on the mean demand of the
    category and on the storage cost of the row: for a storage cost that is
    zero or negative it is a week of mean demand, [round(7 * mean, 1)], and
    nothing is divided; otherwise it is
    [round(sqrt(2 * 365 * mean * 50 / (0.2 * cost)), 1)]. *)
Theorem eoq_of_plan (self : InventoryOptimizer) (service_level : Q)
    (plans : list StockLevelPlan) :
  calculate_optimal_stock_levels np_sqrt self service_level = Ok (Some plans) ->
  exists (data : list DemandRecord) (inventory : list InventoryItem),
    sample_data self = Some data /\
    inventory_data self = Some inventory /\
    List.Forall2
      (fun row p =>
         let avg := mean (demands_of (inv_category row) data) in
         (storage_cost_per_unit row <= 0 -> eoq p = round (avg * 7) 1) /\
         (0 < storage_cost_per_unit row ->
          eoq p = round (np_sqrt (2 * (avg * 365) * 50
                                  / (storage_cost_per_unit row * (2 # 10)))) 1))
      inventory plans.
Proof.
  intros H. apply calculate_optimal_stock_levels_Forall2 in H.
  destruct H as (data & inventory & Hd & Hi & Hplans).
  exists data, inventory. split; [exact Hd|]. split; [exact Hi|].
  clear Hi. induction Hplans as [|row p rows ps Hp _ IH]; [constructor|].
  constructor; [|exact IH].
  destruct (plan_row_mean _ _ _ _ Hp) as (s & Hs & Hm).
  unfold plan_row in Hp. rewrite Hs in Hp. injection Hp as <-.
  cbn [eoq]. rewrite Hm. split; intros Hc.
  - assert (E : Qlt_bool 0 (storage_cost_per_unit row * (2 # 10)) = false)
      by (apply Qlt_bool_false; lra).
    now rewrite E.
  - assert (E : Qlt_bool 0 (storage_cost_per_unit row * (2 # 10)) = true)
      by (apply Qlt_bool_iff; lra).
    now rewrite E.
Qed.

Hypothesis np_sqrt_nonneg : forall x, 0 <= x -> 0 <= np_sqrt x.

Lemma plan_row_monotone (demand_stats : list DemandStats) (sl1 sl2 : Q)
    (row : InventoryItem) (p1 : StockLevelPlan) :
  (forall s, In s demand_stats -> 0 <= ds_mean s) ->
  0 <= lead_time_hours row ->
  z_score sl1 <= z_score sl2 ->
  plan_row np_sqrt demand_stats sl1 row = Ok p1 ->
  exists p2,
    plan_row np_sqrt demand_stats sl2 row = Ok p2 /\
    sl_product_name p1 = sl_product_name p2 /\
    safety_stock p1 <= safety_stock p2 /\
    reorder_point p1 <= reorder_point p2 /\
    optimal_max_stock p1 <= optimal_max_stock p2 /\
    eoq p1 = eoq p2.
Proof.
  intros Hmean Hlead Hz. unfold plan_row.
  destruct (find _ demand_stats) as [s|] eqn:Ef; [|discriminate].
  intros [= <-]. eexists. split; [reflexivity|].
  cbn [sl_product_name safety_stock reorder_point optimal_max_stock eoq].
  apply find_some in Ef. destruct Ef as [Hs _]. specialize (Hmean s Hs).
  assert (H24 : 0 <= lead_time_hours row / 24) by (apply Qdiv_nonneg; lra).
  pose proof (np_sqrt_nonneg _ H24) as Hq.
  set (std := match ds_std s with
              | Some s0 => if Qlt_bool 0 s0 then s0 else ds_mean s * (2 # 10)
              | None => ds_mean s * (2 # 10)
              end).
  assert (Hstd : 0 <= std).
  { subst std. destruct (ds_std s) as [s0|]; [|lra].
    destruct (Qlt_bool 0 s0) eqn:E; [apply Qlt_bool_iff in E|]; lra. }
  assert (Hsafety : z_score sl1 * std * np_sqrt (lead_time_hours row / 24)
                    <= z_score sl2 * std * np_sqrt (lead_time_hours row / 24)).
  { apply Qmult_le_compat_r; [|exact Hq]. apply Qmult_le_compat_r; assumption. }
  split; [reflexivity|].
  split; [now apply round_mono|].
  split; [apply round_mono; lra|].
  split; [apply round_mono; lra|reflexivity].
Qed.

(** X12. For data without negative demand and an inventory without negative
    lead time, a service level with a higher z-score (0.90, then 0.95, then
    0.99) gives, row by row, a safety stock, a reorder point and an
    [optimal_max_stock] that are at least as high, and the same order
    quantity; the planner succeeds for one level when it does for the
    other. *)
Theorem higher_service_level_raises_reorder_point (self : InventoryOptimizer)
    (sl1 sl2 : Q) (plans1 : list StockLevelPlan) :
  (forall data, sample_data self = Some data ->
                List.Forall (fun r => 0 <= demand_quantity r) data) ->
  (forall inventory, inventory_data self = Some inventory ->
                     List.Forall (fun r => 0 <= lead_time_hours r) inventory) ->
  z_score sl1 <= z_score sl2 ->
  calculate_optimal_stock_levels np_sqrt self sl1 = Ok (Some plans1) ->
  exists plans2 : list StockLevelPlan,
    calculate_optimal_stock_levels np_sqrt self sl2 = Ok (Some plans2) /\
    List.Forall2
      (fun p1 p2 =>
         sl_product_name p1 = sl_product_name p2 /\
         safety_stock p1 <= safety_stock p2 /\
         reorder_point p1 <= reorder_point p2 /\
         optimal_max_stock p1 <= optimal_max_stock p2 /\
         eoq p1 = eoq p2)
      plans1 plans2.
Proof.
  intros Hdemand Hlead Hz H. apply calculate_optimal_stock_levels_Forall2 in H.
  destruct H as (data & inventory & Hd & Hi & Hplans).
  specialize (Hdemand data Hd). specialize (Hlead inventory Hi).
  unfold calculate_optimal_stock_levels, mbind, result_bind, Py.bind, mret, result_ret.
  rewrite Hi, Hd.
  assert (Hmean : forall s, In s (groupby_agg np_sqrt data) -> 0 <= ds_mean s)
    by (intros s Hs; now apply (groupby_agg_mean_nonneg np_sqrt data)).
  assert (Hex : exists plans2,
             List.Forall2
               (fun row p => plan_row np_sqrt (groupby_agg np_sqrt data) sl2 row = Ok p)
               inventory plans2 /\
             List.Forall2
               (fun p1 p2 =>
                  sl_product_name p1 = sl_product_name p2 /\
                  safety_stock p1 <= safety_stock p2 /\
                  reorder_point p1 <= reorder_point p2 /\
                  optimal_max_stock p1 <= optimal_max_stock p2 /\
                  eoq p1 = eoq p2)
               plans1 plans2).
  { clear Hi. induction Hplans as [|row p1 rows ps Hp _ IH].
    - exists []. split; constructor.
    - apply List.Forall_cons_iff in Hlead. destruct Hlead as [Hrow Hrest].
      destruct (plan_row_monotone _ sl1 sl2 row p1 Hmean Hrow Hz Hp) as (p2 & Hp2 & Hrel).
      destruct (IH Hrest) as (ps2 & Hps2 & Hrels).
      exists (p2 :: ps2). split; constructor; assumption. }
  destruct Hex as (plans2 & Hrun & Hrel).
  exists plans2. rewrite (Forall2_plan_rows _ _ _ _ Hrun). split; [reflexivity|exact Hrel].
Qed.

End PlannerProperties.

(** ** Further properties of the cost estimator *)

Lemma dict_zip_lookup_other (kvs : list (string * Q)) (m : gmap string Q) (c : string) :
  ~ In c (map fst kvs) ->
  fold_left (fun (m : gmap string Q) kv => <[fst kv := snd kv]> m) kvs m !! c = m !! c.
Proof.
  revert m. induction kvs as [|[k v] kvs IH]; intros m H; cbn [fold_left map fst snd In] in *.
  - reflexivity.
  - rewrite IH by tauto. apply lookup_insert_ne. tauto.
Qed.

Lemma dict_zip_lookup_In (kvs : list (string * Q)) (m : gmap string Q) (c : string) (v : Q) :
  List.NoDup (map fst kvs) -> In (c, v) kvs ->
  fold_left (fun (m : gmap string Q) kv => <[fst kv := snd kv]> m) kvs m !! c = Some v.
Proof.
  revert m. induction kvs as [|[k w] kvs IH]; intros m Hnd Hin; [destruct Hin|].
  cbn [map fst] in Hnd. apply List.NoDup_cons_iff in Hnd. destruct Hnd as [Hk Hnd].
  cbn [fold_left fst snd]. destruct Hin as [E|Hin].
  - injection E as -> ->. rewrite dict_zip_lookup_other by exact Hk.
    apply lookup_insert_eq.
  - now apply IH.
Qed.

(** The dictionary of mean demands holds, for a category with records, the
    mean of its demands. *)
Lemma demand_dict_known (data : list DemandRecord) (c : string) :
  In c (map dr_category data) ->
  dict_zip (groupby_mean data) !! c = Some (mean (demands_of c data)).
Proof.
  intros H. unfold dict_zip. apply dict_zip_lookup_In.
  - unfold groupby_mean. rewrite List.map_map. cbn [fst]. rewrite List.map_id.
    apply unique_NoDup.
  - unfold groupby_mean. apply in_map_iff. exists c. split; [reflexivity|].
    now apply unique_In.
Qed.

(** The stockout cost of a row for an average demand: 5 per unit of the
    shortfall of the stock below the average, and nothing otherwise. *)
Lemma stockout_cost_of_shortfall (demand_dict : gmap string Q) (row : InventoryItem) :
  let avg := default 10 (demand_dict !! inv_category row) in
  0 <= stockout_cost_of demand_dict row /\
  (0 < avg -> stockout_cost_of demand_dict row == 5 * Py.max 0 (avg - current_stock row)) /\
  (avg <= 0 -> stockout_cost_of demand_dict row == 0).
Proof.
  intros avg. unfold stockout_cost_of. fold avg.
  destruct (Qlt_bool 0 avg) eqn:Eavg.
  - apply Qlt_bool_iff in Eavg.
    assert (Hq : (avg - current_stock row) / avg * avg == avg - current_stock row)
      by (field; lra).
    set (q := (avg - current_stock row) / avg) in *.
    unfold Py.max.
    destruct (Qlt_bool 0 q) eqn:Eq1.
    + apply Qlt_bool_iff in Eq1.
      pose proof (Qmult_lt_0_compat _ _ Eq1 Eavg) as Hpos.
      assert (E : Qlt_bool 0 (avg - current_stock row) = true)
        by (apply Qlt_bool_iff; lra).
      rewrite E. split; [|split]; [| intros _ | intros Hle]; lra.
    + apply Qlt_bool_false in Eq1.
      assert (Hneg : q * avg <= 0).
      { assert (H : 0 <= (- q) * avg) by (apply Qmult_le_0_compat; lra). lra. }
      assert (E : Qlt_bool 0 (avg - current_stock row) = false)
        by (apply Qlt_bool_false; lra).
      rewrite E. split; [|split]; [| intros _ | intros Hle]; lra.
  - apply Qlt_bool_false in Eavg. split; [|split]; [| intros Hlt | intros _]; lra.
Qed.

Lemma sum_combine_plus (a b : list Q) :
  length a = length b ->
  sum (map (fun hs => fst hs + snd hs) (combine a b)) == sum a + sum b.
Proof.
  revert b. induction a as [|x a IH]; intros [|y b] H; try discriminate H.
  - unfold sum. cbn [combine map fold_right]. lra.
  - injection H as H. specialize (IH b H).
    unfold sum in *. cbn [combine map fold_right fst snd]. lra.
Qed.

Section CostAccumulation.

Local Abbreviation accumulate :=
  (fold_left (fun (m : gmap string Q) (kv : string * Q) =>
                <[fst kv := default 0 (m !! fst kv) + snd kv]> m)).

(** The running sums of [groupby(key).sum()]: a key of the rows maps to the
    sum of its values, another key is left as it was. *)
Lemma accumulate_lookup (rows : list (string * Q)) (m : gmap string Q) (k : string) :
  (In k (map fst rows) ->
   exists v, accumulate rows m !! k = Some v /\
             v == default 0 (m !! k)
                  + sum (map snd (List.filter (fun r => String.eqb (fst r) k) rows))) /\
  (~ In k (map fst rows) -> accumulate rows m !! k = m !! k).
Proof.
  revert m. induction rows as [|[k' v'] rows IH]; intros m.
  - split; [intros []|reflexivity].
  - cbn [fold_left map fst snd List.filter In].
    set (m' := <[k' := default 0 (m !! k') + v']> m).
    destruct (IH m') as [IHin IHout].
    destruct (String.eqb_spec k' k) as [->|Hne].
    + assert (Em' : m' !! k = Some (default 0 (m !! k) + v'))
        by (subst m'; apply lookup_insert_eq).
      split; [|intros H; exfalso; auto].
      intros _.
      destruct (List.in_dec String.string_dec k (map fst rows)) as [Hin|Hout].
      * destruct (IHin Hin) as (v & Hv & Eq). exists v. split; [exact Hv|].
        rewrite Eq, Em'. unfold sum. cbn [map fold_right snd default from_option id]. lra.
      * exists (default 0 (m !! k) + v'). split; [now rewrite IHout|].
        assert (E : List.filter (fun r : string * Q => String.eqb (fst r) k) rows = []).
        { clear -Hout. induction rows as [|[k0 v0] rows IH]; [reflexivity|].
          cbn [List.filter fst map In] in *.
          destruct (String.eqb_spec k0 k) as [->|_]; [exfalso; auto|]. apply IH. tauto. }
        rewrite E. unfold sum. cbn [map fold_right snd]. lra.
    + assert (Em' : m' !! k = m !! k) by (subst m'; now apply lookup_insert_ne).
      split.
      * intros [H|H]; [contradiction|].
        destruct (IHin H) as (v & Hv & Eq). exists v. split; [exact Hv|].
        now rewrite Eq, Em'.
      * intros H. rewrite IHout by tauto. exact Em'.
Qed.

(** [groupby(key)[column].sum().round(2).to_dict()]: the keys are the keys of
    the rows, each with the rounded sum of its values. *)
Lemma groupby_sum_dict_lookup (rows : list (string * Q)) (k : string) :
  (In k (map fst rows) ->
   exists v, groupby_sum_dict rows !! k = Some v /\
             v == round (sum (map snd (List.filter (fun r => String.eqb (fst r) k) rows))) 2) /\
  (~ In k (map fst rows) -> groupby_sum_dict rows !! k = None).
Proof.
  unfold groupby_sum_dict. rewrite lookup_fmap.
  destruct (accumulate_lookup rows ∅ k) as [Hin Hout]. split.
  - intros H. destruct (Hin H) as (v & -> & Eq). cbn [fmap option_fmap option_map].
    eexists. split; [reflexivity|]. rewrite Eq, lookup_empty.
    cbn [default from_option id]. apply round_proper; [lra|reflexivity].
  - intros H. now rewrite (Hout H), lookup_empty.
Qed.

End CostAccumulation.

Lemma nth_error_combine_Some {A B : Type} (l : list A) (l' : list B) (i : nat) (a : A) (b : B) :
  nth_error l i = Some a -> nth_error l' i = Some b ->
  nth_error (combine l l') i = Some (a, b).
Proof.
  revert l' i. induction l as [|x l IH]; intros [|y l'] [|i]; cbn [nth_error combine];
    try discriminate.
  - now intros [= ->] [= ->].
  - apply IH.
Qed.

Lemma map_fst_combine_map {A B C : Type} (key : A -> B) (l : list A) (l' : list C) :
  length l' = length l -> map fst (combine (map key l) l') = map key l.
Proof.
  revert l'. induction l as [|x l IH]; intros [|y l'] H; try discriminate H; [reflexivity|].
  cbn [map combine fst]. f_equal. apply IH. now injection H.
Qed.

(** C10. With data and an inventory loaded, [calculate_inventory_costs] does
    not raise, whatever the categories of the inventory: it returns a cost
    analysis and gives [inventory_data] the columns [holding_cost],
    [stockout_cost] and [total_cost] with one entry per inventory row.  For a
    row whose category has no demand record, the stockout cost is computed
    with the constant average demand 10 in place of the category's mean:
    [max(0, (10 - current_stock) / 10) * 10 * 5].  The summaries cover every
    row: each of the three totals is the rounded sum of a whole column, and
    the category and the store of every row, also of a row whose category has
    no demand record, are keys of [cost_by_category] and [cost_by_store], with
    the rounded sum of the total costs of the rows that have them. *)
Theorem unknown_category_costed_with_default
    (self : InventoryOptimizer) (data : list DemandRecord)
    (inventory : list InventoryItem) :
  sample_data self = Some data ->
  inventory_data self = Some inventory ->
  exists (self' : InventoryOptimizer) (analysis : CostAnalysis)
         (holding costs totals : list Q),
    calculate_inventory_costs self = (self', Ok (Some analysis)) /\
    inventory_data self' = Some inventory /\
    holding_cost self' = Some holding /\
    stockout_cost self' = Some costs /\
    total_cost self' = Some totals /\
    length holding = length inventory /\
    length costs = length inventory /\
    length totals = length inventory /\
    (forall (i : nat) (row : InventoryItem),
       nth_error inventory i = Some row ->
       exists h s : Q,
         nth_error holding i = Some h /\
         nth_error costs i = Some s /\
         nth_error totals i = Some (h + s) /\
         h = current_stock row * storage_cost_per_unit row * (2 # 10) / 365 /\
         (~ In (inv_category row) (map dr_category data) ->
          s = Py.max 0 ((10 - current_stock row) / 10) * 10 * 5)) /\
    total_holding_cost_daily analysis = round (sum holding) 2 /\
    total_stockout_cost_daily analysis = round (sum costs) 2 /\
    total_inventory_cost_daily analysis = round (sum totals) 2 /\
    (forall row : InventoryItem,
       In row inventory ->
       (exists v,
          cost_by_category analysis !! inv_category row = Some v /\
          v == round (sum (map snd
                        (List.filter (fun r => String.eqb (fst r) (inv_category row))
                           (combine (map inv_category inventory) totals)))) 2) /\
       (exists v,
          cost_by_store analysis !! dark_store_id row = Some v /\
          v == round (sum (map snd
                        (List.filter (fun r => String.eqb (fst r) (dark_store_id row))
                           (combine (map dark_store_id inventory) totals)))) 2)).
Proof.
  intros Hdata Hinv. unfold calculate_inventory_costs. rewrite Hinv, Hdata.
  do 5 eexists. split; [reflexivity|].
  cbn [inventory_data holding_cost stockout_cost total_cost total_holding_cost_daily
       total_stockout_cost_daily total_inventory_cost_daily cost_by_category cost_by_store].
  set (holding := map (fun r => current_stock r * storage_cost_per_unit r * (2 # 10) / 365)
                      inventory).
  set (costs := map (stockout_cost_of (dict_zip (groupby_mean data))) inventory).
  set (totals := map (fun hs : Q * Q => fst hs + snd hs) (combine holding costs)).
  assert (Hh : length holding = length inventory) by (subst holding; now rewrite length_map).
  assert (Hc : length costs = length inventory) by (subst costs; now rewrite length_map).
  assert (Ht : length totals = length inventory).
  { subst totals. now rewrite length_map, length_combine, Hh, Hc, Nat.min_id. }
  split; [reflexivity|]. split; [reflexivity|]. split; [reflexivity|]. split; [reflexivity|].
  split; [exact Hh|]. split; [exact Hc|]. split; [exact Ht|].
  split; [|split; [reflexivity|split; [reflexivity|split; [reflexivity|]]]].
  - intros i row Hrow.
    assert (E1 : nth_error holding i
                 = Some (current_stock row * storage_cost_per_unit row * (2 # 10) / 365))
      by (subst holding; now rewrite nth_error_map, Hrow).
    assert (E2 : nth_error costs i
                 = Some (stockout_cost_of (dict_zip (groupby_mean data)) row))
      by (subst costs; now rewrite nth_error_map, Hrow).
    do 2 eexists. split; [exact E1|]. split; [exact E2|]. split; [|split; [reflexivity|]].
    + pose proof (nth_error_combine_Some _ _ _ _ _ E1 E2) as E.
      subst totals holding costs. rewrite nth_error_map, E. reflexivity.
    + intros Hunknown. apply stockout_cost_of_unknown. now apply demand_dict_unknown.
  - intros row Hrow. split.
    + apply (proj1 (groupby_sum_dict_lookup _ _)).
      rewrite (map_fst_combine_map inv_category inventory totals Ht). now apply in_map.
    + apply (proj1 (groupby_sum_dict_lookup _ _)).
      rewrite (map_fst_combine_map dark_store_id inventory totals Ht). now apply in_map.
Qed.

(** X13. With data and an inventory loaded, the [stockout_cost] column has one
    entry per inventory row, none negative.  For a row whose category has
    records with a positive mean demand, the entry is 5 per unit of the
    shortfall of the stock below that mean, [5 * max(0, mean - current_stock)]:
    nothing when the stock covers the mean.  It is 0 when the mean is not
    positive. *)
Theorem stockout_cost_is_shortfall (self : InventoryOptimizer)
    (data : list DemandRecord) (inventory : list InventoryItem) :
  sample_data self = Some data ->
  inventory_data self = Some inventory ->
  exists costs : list Q,
    stockout_cost (fst (calculate_inventory_costs self)) = Some costs /\
    List.Forall2
      (fun row c =>
         0 <= c /\
         (In (inv_category row) (map dr_category data) ->
          let avg := mean (demands_of (inv_category row) data) in
          (0 < avg -> c == 5 * Py.max 0 (avg - current_stock row)) /\
          (avg <= 0 -> c == 0)))
      inventory costs.
Proof.
  intros Hd Hi. unfold calculate_inventory_costs. rewrite Hi, Hd.
  cbn [fst stockout_cost]. eexists. split; [reflexivity|].
  clear Hi. induction inventory as [|row rest IH]; cbn [map]; constructor; [|exact IH].
  destruct (stockout_cost_of_shortfall (dict_zip (groupby_mean data)) row)
    as (Hpos & Hshort & Hzero).
  split; [exact Hpos|]. intros Hin. cbv zeta.
  rewrite (demand_dict_known data _ Hin) in Hshort, Hzero.
  split; assumption.
Qed.

(** X14. With data and an inventory loaded, the [total_cost] column is, row by
    row, the holding cost, [current_stock * storage_cost_per_unit * 0.2 / 365],
    plus the stockout cost; the sum of the totals is the sum of the two other
    columns; and, each of the three sums being rounded to two decimals on its
    own, the reported total is within 0.01 of the reported holding cost plus
    the reported stockout cost. *)
Theorem inventory_cost_totals (self : InventoryOptimizer)
    (data : list DemandRecord) (inventory : list InventoryItem) :
  sample_data self = Some data ->
  inventory_data self = Some inventory ->
  exists (self' : InventoryOptimizer) (analysis : CostAnalysis)
         (holding stockout totals : list Q),
    calculate_inventory_costs self = (self', Ok (Some analysis)) /\
    holding_cost self' = Some holding /\
    stockout_cost self' = Some stockout /\
    total_cost self' = Some totals /\
    holding
    = map (fun r => current_stock r * storage_cost_per_unit r * (2 # 10) / 365) inventory /\
    totals = map (fun hs => fst hs + snd hs) (combine holding stockout) /\
    length totals = length inventory /\
    sum totals == sum holding + sum stockout /\
    Qabs (total_inventory_cost_daily analysis
          - (total_holding_cost_daily analysis + total_stockout_cost_daily analysis))
      <= 1 # 100.
Proof.
  intros Hd Hi. unfold calculate_inventory_costs. rewrite Hi, Hd.
  do 5 eexists. split; [reflexivity|].
  cbn [holding_cost stockout_cost total_cost total_inventory_cost_daily
       total_holding_cost_daily total_stockout_cost_daily].
  split; [reflexivity|]. split; [reflexivity|]. split; [reflexivity|].
  split; [reflexivity|]. split; [reflexivity|].
  set (holding := map (fun r => current_stock r * storage_cost_per_unit r * (2 # 10) / 365)
                      inventory).
  set (stockout := map (stockout_cost_of (dict_zip (groupby_mean data))) inventory).
  assert (Hlen : length holding = length stockout)
    by (subst holding stockout; now rewrite !length_map).
  pose proof (sum_combine_plus holding stockout Hlen) as Hsum.
  split; [|split; [exact Hsum|]].
  - rewrite length_map, length_combine, <- Hlen, Nat.min_id.
    subst holding. now rewrite length_map.
  - rewrite (round_proper _ _ Hsum 2%nat 2%nat eq_refl).
    apply (round_plus_error 2).
Qed.

(** X15. With data and an inventory loaded, the dictionary [cost_by_category]
    has exactly the categories of the inventory as keys, and
    [cost_by_store] exactly its stores; the value of a key is the sum,
    rounded to two decimals, of the total costs of the rows that have it. *)
Theorem cost_breakdown_keys (self : InventoryOptimizer)
    (data : list DemandRecord) (inventory : list InventoryItem) :
  sample_data self = Some data ->
  inventory_data self = Some inventory ->
  exists (self' : InventoryOptimizer) (analysis : CostAnalysis) (totals : list Q),
    calculate_inventory_costs self = (self', Ok (Some analysis)) /\
    total_cost self' = Some totals /\
    (forall c,
       (In c (map inv_category inventory) ->
        exists v,
          cost_by_category analysis !! c = Some v /\
          v == round (sum (map snd (List.filter (fun r => String.eqb (fst r) c)
                                      (combine (map inv_category inventory) totals)))) 2) /\
       (~ In c (map inv_category inventory) -> cost_by_category analysis !! c = None)) /\
    (forall d,
       (In d (map dark_store_id inventory) ->
        exists v,
          cost_by_store analysis !! d = Some v /\
          v == round (sum (map snd (List.filter (fun r => String.eqb (fst r) d)
                                      (combine (map dark_store_id inventory) totals)))) 2) /\
       (~ In d (map dark_store_id inventory) -> cost_by_store analysis !! d = None)).
Proof.
  intros Hd Hi. unfold calculate_inventory_costs. rewrite Hi, Hd.
  do 3 eexists. split; [reflexivity|].
  cbn [total_cost cost_by_category cost_by_store]. split; [reflexivity|].
  set (totals := map (fun hs : Q * Q => fst hs + snd hs) _).
  assert (Hlen : length totals = length inventory).
  { subst totals. now rewrite length_map, length_combine, !length_map, Nat.min_id. }
  assert (Hkeys : forall key : InventoryItem -> string,
             map fst (combine (map key inventory) totals) = map key inventory).
  { intros key. clear -Hlen. revert Hlen. generalize totals. clear totals.
    induction inventory as [|r rest IH]; intros [|t ts] H; try discriminate H;
      [reflexivity|].
    cbn [map combine fst]. f_equal. apply IH. now injection H. }
  split; intros k.
  - pose proof (groupby_sum_dict_lookup (combine (map inv_category inventory) totals) k)
      as H.
    rewrite (Hkeys inv_category) in H. exact H.
  - pose proof (groupby_sum_dict_lookup (combine (map dark_store_id inventory) totals) k)
      as H.
    rewrite (Hkeys dark_store_id) in H. exact H.
Qed.

(** ** Further properties of the feature builder *)

Lemma nth_error_combine_seq {A : Type} (l : list A) (n i : nat) :
  nth_error (combine (seq n (length l)) l) i = option_map (pair (n + i)%nat) (nth_error l i).
Proof.
  revert n i. induction l as [|x l IH]; intros n i.
  - destruct i; reflexivity.
  - destruct i as [|i]; cbn [length seq combine nth_error option_map].
    + now rewrite Nat.add_0_r.
    + rewrite IH. now replace (S n + i)%nat with (n + S i)%nat by lia.
Qed.

Lemma nth_error_indexed {A : Type} (l : list A) (i : nat) :
  nth_error (indexed l) i = option_map (pair i) (nth_error l i).
Proof.
  unfold indexed. apply nth_error_combine_seq.
Qed.

Lemma combine_seq_map {A B : Type} (h : A -> B) (l : list A) (n : nat) :
  combine (seq n (length (map h l))) (map h l)
  = map (fun ir => (fst ir, h (snd ir))) (combine (seq n (length l)) l).
Proof.
  revert n. induction l as [|x l IH]; intros n; [reflexivity|].
  cbn [map length seq combine fst snd]. now rewrite IH.
Qed.

Lemma indexed_map {A B : Type} (h : A -> B) (l : list A) :
  indexed (map h l) = map (fun ir => (fst ir, h (snd ir))) (indexed l).
Proof.
  unfold indexed. apply combine_seq_map.
Qed.

Lemma map_fst_indexed {A : Type} (l : list A) : map fst (indexed l) = seq 0 (length l).
Proof.
  unfold indexed. generalize 0%nat. induction l as [|x l IH]; intros n; [reflexivity|].
  cbn [length seq combine map fst]. now rewrite IH.
Qed.

Lemma map_snd_indexed {A : Type} (l : list A) : map snd (indexed l) = l.
Proof.
  unfold indexed. generalize 0%nat. induction l as [|x l IH]; intros n; [reflexivity|].
  cbn [length seq combine map snd]. now rewrite IH.
Qed.

Lemma filter_map_commute {A B : Type} (g : A -> B) (p : A -> bool) (q : B -> bool)
    (l : list A) :
  (forall x, q (g x) = p x) -> List.filter q (map g l) = map g (List.filter p l).
Proof.
  intros H. induction l as [|x l IH]; [reflexivity|].
  cbn [map List.filter]. rewrite H. destruct (p x); cbn [map]; now rewrite IH.
Qed.

Lemma insert_sorted_map {A B : Type} (g : A -> B) (leb : A -> A -> bool)
    (leb' : B -> B -> bool) (x : A) (l : list A) :
  (forall a b, leb' (g a) (g b) = leb a b) ->
  insert_sorted leb' (g x) (map g l) = map g (insert_sorted leb x l).
Proof.
  intros H. induction l as [|y l IH]; [reflexivity|].
  cbn [map insert_sorted]. rewrite H. destruct (leb x y); cbn [map]; now rewrite ?IH.
Qed.

Lemma sort_values_map {A B : Type} (g : A -> B) (leb : A -> A -> bool)
    (leb' : B -> B -> bool) (l : list A) :
  (forall a b, leb' (g a) (g b) = leb a b) ->
  sort_values leb' (map g l) = map g (sort_values leb l).
Proof.
  intros H. induction l as [|x l IH]; [reflexivity|].
  unfold sort_values in *. cbn [map fold_right]. rewrite IH.
  now apply insert_sorted_map.
Qed.

(** The rows that the loop reads for a category depend on the records of the
    frame only. *)
Lemma category_frame_order (c : string) (frame : list FeatureRow) :
  map (fun ir => (fst ir, fr_record (snd ir))) (category_frame c frame)
  = category_order c (map fr_record frame).
Proof.
  unfold category_frame, category_order.
  rewrite indexed_map.
  rewrite (filter_map_commute (fun ir : nat * FeatureRow => (fst ir, fr_record (snd ir)))
             (fun ir => String.eqb (fr_category (snd ir)) c)
             (fun ir => String.eqb (dr_category (snd ir)) c))
    by reflexivity.
  symmetry. now apply sort_values_map.
Qed.

Lemma category_order_NoDup (c : string) (records : list DemandRecord) :
  List.NoDup (map fst (category_order c records)).
Proof.
  unfold category_order.
  eapply Permutation_NoDup.
  - apply Permutation_map. apply sort_values_Permutation.
  - assert (H : List.NoDup (map fst (indexed records)))
      by (rewrite map_fst_indexed; apply List.seq_NoDup).
    revert H. generalize (indexed records). intros l.
    induction l as [|[i r] l IH]; intros H; [constructor|].
    cbn [map fst] in H. apply List.NoDup_cons_iff in H. destruct H as [Hi Hl].
    cbn [List.filter snd]. destruct (String.eqb (dr_category r) c); [|now apply IH].
    cbn [map fst]. constructor; [|now apply IH].
    intros Hin. apply Hi. apply in_map_iff in Hin. destruct Hin as (x & <- & Hx).
    apply List.filter_In in Hx. apply in_map, Hx.
Qed.

Lemma category_order_In (c : string) (records : list DemandRecord) (i : nat)
    (r : DemandRecord) :
  In (i, r) (category_order c records) <-> nth_error records i = Some r /\ dr_category r = c.
Proof.
  unfold category_order. rewrite sort_values_In, List.filter_In. cbn [snd].
  rewrite String.eqb_eq. split.
  - intros [Hin Hc]. split; [|exact Hc].
    apply In_nth_error in Hin. destruct Hin as [n Hn].
    rewrite nth_error_indexed in Hn. destruct (nth_error records n) as [x|] eqn:E;
      [|discriminate]. cbn [option_map] in Hn. injection Hn as <- <-. exact E.
  - intros [Hn Hc]. split; [|exact Hc].
    apply nth_error_In with (n := i). rewrite nth_error_indexed, Hn. reflexivity.
Qed.

(** A series labelled by distinct positions is read back at a position by
    its rank. *)
Lemma series_at_combine (idx : list nat) (vals : list (option Q)) (k i : nat) :
  List.NoDup idx -> length idx = length vals ->
  nth_error idx k = Some i ->
  Some (series_at (combine idx vals) i) = nth_error vals k.
Proof.
  revert vals k. induction idx as [|j idx IH]; intros [|v vals] k Hnd Hlen Hk;
    try discriminate Hlen; [destruct k; discriminate Hk|].
  apply List.NoDup_cons_iff in Hnd. destruct Hnd as [Hj Hnd]. injection Hlen as Hlen.
  unfold series_at in *. cbn [combine find fst].
  destruct k as [|k]; cbn [nth_error] in *.
  - injection Hk as ->. now rewrite Nat.eqb_refl.
  - destruct (Nat.eqb_spec j i) as [->|Hne].
    + exfalso. apply Hj. now apply nth_error_In with (n := k).
    + now apply IH.
Qed.

Lemma shift_length (n : nat) (l : list Q) : length (shift n l) = length l.
Proof.
  unfold shift. rewrite length_firstn, length_app, repeat_length, length_map. lia.
Qed.

Lemma nth_error_shift (n k : nat) (l : list Q) (d : Q) :
  nth_error l k = Some d ->
  (n + k < length l)%nat ->
  nth_error (shift n l) (n + k) = Some (Some d).
Proof.
  intros Hk Hlt. unfold shift. rewrite nth_error_firstn.
  destruct (Nat.ltb_spec (n + k) (length l)) as [_|H]; [|lia].
  rewrite nth_error_app2 by (rewrite repeat_length; lia).
  rewrite repeat_length. replace (n + k - n)%nat with k by lia.
  now rewrite nth_error_map, Hk.
Qed.

Lemma rolling_mean_3_length (p2 p1 : option Q) (l : list Q) :
  length (rolling_mean_3 p2 p1 l) = length l.
Proof.
  revert p2 p1. induction l as [|x l IH]; intros p2 p1; [reflexivity|].
  cbn [rolling_mean_3 length]. now rewrite IH.
Qed.

Lemma nth_error_rolling_mean_3 (p2 p1 : option Q) (l : list Q) (k : nat) (a b c : Q) :
  nth_error l k = Some a ->
  nth_error l (S k) = Some b ->
  nth_error l (S (S k)) = Some c ->
  nth_error (rolling_mean_3 p2 p1 l) (S (S k)) = Some (Some ((a + b + c) / 3)).
Proof.
  revert p2 p1 k. induction l as [|x l IH]; intros p2 p1 k Ha Hb Hc;
    [destruct k; discriminate Ha|].
  destruct k as [|k].
  - destruct l as [|y [|z l]]; try discriminate.
    cbn [nth_error] in Ha, Hb, Hc. injection Ha as ->. injection Hb as ->.
    injection Hc as ->. reflexivity.
  - cbn [nth_error] in Ha, Hb, Hc. cbn [rolling_mean_3 nth_error]. now apply IH.
Qed.

Lemma first_valid_skipn (col : list (option Q)) (i : nat) (v : Q) :
  nth_error col i = Some (Some v) -> first_valid (skipn i col) = Some v.
Proof.
  revert i. induction col as [|x col IH]; intros i H; [destruct i; discriminate H|].
  destruct i as [|i]; cbn [nth_error skipn] in *.
  - injection H as ->. reflexivity.
  - now apply IH.
Qed.

Lemma lag_features_for_record (frame : list FeatureRow) (c : string) :
  map fr_record (lag_features_for frame c) = map fr_record frame.
Proof.
  unfold lag_features_for. rewrite List.map_map.
  transitivity (map (fun ir : nat * FeatureRow => fr_record (snd ir)) (indexed frame)).
  - apply map_ext. intros [i r]. cbn [fst snd].
    destruct (String.eqb (fr_category r) c); reflexivity.
  - rewrite <- (List.map_map snd fr_record). now rewrite map_snd_indexed.
Qed.

Lemma set_lag_columns_record (data : list FeatureRow) (c1 c2 c3 : list (option Q)) :
  length c1 = length data -> length c2 = length data -> length c3 = length data ->
  map fr_record (set_lag_columns data c1 c2 c3) = map fr_record data.
Proof.
  revert c1 c2 c3. induction data as [|r data IH]; intros [|a c1] [|b c2] [|c c3] H1 H2 H3;
    try discriminate; [reflexivity|].
  cbn [set_lag_columns map]. injection H1 as H1. injection H2 as H2. injection H3 as H3.
  now rewrite IH.
Qed.

Section FeatureProperties.

Variable np_pi : Q.
Variables np_sin np_cos : Q -> Q.

Local Abbreviation features_of := (create_demand_features np_pi np_sin np_cos).
Local Abbreviation frame_of := (lag_frame np_pi np_sin np_cos).

Lemma lag_frame_record (data : list DemandRecord) : map fr_record (frame_of data) = data.
Proof.
  unfold lag_frame.
  generalize (unique (map fr_category (map (time_features np_pi np_sin np_cos) data))).
  intros cats.
  transitivity (map fr_record (map (time_features np_pi np_sin np_cos) data)).
  - generalize (map (time_features np_pi np_sin np_cos) data). intros frame. revert frame.
    induction cats as [|c cats IH]; intros frame; cbn [fold_left]; [reflexivity|].
    now rewrite IH, lag_features_for_record.
  - rewrite List.map_map. cbn [time_features fr_record]. apply List.map_id.
Qed.

Lemma create_demand_features_record (data : list DemandRecord) :
  map fr_record (features_of data) = data.
Proof.
  unfold create_demand_features, fillna_bfill_ffill.
  rewrite set_lag_columns_record;
    try (unfold ffill; now rewrite ffill_from_length, bfill_length, length_map).
  apply lag_frame_record.
Qed.

(** X16. Feature building keeps the records: the rows of the result are the
    rows of the data, in the same order and in the same number, each with its
    timestamp, category and demand unchanged. *)
Theorem features_keep_records (data : list DemandRecord) :
  map fr_record (features_of data) = data /\
  length (features_of data) = length data.
Proof.
  pose proof (create_demand_features_record data) as H. split; [exact H|].
  apply (f_equal (@length _)) in H. now rewrite length_map in H.
Qed.

End FeatureProperties.

(** One iteration of the lag loop, row by row, in terms of the records. *)
Lemma lag_features_for_nth (frame : list FeatureRow) (c : string) (i : nat)
    (r : FeatureRow) :
  nth_error frame i = Some r ->
  nth_error (lag_features_for frame c) i
  = Some (if String.eqb (fr_category r) c
          then
            let order := category_order c (map fr_record frame) in
            let demand := category_demands c (map fr_record frame) in
            set_lags r
              (series_at (combine (map fst order) (shift 1 demand)) i)
              (series_at (combine (map fst order) (shift 2 demand)) i)
              (series_at (combine (map fst order) (rolling_mean_3 None None demand)) i)
          else r).
Proof.
  intros Hr. unfold lag_features_for, category_demands.
  rewrite <- (category_frame_order c frame), !List.map_map. cbn [fst snd].
  rewrite nth_error_map, nth_error_indexed, Hr. reflexivity.
Qed.

Lemma existsb_eqb_In (c : string) (cats : list string) :
  existsb (String.eqb c) cats = true <-> In c cats.
Proof.
  rewrite existsb_exists. split.
  - intros (x & Hx & E). apply String.eqb_eq in E. now subst x.
  - intros H. exists c. split; [exact H|apply String.eqb_refl].
Qed.

(** The whole lag loop, row by row: the row of a category of the loop gets
    the three series of its category, the others are left as they are. *)
Lemma lag_loop_nth (cats : list string) :
  forall (frame : list FeatureRow) (i : nat) (r : FeatureRow),
  List.NoDup cats ->
  nth_error frame i = Some r ->
  nth_error (fold_left lag_features_for cats frame) i
  = Some (if existsb (String.eqb (fr_category r)) cats
          then
            let order := category_order (fr_category r) (map fr_record frame) in
            let demand := category_demands (fr_category r) (map fr_record frame) in
            set_lags r
              (series_at (combine (map fst order) (shift 1 demand)) i)
              (series_at (combine (map fst order) (shift 2 demand)) i)
              (series_at (combine (map fst order) (rolling_mean_3 None None demand)) i)
          else r).
Proof.
  induction cats as [|c cats IH]; intros frame i r Hnd Hr; [exact Hr|].
  apply List.NoDup_cons_iff in Hnd. destruct Hnd as [Hc Hnd].
  cbn [fold_left existsb].
  pose proof (lag_features_for_nth frame c i r Hr) as Hstep.
  rewrite (IH _ _ _ Hnd Hstep), lag_features_for_record.
  destruct (String.eqb_spec (fr_category r) c) as [E|Hne]; cbn [orb].
  - assert (Hout : existsb (String.eqb (fr_category
               (set_lags r
                  (series_at (combine (map fst (category_order c (map fr_record frame)))
                                (shift 1 (category_demands c (map fr_record frame)))) i)
                  (series_at (combine (map fst (category_order c (map fr_record frame)))
                                (shift 2 (category_demands c (map fr_record frame)))) i)
                  (series_at (combine (map fst (category_order c (map fr_record frame)))
                                (rolling_mean_3 None None
                                   (category_demands c (map fr_record frame)))) i))))
             cats = false).
    { apply not_true_is_false. rewrite existsb_eqb_In.
      unfold fr_category. cbn [set_lags fr_record]. fold (fr_category r).
      now rewrite E. }
    cbv zeta. rewrite Hout, E. reflexivity.
  - reflexivity.
Qed.

(** A list whose keys are strictly increasing is the only sorted arrangement
    of its elements: every sort, stable or not, returns it. *)
Lemma sorted_permutation_unique {A : Type} (key : A -> Z) (l1 l2 : list A) :
  StronglySorted (fun a b => (key a < key b)%Z) l1 ->
  StronglySorted (fun a b => (key a <=? key b)%Z = true) l2 ->
  Permutation l1 l2 ->
  l1 = l2.
Proof.
  revert l2. induction l1 as [|x t IH]; intros l2 H1 H2 HP.
  - apply Permutation_nil in HP. now subst.
  - destruct l2 as [|y t2]; [apply Permutation_sym, Permutation_nil in HP; discriminate|].
    apply StronglySorted_inv in H1. destruct H1 as [St Hx].
    apply StronglySorted_inv in H2. destruct H2 as [St2 Hy].
    rewrite List.Forall_forall in Hx, Hy.
    assert (E : x = y).
    { assert (Hxin : In x (y :: t2))
        by (apply (Permutation_in _ HP); now left).
      assert (Hyin : In y (x :: t))
        by (apply (Permutation_in _ (Permutation_sym HP)); now left).
      destruct Hxin as [->|Hxin]; [reflexivity|].
      destruct Hyin as [->|Hyin]; [reflexivity|].
      specialize (Hx y Hyin). specialize (Hy x Hxin). apply Z.leb_le in Hy. lia. }
    subst y. f_equal. apply IH; [exact St|exact St2|].
    now apply Permutation_cons_inv in HP.
Qed.

Section FeatureLags.

Variable np_pi : Q.
Variables np_sin np_cos : Q -> Q.

Local Abbreviation features_of := (create_demand_features np_pi np_sin np_cos).
Local Abbreviation frame_of := (lag_frame np_pi np_sin np_cos).

(** The frame before the fill: every row holds the three series of its own
    category, read at its position. *)
Lemma lag_frame_nth (data : list DemandRecord) (i : nat) (rec : DemandRecord) :
  nth_error data i = Some rec ->
  exists row,
    nth_error (frame_of data) i = Some row /\
    let order := category_order (dr_category rec) data in
    let demand := category_demands (dr_category rec) data in
    demand_lag_1 row = series_at (combine (map fst order) (shift 1 demand)) i /\
    demand_lag_2 row = series_at (combine (map fst order) (shift 2 demand)) i /\
    demand_ma_3 row
    = series_at (combine (map fst order) (rolling_mean_3 None None demand)) i.
Proof.
  intros Hrec. unfold lag_frame.
  assert (Hr : nth_error (map (time_features np_pi np_sin np_cos) data) i
               = Some (time_features np_pi np_sin np_cos rec))
    by (now rewrite nth_error_map, Hrec).
  rewrite (lag_loop_nth _ _ _ _ (unique_NoDup _) Hr).
  assert (Hin : existsb (String.eqb (fr_category (time_features np_pi np_sin np_cos rec)))
                  (unique (map fr_category (map (time_features np_pi np_sin np_cos) data)))
                = true).
  { apply existsb_eqb_In, unique_In. apply in_map.
    now apply nth_error_In with (n := i). }
  rewrite Hin. eexists. split; [reflexivity|].
  rewrite List.map_map. cbn [time_features fr_record]. rewrite List.map_id.
  cbn [set_lags demand_lag_1 demand_lag_2 demand_ma_3].
  unfold fr_category. cbn [fr_record]. repeat split.
Qed.

(** A value present in a lag column before the fill is in the result. *)
Lemma fill_keeps_value (data : list DemandRecord) (col : FeatureRow -> option Q)
    (i : nat) (row : FeatureRow) (v : Q) :
  col = demand_lag_1 \/ col = demand_lag_2 \/ col = demand_ma_3 ->
  nth_error (frame_of data) i = Some row ->
  col row = Some v ->
  exists row', nth_error (features_of data) i = Some row' /\ col row' = Some v.
Proof.
  intros Hcol Hrow Hv. unfold create_demand_features.
  destruct (fillna_bfill_ffill_spec (frame_of data)) as (_ & _ & E1 & E2 & E3).
  assert (E : map col (fillna_bfill_ffill (frame_of data))
              = ffill (bfill (map col (frame_of data))))
    by (destruct Hcol as [->|[->| ->]]; assumption).
  assert (Hnth : nth_error (map col (fillna_bfill_ffill (frame_of data))) i
                 = Some (Some v)).
  { rewrite E. apply bfill_ffill_nth, first_valid_skipn.
    now rewrite nth_error_map, Hrow, <- Hv. }
  rewrite nth_error_map in Hnth.
  destruct (nth_error (fillna_bfill_ffill (frame_of data)) i) as [row'|];
    [|discriminate Hnth].
  cbn [option_map] in Hnth. injection Hnth as Hnth. eauto.
Qed.

(** The lag features of the row of rank [k] in the order that the model gives
    to its category. *)
Lemma lags_of_category_order (data : list DemandRecord) (c : string)
    (k i : nat) (rec : DemandRecord) :
  nth_error (category_order c data) k = Some (i, rec) ->
  exists row : FeatureRow,
    nth_error (features_of data) i = Some row /\
    fr_record row = rec /\
    (forall k' d, k = S k' -> nth_error (category_demands c data) k' = Some d ->
                  demand_lag_1 row = Some d) /\
    (forall k' d, k = S (S k') -> nth_error (category_demands c data) k' = Some d ->
                  demand_lag_2 row = Some d) /\
    (forall k' a b, k = S (S k') ->
                    nth_error (category_demands c data) k' = Some a ->
                    nth_error (category_demands c data) (S k') = Some b ->
                    demand_ma_3 row = Some ((a + b + demand_quantity rec) / 3)).
Proof.
  intros Hk.
  assert (Hin : In (i, rec) (category_order c data)) by (now apply nth_error_In with (n := k)).
  apply category_order_In in Hin. destruct Hin as [Hrec Hc]. subst c.
  destruct (lag_frame_nth data i rec Hrec) as (row0 & Hrow0 & H1 & H2 & H3).
  cbv zeta in H1, H2, H3.
  set (order := category_order (dr_category rec) data) in *.
  set (demand := category_demands (dr_category rec) data) in *.
  assert (Hidx : nth_error (map fst order) k = Some i)
    by (now rewrite nth_error_map, Hk).
  assert (Hlen : length (map fst order) = length demand)
    by (subst demand; unfold category_demands; now rewrite !length_map).
  assert (Hnd : List.NoDup (map fst order)) by apply category_order_NoDup.
  assert (Hdk : nth_error demand k = Some (demand_quantity rec)).
  { subst demand. unfold category_demands. fold order. now rewrite nth_error_map, Hk. }
  assert (Hklt : (k < length demand)%nat) by (apply nth_error_Some; congruence).
  assert (S1 : Some (demand_lag_1 row0) = nth_error (shift 1 demand) k).
  { rewrite H1. apply series_at_combine; auto. now rewrite shift_length. }
  assert (S2 : Some (demand_lag_2 row0) = nth_error (shift 2 demand) k).
  { rewrite H2. apply series_at_combine; auto. now rewrite shift_length. }
  assert (S3 : Some (demand_ma_3 row0) = nth_error (rolling_mean_3 None None demand) k).
  { rewrite H3. apply series_at_combine; auto. now rewrite rolling_mean_3_length. }
  assert (Hrec' : exists row, nth_error (features_of data) i = Some row /\ fr_record row = rec).
  { pose proof (create_demand_features_record np_pi np_sin np_cos data) as Hkeep.
    apply (f_equal (fun l => nth_error l i)) in Hkeep.
    rewrite nth_error_map, Hrec in Hkeep.
    destruct (nth_error (features_of data) i) as [row|]; [|discriminate Hkeep].
    cbn [option_map] in Hkeep. injection Hkeep as Hkeep. eauto. }
  destruct Hrec' as (row & Hrow & Hrecord).
  exists row. split; [exact Hrow|]. split; [exact Hrecord|].
  assert (Hkeep : forall col v,
             col = demand_lag_1 \/ col = demand_lag_2 \/ col = demand_ma_3 ->
             col row0 = Some v -> col row = Some v).
  { intros col v Hcol Hv.
    destruct (fill_keeps_value data col i row0 v Hcol Hrow0 Hv) as (row' & Hrow' & Hv').
    rewrite Hrow in Hrow'. injection Hrow' as <-. exact Hv'. }
  split; [|split].
  - intros k' d -> Hd. apply (Hkeep demand_lag_1); [now left|].
    assert (E : nth_error (shift 1 demand) (1 + k') = Some (Some d))
      by (apply nth_error_shift; [exact Hd|cbn; lia]).
    cbn [Nat.add] in E. rewrite E in S1. now injection S1.
  - intros k' d -> Hd. apply (Hkeep demand_lag_2); [right; now left|].
    assert (E : nth_error (shift 2 demand) (2 + k') = Some (Some d))
      by (apply nth_error_shift; [exact Hd|cbn; lia]).
    cbn [Nat.add] in E. rewrite E in S2. now injection S2.
  - intros k' a b -> Ha Hb. apply (Hkeep demand_ma_3); [right; now right|].
    rewrite (nth_error_rolling_mean_3 None None demand k' a b _ Ha Hb Hdk) in S3.
    now injection S3.
Qed.

(** X17. In a category whose timestamps are distinct, the lag features of a
    row come from its own category, taken in time order: [order] being the
    rows of the category sorted by timestamp, for the row of rank [k],
    [demand_lag_1] is the demand of the row of rank [k - 1] when [k >= 1],
    [demand_lag_2] the demand of the row of rank [k - 2] when [k >= 2], and
    [demand_ma_3] the mean of the demands of ranks [k - 2], [k - 1] and [k]
    when [k >= 2].  The fill only touches the first rows of a category.
    (With equal timestamps in a category the order of its rows, which pandas
    sorts with an unstable algorithm, is not determined by the data.) *)
Theorem lags_follow_own_category (data : list DemandRecord) (c : string)
    (order : list (nat * DemandRecord)) (k i : nat) (rec : DemandRecord) :
  Permutation order
    (List.filter (fun ir => String.eqb (dr_category (snd ir)) c) (indexed data)) ->
  StronglySorted (fun a b => (timestamp (snd a) < timestamp (snd b))%Z) order ->
  nth_error order k = Some (i, rec) ->
  exists row : FeatureRow,
    nth_error (features_of data) i = Some row /\
    fr_record row = rec /\
    (forall k' j r1, k = S k' -> nth_error order k' = Some (j, r1) ->
                     demand_lag_1 row = Some (demand_quantity r1)) /\
    (forall k' j r2, k = S (S k') -> nth_error order k' = Some (j, r2) ->
                     demand_lag_2 row = Some (demand_quantity r2)) /\
    (forall k' j2 r2 j1 r1, k = S (S k') ->
       nth_error order k' = Some (j2, r2) ->
       nth_error order (S k') = Some (j1, r1) ->
       demand_ma_3 row
       = Some ((demand_quantity r2 + demand_quantity r1 + demand_quantity rec) / 3)).
Proof.
  intros Hperm Hsorted Hk.
  assert (E : order = category_order c data).
  { apply (sorted_permutation_unique (fun ir : nat * DemandRecord => timestamp (snd ir)));
      [exact Hsorted| |].
    - unfold category_order. apply sort_values_StronglySorted.
      + intros a b. destruct (Z.leb_spec (timestamp (snd a)) (timestamp (snd b)));
          [now left|right; apply Z.leb_le; lia].
      + intros a b d H1 H2. apply Z.leb_le in H1, H2. apply Z.leb_le. lia.
    - rewrite Hperm. unfold category_order. apply sort_values_Permutation. }
  subst order.
  destruct (lags_of_category_order data c k i rec Hk) as (row & Hrow & Hrec & H1 & H2 & H3).
  assert (Hd : forall n j r, nth_error (category_order c data) n = Some (j, r) ->
                 nth_error (category_demands c data) n = Some (demand_quantity r)).
  { intros n j r Hn. unfold category_demands. now rewrite nth_error_map, Hn. }
  exists row. split; [exact Hrow|]. split; [exact Hrec|]. split; [|split].
  - intros k' j r1 Ek Hn. exact (H1 k' _ Ek (Hd _ _ _ Hn)).
  - intros k' j r2 Ek Hn. exact (H2 k' _ Ek (Hd _ _ _ Hn)).
  - intros k' j2 r2 j1 r1 Ek Hn2 Hn1. exact (H3 k' _ _ Ek (Hd _ _ _ Hn2) (Hd _ _ _ Hn1)).
Qed.

End FeatureLags.

(** ** The properties of the planner, the cost estimator and the feature
    builder on the demonstration store *)

Lemma demo_plans_returned :
  Demo.plan (Demo.optimizer Demo.dairy Demo.shelf) (95 # 100) = Ok (Some Demo.shelf_plans).
Proof.
  vm_compute. reflexivity.
Defined.

Lemma demo_nonneg_demand :
  forall data, sample_data (Demo.optimizer Demo.dairy Demo.shelf) = Some data ->
               List.Forall (fun r => 0 <= demand_quantity r) data.
Proof.
  intros data [= <-].
  apply (Forall_forallb _ (fun r => Qle_bool 0 (demand_quantity r))).
  - intros r. apply Qle_bool_iff.
  - vm_compute. reflexivity.
Defined.

Lemma demo_nonneg_lead_time :
  forall inventory, inventory_data (Demo.optimizer Demo.dairy Demo.shelf) = Some inventory ->
                    List.Forall (fun r => 0 <= lead_time_hours r) inventory.
Proof.
  intros inventory [= <-].
  apply (Forall_forallb _ (fun r => Qle_bool 0 (lead_time_hours r))).
  - intros r. apply Qle_bool_iff.
  - vm_compute. reflexivity.
Defined.

(** The service level 0.5 is not one of the three of the table. *)
Lemma unrecognized_service_level_plans_for_95_witness :
  Demo.plan (Demo.optimizer Demo.dairy Demo.shelf) (1 # 2)
  = Ok (Some (map (with_service_level (1 # 2)) Demo.shelf_plans)).
Proof.
  rewrite (unrecognized_service_level_plans_for_95 Demo.sqrt
             (Demo.optimizer Demo.dairy Demo.shelf) (1 # 2)
             ltac:(intros H; vm_compute in H; discriminate H)
             ltac:(intros H; vm_compute in H; discriminate H)
             ltac:(intros H; vm_compute in H; discriminate H)).
  rewrite demo_plans_returned. reflexivity.
Defined.

(** The order quantities of the plans of the demonstration store. *)
Lemma eoq_of_plan_witness :
  exists (data : list DemandRecord) (inventory : list InventoryItem),
    sample_data (Demo.optimizer Demo.dairy Demo.shelf) = Some data /\
    inventory_data (Demo.optimizer Demo.dairy Demo.shelf) = Some inventory /\
    List.Forall2
      (fun row p =>
         let avg := mean (demands_of (inv_category row) data) in
         (storage_cost_per_unit row <= 0 -> eoq p = round (avg * 7) 1) /\
         (0 < storage_cost_per_unit row ->
          eoq p = round (Demo.sqrt (2 * (avg * 365) * 50
                                    / (storage_cost_per_unit row * (2 # 10)))) 1))
      inventory Demo.shelf_plans.
Proof.
  exact (eoq_of_plan Demo.sqrt (Demo.optimizer Demo.dairy Demo.shelf) (95 # 100)
           Demo.shelf_plans demo_plans_returned).
Defined.

(** The plans of the demonstration store at 0.90 and at 0.99. *)
Lemma higher_service_level_raises_reorder_point_witness :
  exists plans2 : list StockLevelPlan,
    Demo.plan (Demo.optimizer Demo.dairy Demo.shelf) (99 # 100) = Ok (Some plans2) /\
    List.Forall2
      (fun p1 p2 =>
         sl_product_name p1 = sl_product_name p2 /\
         safety_stock p1 <= safety_stock p2 /\
         reorder_point p1 <= reorder_point p2 /\
         optimal_max_stock p1 <= optimal_max_stock p2 /\
         eoq p1 = eoq p2)
      Demo.shelf_plans_90 plans2.
Proof.
  apply (higher_service_level_raises_reorder_point Demo.sqrt demo_sqrt_nonneg
           (Demo.optimizer Demo.dairy Demo.shelf) (90 # 100) (99 # 100) Demo.shelf_plans_90
           demo_nonneg_demand demo_nonneg_lead_time).
  - vm_compute. discriminate.
  - vm_compute. reflexivity.
Defined.

(** The row of the category Household, with 4 units in stock, is costed with
    an average demand of 10: a stockout cost of 30; and Household is a key of
    [cost_by_category]. *)
Lemma unknown_category_costed_with_default_witness :
  exists (self' : InventoryOptimizer) (analysis : CostAnalysis) (costs : list Q),
    calculate_inventory_costs (Demo.optimizer Demo.dairy Demo.mixed_shelf)
      = (self', Ok (Some analysis)) /\
    stockout_cost self' = Some costs /\
    length costs = 3%nat /\
    nth_error costs 1 = Some (Py.max 0 ((10 - 4) / 10) * 10 * 5) /\
    Py.max 0 ((10 - 4) / 10) * 10 * 5 == 30 /\
    exists v, cost_by_category analysis !! "Household"%string = Some v.
Proof.
  destruct (unknown_category_costed_with_default
              (Demo.optimizer Demo.dairy Demo.mixed_shelf) Demo.dairy Demo.mixed_shelf
              eq_refl eq_refl)
    as (self' & analysis & holding & costs & totals & Hrun & _ & _ & Hcosts & _ & _ & Hlen
        & _ & Hrow & _ & _ & _ & Hkeys).
  exists self', analysis, costs.
  split; [exact Hrun|]. split; [exact Hcosts|]. split; [exact Hlen|].
  destruct (Hrow 1%nat (Demo.item "DS1" "Soap" "Household" 4 12 3) eq_refl)
    as (h & s & _ & Hs & _ & _ & Hdefault).
  split; [|split; [reflexivity|]].
  - rewrite Hs. f_equal. apply Hdefault.
    cbn. intros H. repeat (destruct H as [H|H]; [discriminate H|]). exact H.
  - destruct (Hkeys (Demo.item "DS1" "Soap" "Household" 4 12 3)) as [(v & Hv & _) _].
    + right. left. reflexivity.
    + exists v. exact Hv.
Defined.

(** The costs of [Demo.mixed_shelf]: one stockout cost per row. *)
Lemma stockout_cost_is_shortfall_witness :
  exists costs : list Q,
    stockout_cost (fst (calculate_inventory_costs
                          (Demo.optimizer Demo.dairy Demo.mixed_shelf))) = Some costs /\
    length costs = 3%nat /\
    List.Forall (fun c => 0 <= c) costs.
Proof.
  destruct (stockout_cost_is_shortfall (Demo.optimizer Demo.dairy Demo.mixed_shelf)
              Demo.dairy Demo.mixed_shelf eq_refl eq_refl) as (costs & Hcol & Hrows).
  exists costs. split; [exact Hcol|]. split.
  - apply Forall2_length in Hrows. now rewrite <- Hrows.
  - clear Hcol. induction Hrows as [|row c rows cs [Hc _] _ IH]; constructor; assumption.
Defined.

Lemma inventory_cost_totals_witness :
  exists analysis : CostAnalysis,
    snd (calculate_inventory_costs (Demo.optimizer Demo.dairy Demo.mixed_shelf))
      = Ok (Some analysis) /\
    Qabs (total_inventory_cost_daily analysis
          - (total_holding_cost_daily analysis + total_stockout_cost_daily analysis))
      <= 1 # 100.
Proof.
  destruct (inventory_cost_totals (Demo.optimizer Demo.dairy Demo.mixed_shelf)
              Demo.dairy Demo.mixed_shelf eq_refl eq_refl)
    as (self' & analysis & holding & stockout & totals & Hrun & _ & _ & _ & _ & _ & _ & _ & H).
  exists analysis. split; [now rewrite Hrun|exact H].
Defined.

(** The categories of [Demo.mixed_shelf] are Dairy and Household. *)
Lemma cost_breakdown_keys_witness :
  exists analysis : CostAnalysis,
    snd (calculate_inventory_costs (Demo.optimizer Demo.dairy Demo.mixed_shelf))
      = Ok (Some analysis) /\
    (exists v, cost_by_category analysis !! "Household"%string = Some v) /\
    cost_by_category analysis !! "Bakery"%string = None.
Proof.
  destruct (cost_breakdown_keys (Demo.optimizer Demo.dairy Demo.mixed_shelf)
              Demo.dairy Demo.mixed_shelf eq_refl eq_refl)
    as (self' & analysis & totals & Hrun & _ & Hcat & _).
  exists analysis. split; [now rewrite Hrun|]. split.
  - destruct (proj1 (Hcat "Household"%string)) as (v & Hv & _); [|eauto].
    right. left. reflexivity.
  - apply (proj2 (Hcat "Bakery"%string)).
    cbn. intros H. repeat (destruct H as [H|H]; [discriminate H|]). exact H.
Defined.

(** In [Demo.two_categories] the second row of B, at position 3, has as first
    lag the demand of the first row of B, 7. *)
Lemma lags_follow_own_category_witness :
  exists row : FeatureRow,
    nth_error (create_demand_features Demo.pi Demo.sin Demo.cos Demo.two_categories) 3
      = Some row /\
    fr_record row = Demo.record 3600 "B" 9 /\
    demand_lag_1 row = Some 7.
Proof.
  destruct (lags_follow_own_category Demo.pi Demo.sin Demo.cos Demo.two_categories "B"
              [(1%nat, Demo.record 0 "B" 7); (3%nat, Demo.record 3600 "B" 9)]
              1 3 (Demo.record 3600 "B" 9))
    as (row & Hrow & Hrec & Hlag & _).
  - vm_compute. apply Permutation_refl.
  - repeat constructor.
  - reflexivity.
  - exists row. split; [exact Hrow|]. split; [exact Hrec|].
    apply (Hlag 0%nat 1%nat (Demo.record 0 "B" 7) eq_refl). reflexivity.
Defined.

(** ** Further properties of the training *)

Lemma dict_set_same {V : Type} (k : string) (v : V) (d : list (string * V)) :
  dict_get k d = Some v -> dict_set k v d = d.
Proof.
  unfold dict_get. induction d as [|[k' v'] d IH]; cbn [find fst dict_set]; [discriminate|].
  destruct (String.eqb_spec k' k) as [->|Hne].
  - cbn [option_map snd]. intros [= ->]. reflexivity.
  - intros H. now rewrite IH.
Qed.

Lemma dict_set_In {V : Type} (k : string) (v : V) (d : list (string * V)) (x : string * V) :
  In x (dict_set k v d) -> x = (k, v) \/ In x d.
Proof.
  induction d as [|[k' v'] d IH]; cbn [dict_set In].
  - intros [<-|[]]. now left.
  - destruct (String.eqb k' k); cbn [In].
    + intros [<-|H]; [now left|right; now right].
    + intros [<-|H]; [right; now left|]. destruct (IH H) as [E|E]; auto.
Qed.

Lemma xsum_abs_not_NInf (l : list (Q * Q)) :
  xsum (map (fun yp => xabs (xdiv (fst yp - snd yp) (fst yp))) l) <> NInf.
Proof.
  induction l as [|[y p] l IH]; unfold xsum in *; cbn [map fold_right]; [discriminate|].
  cbn [fst snd]. unfold xdiv.
  destruct (fold_right xadd (Fin 0) _) as [s| | |]; [| |contradiction|];
    destruct (Qeq_bool y 0); try destruct (y - p ?= 0); discriminate.
Qed.

Lemma mape_of_not_NInf (y_test y_pred : list Q) : mape_of y_test y_pred <> NInf.
Proof.
  unfold mape_of, xmean.
  pose proof (xsum_abs_not_NInf (combine y_test y_pred)) as H.
  destruct (xsum _); try discriminate. contradiction.
Qed.

Lemma Qsquare_nonneg (x : Q) : 0 <= x * x.
Proof.
  destruct (Qlt_le_dec x 0) as [H|H].
  - assert (E : x * x == (- x) * (- x)) by ring. rewrite E.
    apply Qmult_le_0_compat; lra.
  - now apply Qmult_le_0_compat.
Qed.

Section TrainingProperties.

Variable np_sqrt : Q -> Q.
Variable fit_predict : list (list Q * Q) -> list Q -> Q.

Local Abbreviation train_one := (train_category np_sqrt fit_predict).
Local Abbreviation loop := (train_loop np_sqrt fit_predict).

Lemma train_category_error (data_with_features : list FeatureRow) (c : string) (e : exn) :
  train_one data_with_features c = Raise e -> e = ValueError.
Proof.
  unfold train_category. destruct (firstn _ _); [|discriminate]. now intros [= <-].
Qed.

(** The loop raises [ValueError] as soon as one category cannot be trained,
    and stores no model for such a category. *)
Lemma train_loop_raises (data_with_features : list FeatureRow) (categories : list string)
    (c : string) :
  forall (models : list (string * ModelInfo)) (perf : list (string * Performance)),
  In c categories ->
  train_one data_with_features c = Raise ValueError ->
  snd (loop data_with_features categories models perf) = Raise ValueError /\
  dict_get c (fst (loop data_with_features categories models perf)) = dict_get c models.
Proof.
  induction categories as [|c1 cats IH]; intros models perf Hin Hc; [destruct Hin|].
  cbn [train_loop].
  destruct (train_one data_with_features c1) as [info|e] eqn:E1.
  - destruct Hin as [->|Hin]; [congruence|].
    destruct (IH (dict_set c1 info models) (dict_set c1 (performance info) perf) Hin Hc)
      as [Hr Hm].
    split; [exact Hr|]. rewrite Hm. apply dict_get_set_ne. congruence.
  - cbn [fst snd]. rewrite (train_category_error _ _ _ E1). auto.
Qed.

Lemma train_loop_keeps_other (data_with_features : list FeatureRow)
    (categories : list string) (c : string) :
  forall (models : list (string * ModelInfo)) (perf : list (string * Performance)),
  ~ In c categories ->
  dict_get c (fst (loop data_with_features categories models perf)) = dict_get c models.
Proof.
  induction categories as [|c1 cats IH]; intros models perf Hout; [reflexivity|].
  cbn [train_loop]. destruct (train_one data_with_features c1) as [info|e]; [|reflexivity].
  rewrite IH by (intros H; apply Hout; now right).
  apply dict_get_set_ne. intros ->. apply Hout. now left.
Qed.

(** A loop that returns has trained and stored every category. *)
Lemma train_loop_ok_all (data_with_features : list FeatureRow) (categories : list string) :
  forall (models models' : list (string * ModelInfo))
         (perf perf' : list (string * Performance)),
  List.NoDup categories ->
  loop data_with_features categories models perf = (models', Ok perf') ->
  forall c, In c categories ->
    exists info, train_one data_with_features c = Ok info /\ dict_get c models' = Some info.
Proof.
  induction categories as [|c1 cats IH]; intros models models' perf perf' Hnd Hrun c Hin;
    [destruct Hin|].
  apply List.NoDup_cons_iff in Hnd. destruct Hnd as [Hc1 Hnd].
  cbn [train_loop] in Hrun.
  destruct (train_one data_with_features c1) as [info|e] eqn:E1; [|discriminate Hrun].
  destruct Hin as [<-|Hin].
  - exists info. split; [exact E1|].
    pose proof (train_loop_keeps_other data_with_features cats c1
                  (dict_set c1 info models) (dict_set c1 (performance info) perf) Hc1) as Hk.
    rewrite Hrun in Hk. cbn [fst] in Hk. rewrite Hk. apply dict_get_set_eq.
  - exact (IH _ _ _ _ Hnd Hrun c Hin).
Qed.

(** On models that already hold the model of every category, the loop changes
    nothing; what it returns does not depend on the models it starts from. *)
Lemma train_loop_fixpoint (data_with_features : list FeatureRow) (categories : list string) :
  forall (models stored : list (string * ModelInfo)) (perf : list (string * Performance)),
  (forall c, In c categories ->
     exists info, train_one data_with_features c = Ok info /\ dict_get c stored = Some info) ->
  loop data_with_features categories stored perf
  = (stored, snd (loop data_with_features categories models perf)).
Proof.
  induction categories as [|c1 cats IH]; intros models stored perf Hall; [reflexivity|].
  cbn [train_loop].
  destruct (Hall c1 (or_introl eq_refl)) as (info & E1 & Hget). rewrite E1.
  rewrite (dict_set_same _ _ _ Hget).
  apply IH. intros c Hc. apply Hall. now right.
Qed.

Lemma train_loop_perf_In (data_with_features : list FeatureRow) (categories : list string) :
  forall (models models' : list (string * ModelInfo))
         (perf perf' : list (string * Performance)) (x : string * Performance),
  loop data_with_features categories models perf = (models', Ok perf') ->
  In x perf' ->
  In x perf \/
  exists info, train_one data_with_features (fst x) = Ok info /\ snd x = performance info.
Proof.
  induction categories as [|c1 cats IH]; intros models models' perf perf' x Hrun Hx.
  - cbn [train_loop] in Hrun. injection Hrun as _ <-. now left.
  - cbn [train_loop] in Hrun.
    destruct (train_one data_with_features c1) as [info|e] eqn:E1; [|discriminate Hrun].
    destruct (IH _ _ _ _ x Hrun Hx) as [H|H]; [|now right].
    apply dict_set_In in H. destruct H as [->|H]; [|now left].
    right. exists info. auto.
Qed.

Lemma train_category_metrics (data_with_features : list FeatureRow) (c : string)
    (info : ModelInfo) :
  train_one data_with_features c = Ok info ->
  0 <= MAE (performance info) /\
  ((forall x, 0 <= x -> 0 <= np_sqrt x) -> 0 <= RMSE (performance info)) /\
  (forall q, MAPE (performance info) = Fin q -> 0 <= q) /\
  MAPE (performance info) <> NInf.
Proof.
  intros H. pose proof (train_category_mape _ _ _ _ _ H) as [_ Hmape].
  unfold train_category in H.
  destruct (firstn _ _) as [|xy train]; [discriminate H|].
  injection H as <-. cbn [performance MAE RMSE MAPE] in *.
  split; [|split; [|split]].
  - apply round_nonneg. unfold mean_absolute_error. apply mean_nonneg.
    apply List.Forall_forall. intros x Hx. apply in_map_iff in Hx.
    destruct Hx as (yp & <- & _). apply Qabs_nonneg.
  - intros Hsqrt. apply round_nonneg, Hsqrt. unfold mean_squared_error.
    apply mean_nonneg. apply List.Forall_forall. intros x Hx. apply in_map_iff in Hx.
    destruct Hx as (yp & <- & _). apply Qsquare_nonneg.
  - exact Hmape.
  - unfold xround. intros E.
    destruct (mape_of _ _) eqn:Em; try discriminate E.
    now apply mape_of_not_NInf in Em.
Qed.

End TrainingProperties.

Section TrainingTheorems.

Variable np_pi : Q.
Variables np_sin np_cos np_sqrt : Q -> Q.
Variable fit_predict : list (list Q * Q) -> list Q -> Q.

Local Abbreviation train_of :=
  (train_demand_forecasting_models np_pi np_sin np_cos np_sqrt fit_predict).
Local Abbreviation features_of := (create_demand_features np_pi np_sin np_cos).

(** X18. A category with at most one usable feature row (a category with a
    single record, say) makes the whole training raise [ValueError]: no
    performance is returned for any category, and the category gets no
    model. *)
Theorem training_aborts_on_single_row_category (self : InventoryOptimizer)
    (data : list DemandRecord) (c : string) :
  sample_data self = Some data ->
  In c (map dr_category data) ->
  (length (dropna (map snd (category_frame c (features_of data)))) <= 1)%nat ->
  snd (train_of self) = Raise ValueError /\
  dict_get c (forecast_models (fst (train_of self))) = dict_get c (forecast_models self).
Proof.
  intros Hd Hin Hrows. unfold train_demand_forecasting_models. rewrite Hd.
  cbn [fst snd set_forecast_models forecast_models].
  rewrite create_demand_features_category.
  destruct (train_loop_raises np_sqrt fit_predict (features_of data)
              (unique (map dr_category data)) c (forecast_models self) [])
    as [Hr Hm].
  - now apply unique_In.
  - now apply train_category_raises.
  - rewrite Hr. auto.
Qed.

Lemma train_unfold (self : InventoryOptimizer) (data : list DemandRecord) :
  sample_data self = Some data ->
  train_of self
  = (set_forecast_models self
       (fst (train_loop np_sqrt fit_predict (features_of data)
               (unique (map dr_category data)) (forecast_models self) [])),
     match snd (train_loop np_sqrt fit_predict (features_of data)
                  (unique (map dr_category data)) (forecast_models self) []) with
     | Ok models_performance => Ok (Some models_performance)
     | Raise e => Raise e
     end).
Proof.
  intros Hd. unfold train_demand_forecasting_models.
  rewrite Hd, create_demand_features_category. reflexivity.
Qed.

(** X19. Training again changes nothing: when a training returns, a second
    training on the optimizer it leaves returns the same performance and
    leaves the same optimizer. *)
Theorem training_is_idempotent (self : InventoryOptimizer)
    (r : option (list (string * Performance))) :
  snd (train_of self) = Ok r ->
  train_of (fst (train_of self)) = (fst (train_of self), Ok r).
Proof.
  destruct (sample_data self) as [data|] eqn:Hd.
  - rewrite (train_unfold self data Hd).
    destruct (train_loop np_sqrt fit_predict (features_of data)
                (unique (map dr_category data)) (forecast_models self) [])
      as [models' [perf'|e]] eqn:Hrun; [|discriminate].
    cbn [fst snd]. intros [= <-].
    assert (Hd1 : sample_data (set_forecast_models self models') = Some data) by exact Hd.
    rewrite (train_unfold _ data Hd1).
    change (forecast_models (set_forecast_models self models')) with models'.
    rewrite (train_loop_fixpoint np_sqrt fit_predict (features_of data)
               (unique (map dr_category data)) (forecast_models self) models' []).
    + rewrite Hrun. reflexivity.
    + intros c Hc.
      exact (train_loop_ok_all np_sqrt fit_predict _ _ _ _ _ _ (unique_NoDup _) Hrun c Hc).
  - unfold train_demand_forecasting_models. rewrite Hd. cbn [fst snd]. rewrite Hd.
    intros [= <-]. reflexivity.
Qed.

(** X20. Every entry of a returned performance report has an MAE that is not
    negative, an RMSE that is not negative when the square root of a number
    that is not negative is not, and a MAPE that is a number that is not
    negative, or else [inf] or [nan], never a negative infinity. *)
Theorem training_metrics_nonneg (self : InventoryOptimizer)
    (perf : list (string * Performance)) (c : string) (p : Performance) :
  (forall x, 0 <= x -> 0 <= np_sqrt x) ->
  snd (train_of self) = Ok (Some perf) ->
  In (c, p) perf ->
  0 <= MAE p /\ 0 <= RMSE p /\ (forall q, MAPE p = Fin q -> 0 <= q) /\ MAPE p <> NInf.
Proof.
  intros Hsqrt. unfold train_demand_forecasting_models.
  destruct (sample_data self) as [data|]; [|discriminate].
  cbn [snd].
  destruct (train_loop np_sqrt fit_predict (features_of data) _ (forecast_models self) [])
    as [models' [perf'|e]] eqn:Hrun; [|discriminate].
  cbn [snd]. intros [= <-] Hin.
  destruct (train_loop_perf_In np_sqrt fit_predict _ _ _ _ _ _ _ Hrun Hin)
    as [[]|(info & Hinfo & Hp)].
  cbn [fst snd] in Hinfo, Hp. subst p.
  destruct (train_category_metrics np_sqrt fit_predict _ _ _ Hinfo) as (H1 & H2 & H3 & H4).
  auto.
Qed.

End TrainingTheorems.

(** The data of [Demo.dairy] with one more record, alone in its category. *)
Lemma training_aborts_on_single_row_category_witness :
  snd (Demo.train (Demo.optimizer (Demo.dairy ++ Demo.hourly "Bakery" [3]) Demo.shelf))
    = Raise ValueError.
Proof.
  apply (training_aborts_on_single_row_category Demo.pi Demo.sin Demo.cos Demo.sqrt
           Demo.fit_predict
           (Demo.optimizer (Demo.dairy ++ Demo.hourly "Bakery" [3]) Demo.shelf)
           (Demo.dairy ++ Demo.hourly "Bakery" [3]) "Bakery" eq_refl).
  - vm_compute. do 5 right. left. reflexivity.
  - vm_compute. lia.
Defined.

(** The trained demonstration optimizer, trained again. *)
Lemma training_is_idempotent_witness :
  exists perf : list (string * Performance),
    snd (Demo.train (Demo.optimizer Demo.with_bakery Demo.shelf)) = Ok (Some perf) /\
    Demo.train (Demo.trained Demo.with_bakery Demo.shelf)
    = (Demo.trained Demo.with_bakery Demo.shelf, Ok (Some perf)).
Proof.
  eexists. split; [vm_compute; reflexivity|].
  apply (training_is_idempotent Demo.pi Demo.sin Demo.cos Demo.sqrt Demo.fit_predict
           (Demo.optimizer Demo.with_bakery Demo.shelf)).
  vm_compute. reflexivity.
Defined.

(** The entry of Bakery in the performance report of [Demo.with_bakery]. *)
Lemma training_metrics_nonneg_witness :
  exists (perf : list (string * Performance)) (p : Performance),
    snd (Demo.train (Demo.optimizer Demo.with_bakery Demo.shelf)) = Ok (Some perf) /\
    In ("Bakery"%string, p) perf /\
    0 <= MAE p /\ 0 <= RMSE p.
Proof.
  do 2 eexists.
  assert (H : forall perf p,
             snd (Demo.train (Demo.optimizer Demo.with_bakery Demo.shelf)) = Ok (Some perf) ->
             In ("Bakery"%string, p) perf ->
             snd (Demo.train (Demo.optimizer Demo.with_bakery Demo.shelf)) = Ok (Some perf) /\
             In ("Bakery"%string, p) perf /\ 0 <= MAE p /\ 0 <= RMSE p).
  { intros perf p Hrun Hin.
    destruct (training_metrics_nonneg Demo.pi Demo.sin Demo.cos Demo.sqrt Demo.fit_predict
                (Demo.optimizer Demo.with_bakery Demo.shelf) perf "Bakery" p
                demo_sqrt_nonneg Hrun Hin) as (H1 & H2 & _).
    auto. }
  apply H.
  - vm_compute. reflexivity.
  - right. left. reflexivity.
Defined.

(** ** Training and forecast together *)



Section TrainingAndForecast.

Variable np_pi : Q.
Variables np_sin np_cos np_sqrt : Q -> Q.
Variable fit_predict : list (list Q * Q) -> list Q -> Q.

Local Abbreviation train_of :=
  (train_demand_forecasting_models np_pi np_sin np_cos np_sqrt fit_predict).
Local Abbreviation features_of := (create_demand_features np_pi np_sin np_cos).
Local Abbreviation forecast_of := (forecast_demand np_pi np_sin np_cos fit_predict).
Local Abbreviation usable_rows data c :=
  (dropna (map snd (category_frame c (features_of data)))).



End TrainingAndForecast.


(** ** The report *)

Section ReportProperties.

Variable np_pi : Q.
Variables np_sin np_cos np_sqrt : Q -> Q.
Variable fit_predict : list (list Q * Q) -> list Q -> Q.
Variable load_data : InventoryOptimizer -> InventoryOptimizer * bool.
Variable now : string.

Local Abbreviation train_of :=
  (train_demand_forecasting_models np_pi np_sin np_cos np_sqrt fit_predict).
Local Abbreviation features_of := (create_demand_features np_pi np_sin np_cos).
Local Abbreviation forecast_of := (forecast_demand np_pi np_sin np_cos fit_predict).
Local Abbreviation schedule_of :=
  (generate_restocking_schedule np_pi np_sin np_cos np_sqrt fit_predict).
Local Abbreviation report_of :=
  (create_optimization_report np_pi np_sin np_cos np_sqrt fit_predict load_data now).

(** The training succeeds when every category has two usable rows. *)
Lemma train_succeeds (self : InventoryOptimizer) (data : list DemandRecord) :
  sample_data self = Some data ->
  (forall c, In c (map dr_category data) ->
     (2 <= length (dropna (map snd (category_frame c (features_of data)))))%nat) ->
  exists models' perf,
    train_of self = (set_forecast_models self models', Ok (Some perf)) /\
    map fst perf = unique (map dr_category data) /\
    (data <> [] -> models' <> []).
Proof.
  intros Hd Hrows. rewrite (train_unfold _ _ _ _ _ self data Hd).
  destruct (train_loop_all np_sqrt fit_predict (features_of data)
              (unique (map dr_category data)) (forecast_models self) [])
    as (models' & perf' & Hrun & Hkeys & Hin & _).
  - apply unique_NoDup.
  - intros c _ [].
  - intros c Hc. apply (proj1 (unique_In _ _)) in Hc.
    destruct (train_category_ok np_sqrt fit_predict (features_of data) c (Hrows c Hc))
      as (info & Hinfo & _).
    eauto.
  - rewrite Hrun. cbn [fst snd]. exists models', perf'.
    split; [reflexivity|]. split; [exact Hkeys|].
    intros Hne E. destruct data as [|r data]; [contradiction|].
    destruct (Hin (dr_category r)) as (info & _ & Hget & _).
    + apply unique_In. now left.
    + rewrite E in Hget. discriminate Hget.
Qed.

(** The planner on loaded data: it raises [IndexError] for a row of unknown
    category, and plans every row otherwise. *)
Lemma planner_result (self : InventoryOptimizer) (service_level : Q)
    (data : list DemandRecord) (inventory : list InventoryItem) :
  sample_data self = Some data ->
  inventory_data self = Some inventory ->
  ((exists row, In row inventory /\ ~ In (inv_category row) (map dr_category data)) ->
   calculate_optimal_stock_levels np_sqrt self service_level = Raise IndexError) /\
  ((forall row, In row inventory -> In (inv_category row) (map dr_category data)) ->
   exists plans,
     calculate_optimal_stock_levels np_sqrt self service_level = Ok (Some plans) /\
     List.Forall2
       (fun row p => plan_row np_sqrt (groupby_agg np_sqrt data) service_level row = Ok p)
       inventory plans).
Proof.
  intros Hd Hi.
  unfold calculate_optimal_stock_levels, mbind, result_bind, Py.bind, mret, result_ret.
  rewrite Hd, Hi.
  destruct (plan_rows_result np_sqrt (groupby_agg np_sqrt data) service_level inventory)
    as [[Hex Hraise]|[Hall (plans & Hok & Hrows)]].
  - split; [intros _; now rewrite Hraise|].
    intros Hknown. exfalso.
    apply List.Exists_exists in Hex. destruct Hex as (row & Hrow & Hnone).
    destruct (proj1 (find_groupby_agg np_sqrt (inv_category row) data)
                (Hknown row Hrow)) as (s & Hs & _).
    congruence.
  - split.
    + intros (row & Hrow & Hunknown). exfalso.
      rewrite List.Forall_forall in Hall. apply (Hall row Hrow).
      now apply find_groupby_agg.
    + intros _. exists plans. rewrite Hok. auto.
Qed.

Lemma omap_restock_rows (demand_stats : list DemandStats) (service_level : Q)
    (demand_summary : list (string * Q)) (inventory : list InventoryItem)
    (plans : list StockLevelPlan) :
  List.Forall2 (fun row p => plan_row np_sqrt demand_stats service_level row = Ok p)
               inventory plans ->
  map action_item (omap (restock_row demand_summary plans) inventory)
  = map inventory_item inventory.
Proof.
  intros Hplans.
  assert (Hall : forall item, In item inventory ->
             exists a, restock_row demand_summary plans item = Some a /\
                       action_item a = inventory_item item).
  { intros item Hitem.
    destruct (restock_row_total np_sqrt _ _ demand_summary _ _ _ Hplans Hitem)
      as (a & _ & _ & Ha & Hk & _). eauto. }
  clear Hplans. induction inventory as [|item rest IH]; [reflexivity|].
  destruct (Hall item (or_introl eq_refl)) as (a & Ha & Hk).
  cbn [omap list_omap]. rewrite Ha. cbn [map]. rewrite Hk. f_equal.
  apply IH. intros i Hin. apply Hall. now right.
Qed.

(** The schedule is returned, with one row per inventory row, when there are
    models, records, inventory rows of known categories, and a positive
    horizon. *)
Lemma schedule_succeeds (self : InventoryOptimizer) (horizon : Z)
    (data : list DemandRecord) (inventory : list InventoryItem) :
  forecast_models self <> [] ->
  sample_data self = Some data ->
  data <> [] ->
  inventory_data self = Some inventory ->
  inventory <> [] ->
  (forall row, In row inventory -> In (inv_category row) (map dr_category data)) ->
  (0 < horizon)%Z ->
  exists schedule,
    schedule_of self horizon = Ok (Some schedule) /\
    length schedule = length inventory.
Proof.
  intros Hm Hd Hne Hi Hinv Hknown Hh.
  destruct (forecast_demand_ok np_pi np_sin np_cos fit_predict self horizon data Hm Hd Hne)
    as (last & _ & Hrun).
  destruct (proj2 (planner_result self (95 # 100) data inventory Hd Hi) Hknown)
    as (plans & Hplan & Hrows).
  unfold generate_restocking_schedule, mbind, result_bind, Py.bind.
  rewrite Hrun, Hplan, Hi.
  set (forecasts := flat_map _ (forecast_models self)).
  assert (Hf : exists f fs, forecasts = f :: fs).
  { subst forecasts. destruct (forecast_models self) as [|km ms]; [contradiction|].
    unfold future_timestamps.
    destruct (Z.to_nat horizon) as [|n] eqn:En; [lia|].
    cbn [seq map flat_map app]. eauto. }
  destruct Hf as (f & fs & ->). cbn [map list_min_Z].
  set (t0 := fold_left Z.min _ _).
  pose proof (omap_restock_rows _ _ (demand_summary_of (f :: fs) t0) _ _ Hrows) as Hmap.
  apply (f_equal (@length _)) in Hmap. rewrite !length_map in Hmap.
  destruct (omap _ inventory) as [|a rows] eqn:Eomap.
  - destruct inventory; [contradiction|discriminate Hmap].
  - eexists. split; [reflexivity|].
    rewrite <- (Permutation_length (sort_values_Permutation schedule_leb (a :: rows))).
    exact Hmap.
Qed.

(** X21. A row of unknown category in the inventory aborts the whole report:
    with the files loaded, records present and every category trainable,
    [create_optimization_report] raises the [IndexError] of the planner and
    returns no report, not even the parts that do not depend on the
    planner. *)
Theorem report_aborts_on_unknown_category (self loaded : InventoryOptimizer)
    (data : list DemandRecord) (inventory : list InventoryItem) :
  load_data self = (loaded, true) ->
  sample_data loaded = Some data ->
  inventory_data loaded = Some inventory ->
  data <> [] ->
  (forall c, In c (map dr_category data) ->
     (2 <= length (dropna (map snd (category_frame c (features_of data)))))%nat) ->
  (exists row, In row inventory /\ ~ In (inv_category row) (map dr_category data)) ->
  snd (report_of self) = Raise IndexError.
Proof.
  intros Hload Hd Hi Hne Hrows Hunknown.
  unfold create_optimization_report. rewrite Hload. cbn [fst snd negb].
  destruct (train_succeeds loaded data Hd Hrows) as (models' & perf & Htrain & _ & Hm).
  rewrite Htrain. cbn [fst snd].
  set (self1 := set_forecast_models loaded models').
  assert (Hd1 : sample_data self1 = Some data) by exact Hd.
  assert (Hi1 : inventory_data self1 = Some inventory) by exact Hi.
  destruct (forecast_demand_ok np_pi np_sin np_cos fit_predict self1 24 data
              (Hm Hne) Hd1 Hne) as (last & _ & Hrun).
  rewrite Hrun.
  rewrite (proj1 (planner_result self1 (95 # 100) data inventory Hd1 Hi1) Hunknown).
  reflexivity.
Qed.

(** X22. The report is returned in full when the files are loaded, every
    category has at least two usable feature rows, the inventory is not empty
    and each of its categories has records: it then holds a performance entry
    per category, a forecast, one plan and one schedule row per inventory row,
    and a cost analysis. *)
Theorem report_returned (self loaded : InventoryOptimizer)
    (data : list DemandRecord) (inventory : list InventoryItem) :
  load_data self = (loaded, true) ->
  sample_data loaded = Some data ->
  inventory_data loaded = Some inventory ->
  (forall c, In c (map dr_category data) ->
     (2 <= length (dropna (map snd (category_frame c (features_of data)))))%nat) ->
  inventory <> [] ->
  (forall row, In row inventory -> In (inv_category row) (map dr_category data)) ->
  exists (report : OptimizationReport) (perf : list (string * Performance))
         (forecasts : list ForecastPoint) (plans : list StockLevelPlan)
         (schedule : list RestockAction) (costs : CostAnalysis),
    snd (report_of self) = Ok (Some report) /\
    model_performance report = Some perf /\
    map fst perf = unique (map dr_category data) /\
    demand_forecasts report = Some forecasts /\
    optimal_stock_levels report = Some plans /\
    length plans = length inventory /\
    restocking_schedule report = Some schedule /\
    length schedule = length inventory /\
    cost_analysis report = Some costs.
Proof.
  intros Hload Hd Hi Hrows Hinv Hknown.
  assert (Hne : data <> []).
  { destruct inventory as [|row rest]; [contradiction|].
    specialize (Hknown row (or_introl eq_refl)). intros ->. destruct Hknown. }
  unfold create_optimization_report. rewrite Hload. cbn [fst snd negb].
  destruct (train_succeeds loaded data Hd Hrows) as (models' & perf & Htrain & Hkeys & Hm).
  rewrite Htrain. cbn [fst snd].
  set (self1 := set_forecast_models loaded models').
  assert (Hd1 : sample_data self1 = Some data) by exact Hd.
  assert (Hi1 : inventory_data self1 = Some inventory) by exact Hi.
  assert (Hm1 : forecast_models self1 <> []) by exact (Hm Hne).
  destruct (forecast_demand_ok np_pi np_sin np_cos fit_predict self1 24 data Hm1 Hd1 Hne)
    as (last & _ & Hrun).
  rewrite Hrun.
  destruct (proj2 (planner_result self1 (95 # 100) data inventory Hd1 Hi1) Hknown)
    as (plans & Hplan & Hplans).
  rewrite Hplan.
  destruct (schedule_succeeds self1 72 data inventory Hm1 Hd1 Hne Hi1 Hinv Hknown
              ltac:(lia)) as (schedule & Hschedule & Hlen).
  rewrite Hschedule.
  unfold calculate_inventory_costs. rewrite Hi1, Hd1. cbn [fst snd].
  do 6 eexists. split; [reflexivity|].
  cbn [model_performance demand_forecasts optimal_stock_levels restocking_schedule
       cost_analysis].
  repeat split; try reflexivity; try assumption.
  apply Forall2_length in Hplans. now rewrite Hplans.
Qed.

End ReportProperties.

(** On the five Dairy records and a shelf with one Household row, the report
    raises [IndexError]. *)
Lemma report_aborts_on_unknown_category_witness :
  snd (Demo.report Demo.dairy Demo.mixed_shelf (Demo.optimizer [] [])) = Raise IndexError.
Proof.
  apply (report_aborts_on_unknown_category Demo.pi Demo.sin Demo.cos Demo.sqrt
           Demo.fit_predict (Demo.load Demo.dairy Demo.mixed_shelf)
           "2024-01-01 00:00:00" (Demo.optimizer [] [])
           (fst (Demo.load Demo.dairy Demo.mixed_shelf (Demo.optimizer [] [])))
           Demo.dairy Demo.mixed_shelf eq_refl eq_refl eq_refl).
  - discriminate.
  - intros c Hc. vm_compute in Hc.
    repeat (destruct Hc as [<-|Hc]; [vm_compute; lia|]). destruct Hc.
  - exists (Demo.item "DS1" "Soap" "Household" 4 12 3). split.
    + vm_compute. tauto.
    + vm_compute. intros H.
      repeat (destruct H as [H|H]; [discriminate H|]). destruct H.
Defined.

(** On the five Dairy records and the Dairy shelf of four rows, the report is
    returned with four plans and four schedule rows. *)
Lemma report_returned_witness :
  exists (report : OptimizationReport) (perf : list (string * Performance))
         (forecasts : list ForecastPoint) (plans : list StockLevelPlan)
         (schedule : list RestockAction) (costs : CostAnalysis),
    snd (Demo.report Demo.dairy Demo.shelf (Demo.optimizer [] [])) = Ok (Some report) /\
    model_performance report = Some perf /\
    map fst perf = unique (map dr_category Demo.dairy) /\
    demand_forecasts report = Some forecasts /\
    optimal_stock_levels report = Some plans /\
    length plans = length Demo.shelf /\
    restocking_schedule report = Some schedule /\
    length schedule = length Demo.shelf /\
    cost_analysis report = Some costs.
Proof.
  apply (report_returned Demo.pi Demo.sin Demo.cos Demo.sqrt
           Demo.fit_predict (Demo.load Demo.dairy Demo.shelf)
           "2024-01-01 00:00:00" (Demo.optimizer [] [])
           (fst (Demo.load Demo.dairy Demo.shelf (Demo.optimizer [] [])))
           Demo.dairy Demo.shelf eq_refl eq_refl eq_refl).
  - intros c Hc. vm_compute in Hc.
    repeat (destruct Hc as [<-|Hc]; [vm_compute; lia|]). destruct Hc.
  - discriminate.
  - intros row Hrow. vm_compute in Hrow.
    repeat (destruct Hrow as [<-|Hrow]; [vm_compute; tauto|]). destruct Hrow.
Defined.
